(** * flow2api: the browser captcha service

    A shallow embedding of [src/services/browser_captcha_personal.py]
    (class [BrowserCaptchaService]) and the properties of its token
    acquisition paths.

    The service drives a real browser through the nodriver library.  The
    browser, the clock and the file system are the environment of the
    program: they are modelled by a [driver], a deterministic state machine
    over an abstract world, each of whose operations may raise.  The methods
    of the class are programs of a small monad that threads the instance
    attributes and the world, may raise a Python exception, and records every
    call it makes to the environment as an event. *)

From Stdlib Require Import ZArith List String Bool Lia.
Import ListNotations.
Open Scope string_scope.
Open Scope list_scope.

(** ** Python values, exceptions *)

(** What [tab.evaluate] hands back: the value of a JavaScript expression as
    a Python object.  The code only tests these values for truthiness and
    compares them with a string. *)
Inductive pyval : Type :=
| PNone
| PBool (b : bool)
| PInt (z : Z)
| PStr (s : string).

(** Python's truth value testing: [None], [False], [0] and the empty string
    are false. *)
Definition truthy (v : pyval) : bool :=
  match v with
  | PNone => false
  | PBool b => b
  | PInt z => negb (Z.eqb z 0)
  | PStr s => negb (String.eqb s EmptyString)
  end.

(** [v == s] for a string literal [s]. *)
Definition eq_str (v : pyval) (s : string) : bool :=
  match v with
  | PStr s' => String.eqb s' s
  | _ => false
  end.

(** The exceptions the code tells apart: [ConnectionRefusedError] has a
    handler of its own in the page-load loop, [AttributeError] is what an
    attribute access on [None] or on a missing attribute raises, and every
    other [Exception] is handled alike.  What is not an [Exception] (the
    cancellation of the task, the exit of the interpreter) comes from the
    event loop and not from the calls made here; it is not modelled. *)
Inductive exn : Type :=
| ConnectionRefusedError
| AttributeError
| OtherException (what : string).

Inductive res (A : Type) : Type :=
| Ret (a : A)
| Raise (e : exn).
Arguments Ret {A} a.
Arguments Raise {A} e.

Definition is_ret {A} (r : res A) : bool :=
  match r with Ret _ => true | Raise _ => false end.

(** ** Handles and scripts *)

Definition Tab := nat.
Definition Browser := nat.

(** The two page globals of one execution, [_recaptcha_token_{ts}] and
    [_recaptcha_error_{ts}]. *)
Inductive jsvar : Type :=
| TokenVar (ts : Z)
| ErrorVar (ts : Z).

(** The JavaScript sources passed to [tab.evaluate], one constructor for each
    source text of the class, with the values interpolated into it. *)
Inductive script : Type :=
| DocumentReadyState
| EnterpriseExecuteIsFunction
| InjectRecaptchaScript (website_key : string)
| ExecuteEnterprise (website_key : string) (token_var error_var : jsvar)
| ReadWindowVar (v : jsvar)
| DeleteWindowVars (token_var error_var : jsvar).

Definition is_inject (s : script) : bool :=
  match s with InjectRecaptchaScript _ => true | _ => false end.

Definition is_readiness_check (s : script) : bool :=
  match s with EnterpriseExecuteIsFunction => true | _ => false end.

(** ** The environment *)

(** Times are in milliseconds: [asyncio.sleep(1)] is [1000],
    [tab.sleep(0.5)] is [500], and [time_time] is [int(time.time() * 1000)]. *)
Record driver : Type := {
  W : Type;
  time_time : W -> Z * W;
  os_makedirs : string -> W -> res unit * W;
  uc_start : bool -> string -> W -> res Browser * W;
  browser_stopped : Browser -> W -> res bool * W;
  browser_get : Browser -> string -> bool -> W -> res Tab * W;
  browser_stop : Browser -> W -> res unit * W;
  tab_evaluate : Tab -> script -> W -> res pyval * W;
  tab_sleep : Tab -> Z -> W -> res unit * W;
  tab_close : Tab -> W -> res unit * W
}.

(** ** Events *)

(** The methods of the class, for the call events. *)
Inductive method : Type :=
| M_initialize
| M_start_resident_mode
| M_stop_resident_mode
| M_wait_for_recaptcha
| M_execute_recaptcha_on_tab
| M_get_token
| M_get_token_legacy
| M_close.

Inductive level : Type := Info | Warning | Error.

(** The messages handed to [debug_logger], one constructor for each call
    site.  Durations, which the code formats from floating-point clock
    differences, are left out of the message. *)
Inductive message : Type :=
| BrowserStoppedReinit
| BrowserUnresponsiveReinit
| StartingBrowser (user_data_dir : string)
| BrowserStarted (user_data_dir : string)
| BrowserStartFailed (e : exn)
| ResidentAlreadyRunning
| ResidentStarting (website_url : string)
| TabCreatedWaiting
| PageState (ready_state : pyval) (attempt : nat)
| TabConnectionLost (e : exn)
| TabRecreated
| TabRecreateFailed (e : exn)
| PageWaitException (e : exn) (attempt : nat)
| PageLoadTimeout
| RecaptchaLoadFailed
| ResidentStarted (project_id : string)
| ResidentStopped
| DetectingRecaptcha
| EnterpriseLoaded
| InjectingScript
| EnterpriseLoadedAfter (polls : nat)
| RecaptchaLoadTimeout
| RecaptchaError (error : pyval)
| ResidentGenerating
| TokenGenerated
| ResidentFailedFallback
| ResidentNotReadyFallback
| LegacyVisiting (website_url : string)
| LegacyWaitingLoad
| LegacyRecaptchaUnavailable
| LegacyExecuting
| LegacyTokenOk
| LegacyTokenNull
| LegacyException (e : exn)
| BrowserCloseException (e : exn)
| BrowserClosed
| BrowserCloseError (e : exn).

(** What a run leaves behind.  [EvCall] marks the entry of a method (the
    call-count instrumentation); the others are the calls made to the logger
    and to the environment, in order.  [EvOpen] carries the tab that
    [browser.get] returned, if it returned.  Logging and [asyncio.sleep]
    leave their event and do nothing else. *)
Inductive event : Type :=
| EvCall (m : method)
| EvLog (l : level) (msg : message)
| EvTime
| EvMakedirs (path : string)
| EvStart (headless : bool) (user_data_dir : string)
| EvStopped (b : Browser)
| EvOpen (url : string) (new_tab : bool) (opened : option Tab)
| EvStop (b : Browser)
| EvEvaluate (t : Tab) (s : script)
| EvTabSleep (t : Tab) (ms : Z)
| EvSleep (ms : Z)
| EvClose (t : Tab).

Definition is_open (e : event) : bool :=
  match e with EvOpen _ _ _ => true | _ => false end.

Definition is_close (e : event) : bool :=
  match e with EvClose _ => true | _ => false end.

Definition is_stop (e : event) : bool :=
  match e with EvStop _ => true | _ => false end.

Definition is_call (m : method) (e : event) : bool :=
  match e, m with
  | EvCall M_initialize, M_initialize
  | EvCall M_start_resident_mode, M_start_resident_mode
  | EvCall M_stop_resident_mode, M_stop_resident_mode
  | EvCall M_wait_for_recaptcha, M_wait_for_recaptcha
  | EvCall M_execute_recaptcha_on_tab, M_execute_recaptcha_on_tab
  | EvCall M_get_token, M_get_token
  | EvCall M_get_token_legacy, M_get_token_legacy
  | EvCall M_close, M_close => true
  | _, _ => false
  end.

Definition is_evaluate (p : script -> bool) (e : event) : bool :=
  match e with EvEvaluate _ s => p s | _ => false end.

Definition count (p : event -> bool) (l : list event) : nat :=
  List.length (filter p l).

(** ** The instance *)

(** The attributes that [__init__] assigns, which are all the attributes the
    class ever assigns through [self]. *)
Record service : Type := {
  headless : bool;
  browser : option Browser;
  _initialized : bool;
  website_key : string;
  db : option nat;
  user_data_dir : string;
  resident_project_id : option string;
  resident_tab : option Tab;
  _running : bool;
  _recaptcha_ready : bool
}.

(** [__init__(self, db=None)]; [cwd] is what [os.getcwd()] returns. *)
Definition __init__ (cwd : string) (db : option nat) : service :=
  {| headless := false;
     browser := None;
     _initialized := false;
     website_key := "6LdsFiUsAAAAAIjVDZcuLhaHiDn5nnHVXVRQGeMV";
     db := db;
     user_data_dir := (cwd ++ "/browser_data")%string;
     resident_project_id := None;
     resident_tab := None;
     _running := false;
     _recaptcha_ready := false |}.

Definition set_browser (v : option Browser) (s : service) : service :=
  {| headless := headless s; browser := v; _initialized := _initialized s;
     website_key := website_key s; db := db s; user_data_dir := user_data_dir s;
     resident_project_id := resident_project_id s; resident_tab := resident_tab s;
     _running := _running s; _recaptcha_ready := _recaptcha_ready s |}.

Definition set_initialized (v : bool) (s : service) : service :=
  {| headless := headless s; browser := browser s; _initialized := v;
     website_key := website_key s; db := db s; user_data_dir := user_data_dir s;
     resident_project_id := resident_project_id s; resident_tab := resident_tab s;
     _running := _running s; _recaptcha_ready := _recaptcha_ready s |}.

Definition set_resident_project_id (v : option string) (s : service) : service :=
  {| headless := headless s; browser := browser s; _initialized := _initialized s;
     website_key := website_key s; db := db s; user_data_dir := user_data_dir s;
     resident_project_id := v; resident_tab := resident_tab s;
     _running := _running s; _recaptcha_ready := _recaptcha_ready s |}.

Definition set_resident_tab (v : option Tab) (s : service) : service :=
  {| headless := headless s; browser := browser s; _initialized := _initialized s;
     website_key := website_key s; db := db s; user_data_dir := user_data_dir s;
     resident_project_id := resident_project_id s; resident_tab := v;
     _running := _running s; _recaptcha_ready := _recaptcha_ready s |}.

Definition set_running (v : bool) (s : service) : service :=
  {| headless := headless s; browser := browser s; _initialized := _initialized s;
     website_key := website_key s; db := db s; user_data_dir := user_data_dir s;
     resident_project_id := resident_project_id s; resident_tab := resident_tab s;
     _running := v; _recaptcha_ready := _recaptcha_ready s |}.

Definition set_recaptcha_ready (v : bool) (s : service) : service :=
  {| headless := headless s; browser := browser s; _initialized := _initialized s;
     website_key := website_key s; db := db s; user_data_dir := user_data_dir s;
     resident_project_id := resident_project_id s; resident_tab := resident_tab s;
     _running := _running s; _recaptcha_ready := v |}.

(** The state of the resident channel. *)
Definition resident_state (s : service) : bool * option string * option Tab * bool :=
  (_running s, resident_project_id s, resident_tab s, _recaptcha_ready s).

Definition is_some {A} (o : option A) : bool :=
  match o with Some _ => true | None => false end.

(** ** Attribute lookup *)

(** The objects that attribute lookup on an instance can yield: the values
    of the instance attributes, and the attributes of the class (its
    methods, [_instance] and [_lock]). *)
Inductive pyobj : Type :=
| OBool (b : bool)
| OStr (s : string)
| OOptStr (s : option string)
| OBrowser (b : option Browser)
| OTab (t : option Tab)
| ODb (d : option nat)
| OClassAttr (name : string).

(** The names bound in the body of the class. *)
Definition class_attributes : list string :=
  ["_instance"; "_lock"; "__init__"; "get_instance"; "initialize";
   "start_resident_mode"; "stop_resident_mode"; "_wait_for_recaptcha";
   "_execute_recaptcha_on_tab"; "get_token"; "_get_token_legacy"; "close";
   "open_login_window"; "is_resident_mode_active"; "get_queue_size";
   "get_resident_project_id"].

(** [getattr(self, name)]: the instance dictionary first, then the class. *)
Definition getattr (s : service) (name : string) : option pyobj :=
  if String.eqb name "headless" then Some (OBool (headless s))
  else if String.eqb name "browser" then Some (OBrowser (browser s))
  else if String.eqb name "_initialized" then Some (OBool (_initialized s))
  else if String.eqb name "website_key" then Some (OStr (website_key s))
  else if String.eqb name "db" then Some (ODb (db s))
  else if String.eqb name "user_data_dir" then Some (OStr (user_data_dir s))
  else if String.eqb name "resident_project_id" then Some (OOptStr (resident_project_id s))
  else if String.eqb name "resident_tab" then Some (OTab (resident_tab s))
  else if String.eqb name "_running" then Some (OBool (_running s))
  else if String.eqb name "_recaptcha_ready" then Some (OBool (_recaptcha_ready s))
  else if existsb (String.eqb name) class_attributes then Some (OClassAttr name)
  else None.

(** [obj.qsize()]: none of the objects above is a queue. *)
Definition qsize (o : pyobj) : res Z := Raise AttributeError.

(** [get_queue_size]: [return self.token_queue.qsize()]. *)
Definition get_queue_size (s : service) : res Z :=
  match getattr s "token_queue" with
  | None => Raise AttributeError
  | Some q => qsize q
  end.

Definition is_resident_mode_active (s : service) : bool := _running s.

Definition get_resident_project_id (s : service) : option string :=
  resident_project_id s.

(** [self.resident_project_id == project_id], where the left side may be
    [None]. *)
Definition id_eq (o : option string) (project_id : string) : bool :=
  match o with
  | Some p => String.eqb p project_id
  | None => false
  end.

Definition project_url (project_id : string) : string :=
  ("https://labs.google/fx/tools/flow/project/" ++ project_id)%string.

(** ** The monad *)

Section Monad.

Variable D : driver.

Record state : Type := { svc : service; world : W D }.

Record outcome (A : Type) : Type := {
  result : res A;
  final : state;
  events : list event
}.
Arguments result {A} o.
Arguments final {A} o.
Arguments events {A} o.

Definition M (A : Type) : Type := state -> outcome A.

Definition ret {A} (a : A) : M A :=
  fun st => {| result := Ret a; final := st; events := [] |}.

Definition raise {A} (e : exn) : M A :=
  fun st => {| result := Raise e; final := st; events := [] |}.

Definition bind {A B} (m : M A) (f : A -> M B) : M B :=
  fun st =>
    let o := m st in
    match result o with
    | Ret a =>
        let o' := f a (final o) in
        {| result := result o'; final := final o'; events := events o ++ events o' |}
    | Raise e => {| result := Raise e; final := final o; events := events o |}
    end.

(** [try: m  except Exception as e: h e] *)
Definition try_except {A} (m : M A) (h : exn -> M A) : M A :=
  fun st =>
    let o := m st in
    match result o with
    | Ret a => o
    | Raise e =>
        let o' := h e (final o) in
        {| result := result o'; final := final o'; events := events o ++ events o' |}
    end.

(** [try: m  finally: f]: [f] runs however [m] ends, and an exception of [f]
    replaces the outcome of [m]. *)
Definition try_finally {A} (m : M A) (f : M unit) : M A :=
  fun st =>
    let o := m st in
    let o' := f (final o) in
    {| result := match result o' with Ret _ => result o | Raise e => Raise e end;
       final := final o';
       events := events o ++ events o' |}.

(** [try: m  except Exception: pass] *)
Definition suppress (m : M unit) : M unit :=
  try_except m (fun _ => ret tt).

Definition emit (e : event) : M unit :=
  fun st => {| result := Ret tt; final := st; events := [e] |}.

Definition call (m : method) : M unit := emit (EvCall m).

Definition log (l : level) (msg : message) : M unit := emit (EvLog l msg).

Definition self : M service :=
  fun st => {| result := Ret (svc st); final := st; events := [] |}.

Definition assign (f : service -> service) : M unit :=
  fun st => {| result := Ret tt;
               final := {| svc := f (svc st); world := world st |};
               events := [] |}.

(** A call into the environment. *)
Definition env {A} (e : event) (f : W D -> res A * W D) : M A :=
  fun st =>
    let (r, w) := f (world st) in
    {| result := r; final := {| svc := svc st; world := w |}; events := [e] |}.

Definition time_now : M Z :=
  fun st =>
    let (t, w) := time_time D (world st) in
    {| result := Ret t; final := {| svc := svc st; world := w |}; events := [EvTime] |}.

Definition asyncio_sleep (ms : Z) : M unit := emit (EvSleep ms).

(** [await self.browser.get(url, new_tab=...)] *)
Definition open_page (url : string) (new_tab : bool) : M Tab :=
  fun st =>
    match browser (svc st) with
    | None => {| result := Raise AttributeError; final := st; events := [] |}
    | Some b =>
        let (r, w) := browser_get D b url new_tab (world st) in
        {| result := r;
           final := {| svc := svc st; world := w |};
           events := [EvOpen url new_tab
                        (match r with Ret t => Some t | Raise _ => None end)] |}
    end.

(** The methods of a tab, on a reference that may be [None]. *)
Definition evaluate (tab : option Tab) (s : script) : M pyval :=
  match tab with
  | None => raise AttributeError
  | Some t => env (EvEvaluate t s) (tab_evaluate D t s)
  end.

Definition sleep_tab (tab : option Tab) (ms : Z) : M unit :=
  match tab with
  | None => raise AttributeError
  | Some t => env (EvTabSleep t ms) (tab_sleep D t ms)
  end.

Definition close_tab (tab : option Tab) : M unit :=
  match tab with
  | None => raise AttributeError
  | Some t => env (EvClose t) (tab_close D t)
  end.

End Monad.

Arguments svc {D} s.
Arguments world {D} s.
Arguments result {D A} o.
Arguments final {D A} o.
Arguments events {D A} o.
Arguments ret {D A} a.
Arguments raise {D A} e.
Arguments bind {D A B} m f.
Arguments try_except {D A} m h.
Arguments try_finally {D A} m f.
Arguments suppress {D} m.
Arguments emit {D} e.
Arguments call {D} m.
Arguments log {D} l msg.
Arguments self {D}.
Arguments assign {D} f.
Arguments env {D A} e f.
Arguments time_now {D}.
Arguments asyncio_sleep {D} ms.
Arguments open_page {D} url new_tab.
Arguments evaluate {D} tab s.
Arguments sleep_tab {D} tab ms.
Arguments close_tab {D} tab.

Notation "x <- m ;; k" := (bind m (fun x => k))
  (at level 61, m at next level, right associativity).
Notation "m ;; k" := (bind m (fun _ => k))
  (at level 61, right associativity).

(** * The methods of [BrowserCaptchaService] *)

Section Service.

Variable D : driver.

(** ** [initialize] *)

(** The [try] block that launches the browser; a failure is logged and
    raised again. *)
Definition start_browser : M D unit :=
  try_except
    (s <- self ;;
     log Info (StartingBrowser (user_data_dir s)) ;;
     env (EvMakedirs (user_data_dir s)) (os_makedirs D (user_data_dir s)) ;;
     b <- env (EvStart (headless s) (user_data_dir s))
              (uc_start D (headless s) (user_data_dir s)) ;;
     assign (set_browser (Some b)) ;;
     assign (set_initialized true) ;;
     log Info (BrowserStarted (user_data_dir s)))
    (fun e => log Error (BrowserStartFailed e) ;; raise e).

(** The liveness check of a browser that is marked initialized: [true] when
    the method returns at once, [false] when it goes on to launch. *)
Definition check_alive (b : Browser) : M D bool :=
  try_except
    (stopped <- env (EvStopped b) (browser_stopped D b) ;;
     if stopped then
       log Warning BrowserStoppedReinit ;;
       assign (set_initialized false) ;;
       ret false
     else ret true)
    (fun _ =>
       log Warning BrowserUnresponsiveReinit ;;
       assign (set_initialized false) ;;
       ret false).

Definition initialize : M D unit :=
  call M_initialize ;;
  s <- self ;;
  alive <- match _initialized s, browser s with
           | true, Some b => check_alive b
           | _, _ => ret false
           end ;;
  if alive then ret tt else start_browser.

(** ** [_wait_for_recaptcha] *)

(** [for i in range(20)]: [n] iterations are left, [i] is the loop
    variable. *)
Fixpoint recaptcha_poll (n i : nat) (tab : option Tab) : M D bool :=
  match n with
  | O => log Warning RecaptchaLoadTimeout ;; ret false
  | S n' =>
      is_enterprise <- evaluate tab EnterpriseExecuteIsFunction ;;
      if truthy is_enterprise then
        log Info (EnterpriseLoadedAfter i) ;; ret true
      else
        sleep_tab tab 500 ;;
        recaptcha_poll n' (S i) tab
  end.

Definition _wait_for_recaptcha (tab : option Tab) : M D bool :=
  call M_wait_for_recaptcha ;;
  log Info DetectingRecaptcha ;;
  is_enterprise <- evaluate tab EnterpriseExecuteIsFunction ;;
  if truthy is_enterprise then
    log Info EnterpriseLoaded ;; ret true
  else
    log Info InjectingScript ;;
    s <- self ;;
    evaluate tab (InjectRecaptchaScript (website_key s)) ;;
    sleep_tab tab 3000 ;;
    recaptcha_poll 20 0 tab.

(** ** [_execute_recaptcha_on_tab] *)

(** [for i in range(30)], with the value [token] has when the loop is
    entered. *)
Fixpoint token_poll (n : nat) (tab : option Tab) (token_var error_var : jsvar)
    (token : pyval) : M D pyval :=
  match n with
  | O => ret token
  | S n' =>
      sleep_tab tab 500 ;;
      token <- evaluate tab (ReadWindowVar token_var) ;;
      if truthy token then ret token
      else
        error <- evaluate tab (ReadWindowVar error_var) ;;
        if truthy error then
          log Error (RecaptchaError error) ;; ret token
        else token_poll n' tab token_var error_var token
  end.

Definition _execute_recaptcha_on_tab (tab : option Tab) : M D pyval :=
  call M_execute_recaptcha_on_tab ;;
  ts <- time_now ;;
  let token_var := TokenVar ts in
  let error_var := ErrorVar ts in
  s <- self ;;
  evaluate tab (ExecuteEnterprise (website_key s) token_var error_var) ;;
  token <- token_poll 30 tab token_var error_var PNone ;;
  suppress (evaluate tab (DeleteWindowVars token_var error_var) ;; ret tt) ;;
  ret token.

(** ** The resident channel *)

(** [for retry in range(15)]: [n] iterations are left; the result is
    [page_loaded]. *)
Fixpoint page_load_loop (n retry : nat) (website_url : string) : M D bool :=
  match n with
  | O => ret false
  | S n' =>
      loaded <-
        try_except
          (asyncio_sleep 1000 ;;
           s <- self ;;
           ready_state <- evaluate (resident_tab s) DocumentReadyState ;;
           log Info (PageState ready_state (retry + 1)) ;;
           ret (eq_str ready_state "complete"))
          (fun e =>
             match e with
             | ConnectionRefusedError =>
                 log Warning (TabConnectionLost e) ;;
                 try_except
                   (t <- open_page website_url true ;;
                    assign (set_resident_tab (Some t)) ;;
                    log Info TabRecreated)
                   (fun e2 => log Error (TabRecreateFailed e2)) ;;
                 asyncio_sleep 2000 ;;
                 ret false
             | _ =>
                 log Warning (PageWaitException e (retry + 1)) ;;
                 asyncio_sleep 2000 ;;
                 ret false
             end) ;;
      if loaded then ret true else page_load_loop n' (S retry) website_url
  end.

(** The first part of [start_resident_mode] once it has found the channel
    not running: start the browser, store the project, open the tab. *)
Definition start_navigation (project_id : string) : M D unit :=
  initialize ;;
  assign (set_resident_project_id (Some project_id)) ;;
  let website_url := project_url project_id in
  log Info (ResidentStarting website_url) ;;
  t <- open_page website_url true ;;
  assign (set_resident_tab (Some t)) ;;
  log Info TabCreatedWaiting.

(** What [start_resident_mode] does once it has found the channel not
    running. *)
Definition start_resident_body (project_id : string) : M D unit :=
  start_navigation project_id ;;
  page_loaded <- page_load_loop 15 0 (project_url project_id) ;;
  if negb page_loaded then log Error PageLoadTimeout
  else
    s <- self ;;
    ready <- _wait_for_recaptcha (resident_tab s) ;;
    assign (set_recaptcha_ready ready) ;;
    if negb ready then log Error RecaptchaLoadFailed
    else
      assign (set_running true) ;;
      log Info (ResidentStarted project_id).

Definition start_resident_mode (project_id : string) : M D unit :=
  call M_start_resident_mode ;;
  s <- self ;;
  if _running s then log Warning ResidentAlreadyRunning
  else start_resident_body project_id.

Definition stop_resident_mode : M D unit :=
  call M_stop_resident_mode ;;
  s <- self ;;
  if negb (_running s) then ret tt
  else
    assign (set_running false) ;;
    match resident_tab s with
    | Some t =>
        suppress (close_tab (Some t)) ;;
        assign (set_resident_tab None)
    | None => ret tt
    end ;;
    assign (set_resident_project_id None) ;;
    assign (set_recaptcha_ready false) ;;
    log Info ResidentStopped.

(** ** [get_token] and the legacy path *)

(** [for _ in range(10)]: wait for the DOM, going on in any case. *)
Fixpoint legacy_dom_loop (n : nat) (tab : Tab) : M D unit :=
  match n with
  | O => ret tt
  | S n' =>
      ready_state <- evaluate (Some tab) DocumentReadyState ;;
      if eq_str ready_state "complete" then ret tt
      else
        sleep_tab (Some tab) 500 ;;
        legacy_dom_loop n' tab
  end.

(** The [try] block of [_get_token_legacy] from the point where [tab] is
    bound. *)
Definition legacy_on_tab (tab : Tab) : M D pyval :=
  log Info LegacyWaitingLoad ;;
  sleep_tab (Some tab) 3000 ;;
  legacy_dom_loop 10 tab ;;
  recaptcha_ready <- _wait_for_recaptcha (Some tab) ;;
  if negb recaptcha_ready then
    log Error LegacyRecaptchaUnavailable ;; ret PNone
  else
    log Info LegacyExecuting ;;
    token <- _execute_recaptcha_on_tab (Some tab) ;;
    time_now ;;
    if truthy token then
      log Info LegacyTokenOk ;; ret token
    else
      log Error LegacyTokenNull ;; ret PNone.

(** The [except Exception as e] clause of [_get_token_legacy]. *)
Definition legacy_except (e : exn) : M D pyval :=
  log Error (LegacyException e) ;; ret PNone.

(** [try ... except ... finally] of [_get_token_legacy].  The local [tab] is
    [None] until [browser.get] has returned: when that call raises, the
    [finally] clause finds [tab] false and closes nothing; afterwards it
    closes [tab], whatever the [try] block and the handler did. *)
Definition legacy_try (project_id : string) : M D pyval :=
  let website_url := project_url project_id in
  opened <-
    try_except
      (log Info (LegacyVisiting website_url) ;;
       tab <- open_page website_url false ;;
       ret (Ret tab))
      (fun e => ret (Raise e)) ;;
  match opened with
  | Raise e => legacy_except e
  | Ret tab =>
      try_finally
        (try_except (legacy_on_tab tab) legacy_except)
        (suppress (close_tab (Some tab)))
  end.

(** What [_get_token_legacy] does before its [try] statement: make sure the
    browser is started, and read the clock. *)
Definition legacy_prologue : M D unit :=
  s <- self ;;
  (if negb (_initialized s) || negb (is_some (browser s))
   then initialize else ret tt) ;;
  time_now ;;
  ret tt.

Definition _get_token_legacy (project_id : string) : M D pyval :=
  call M_get_token_legacy ;;
  legacy_prologue ;;
  legacy_try project_id.

(** The resident branch of [get_token]: [Some token] when it returns the
    token, [None] when control falls through to the legacy path. *)
Definition resident_attempt (project_id : string) : M D (option pyval) :=
  s <- self ;;
  if _running s && id_eq (resident_project_id s) project_id then
    if _recaptcha_ready s && is_some (resident_tab s) then
      time_now ;;
      log Info ResidentGenerating ;;
      token <- _execute_recaptcha_on_tab (resident_tab s) ;;
      time_now ;;
      if truthy token then
        log Info TokenGenerated ;; ret (Some token)
      else
        log Warning ResidentFailedFallback ;; ret None
    else
      log Warning ResidentNotReadyFallback ;; ret None
  else ret None.

Definition get_token (project_id : string) : M D pyval :=
  call M_get_token ;;
  served <- resident_attempt project_id ;;
  match served with
  | Some token => ret token
  | None => _get_token_legacy project_id
  end.

(** ** [close] *)

Definition close : M D unit :=
  call M_close ;;
  stop_resident_mode ;;
  try_except
    (s <- self ;;
     match browser s with
     | Some b =>
         try_finally
           (try_except (env (EvStop b) (browser_stop D b))
                       (fun e => log Warning (BrowserCloseException e)))
           (assign (set_browser None))
     | None => ret tt
     end ;;
     assign (set_initialized false) ;;
     log Info BrowserClosed)
    (fun e => log Error (BrowserCloseError e)).

End Service.

Arguments start_browser {D}.
Arguments check_alive {D} b.
Arguments recaptcha_poll {D} n i tab.
Arguments token_poll {D} n tab token_var error_var token.
Arguments page_load_loop {D} n retry website_url.
Arguments start_navigation {D} project_id.
Arguments start_resident_body {D} project_id.
Arguments legacy_dom_loop {D} n tab.
Arguments legacy_on_tab {D} tab.
Arguments legacy_except {D} e.
Arguments legacy_try {D} project_id.
Arguments legacy_prologue {D}.
Arguments resident_attempt {D} project_id.
Arguments initialize {D}.
Arguments _wait_for_recaptcha {D} tab.
Arguments _execute_recaptcha_on_tab {D} tab.
Arguments start_resident_mode {D} project_id.
Arguments stop_resident_mode {D}.
Arguments _get_token_legacy {D} project_id.
Arguments get_token {D} project_id.
Arguments close {D}.

(** * Vocabulary of the properties *)

(** Every value that [m] returns satisfies [Q]. *)
Definition returns (D : driver) {A} (Q : A -> Prop) (m : M D A) : Prop :=
  forall st, match result (m st) with Ret a => Q a | Raise _ => True end.

(** [m] changes the instance along [S] only and emits events of class [c]
    only. *)
Definition keeps (D : driver) (S : service -> service -> Prop) (c : event -> bool)
    {A} (m : M D A) : Prop :=
  forall st,
    S (svc st) (svc (final (m st))) /\ forallb c (events (m st)) = true.

(** The state of the resident channel is the same. *)
Definition same_resident (a b : service) : Prop :=
  resident_state a = resident_state b.

(** The channel is as much running, and bound to the same project. *)
Definition same_binding (a b : service) : Prop :=
  _running a = _running b /\ resident_project_id a = resident_project_id b.

(** A token as [get_token] may return it: [None] or a non-empty string. *)
Definition token_or_none (v : pyval) : Prop :=
  v = PNone \/ exists s, v = PStr s /\ s <> EmptyString.

Definition str_or_none (v : pyval) : Prop :=
  v = PNone \/ exists s, v = PStr s.

(** The page keeps its part of the contract of the executor's script: the
    token global holds [null] or the string that the challenge resolved
    to, so that reading it never yields a number or a boolean. *)
Definition typed_tokens (D : driver) : Prop :=
  forall (t : Tab) (ts : Z) (w : W D),
    match fst (tab_evaluate D t (ReadWindowVar (TokenVar ts)) w) with
    | Ret v => str_or_none v
    | Raise _ => True
    end.

(** What [get_token] may return: [None] or a true value, never the empty
    string, and a string when the page is typed as above. *)
Definition token_result (D : driver) (v : pyval) : Prop :=
  v <> PStr EmptyString /\
  (v = PNone \/ truthy v = true) /\
  (typed_tokens D -> token_or_none v).

(** The readiness check succeeds on [tab] in the world of [st]. *)
Definition ready_at_once (D : driver) (tab : Tab) (st : state D) : Prop :=
  match fst (tab_evaluate D tab EnterpriseExecuteIsFunction (world st)) with
  | Ret v => truthy v = true
  | Raise _ => False
  end.

(** The readiness check is never true on [tab]: in every world it returns,
    and returns a false value. *)
Definition never_ready (D : driver) (tab : Tab) : Prop :=
  forall w : W D,
    match fst (tab_evaluate D tab EnterpriseExecuteIsFunction w) with
    | Ret v => truthy v = false
    | Raise _ => False
    end.

(** [tab] takes the injection and sleeps without raising. *)
Definition obliging (D : driver) (tab : Tab) : Prop :=
  (forall key w,
     is_ret (fst (tab_evaluate D tab (InjectRecaptchaScript key) w)) = true) /\
  (forall ms w, is_ret (fst (tab_sleep D tab ms w)) = true).

(** The events that follow the first script injection. *)
Fixpoint after_injection (l : list event) : list event :=
  match l with
  | [] => []
  | e :: l' => if is_evaluate is_inject e then l' else after_injection l'
  end.

Definition injections (l : list event) : nat :=
  count (is_evaluate is_inject) l.

Definition readiness_checks (l : list event) : nat :=
  count (is_evaluate is_readiness_check) l.

(** The events of [initialize]. *)
Definition init_events (e : event) : bool :=
  match e with
  | EvCall M_initialize | EvLog _ _ | EvMakedirs _ | EvStart _ _
  | EvStopped _ => true
  | _ => false
  end.

(** The events of the readiness probe and of the executor on [tab]: their
    own entries, logging, the clock, and evaluation and sleeping on [tab]
    itself. *)
Definition tab_events (tab : option Tab) (e : event) : bool :=
  match e with
  | EvCall M_wait_for_recaptcha | EvCall M_execute_recaptcha_on_tab
  | EvLog _ _ | EvTime => true
  | EvEvaluate t _ | EvTabSleep t _ =>
      match tab with Some t' => Nat.eqb t t' | None => false end
  | _ => false
  end.

(** The events of the [try] statement of the legacy path: the above on any
    tab, and opening and closing tabs. *)
Definition page_events (e : event) : bool :=
  match e with
  | EvCall M_wait_for_recaptcha | EvCall M_execute_recaptcha_on_tab
  | EvLog _ _ | EvTime | EvEvaluate _ _ | EvTabSleep _ _
  | EvOpen _ _ _ | EvClose _ => true
  | _ => false
  end.

(** The events before the [try] statement of the legacy path. *)
Definition setup_events (e : event) : bool :=
  match e with
  | EvTime => true
  | _ => init_events e
  end.

(** Everything but stopping the browser. *)
Definition not_stop (e : event) : bool := negb (is_stop e).

Definition all_events (e : event) : bool := true.

(** ** Vocabulary of the further properties *)

(** The invariant of the resident channel: a running channel has its tab,
    its project, and a confirmed challenge library. *)
Definition channel_ok (s : service) : Prop :=
  _running s = true ->
  is_some (resident_tab s) = true /\
  _recaptcha_ready s = true /\
  is_some (resident_project_id s) = true.

Definition is_start (e : event) : bool :=
  match e with EvStart _ _ => true | _ => false end.

Definition is_ready_state (s : script) : bool :=
  match s with DocumentReadyState => true | _ => false end.

Definition is_execute (s : script) : bool :=
  match s with ExecuteEnterprise _ _ _ => true | _ => false end.

Definition is_delete (s : script) : bool :=
  match s with DeleteWindowVars _ _ => true | _ => false end.

Definition is_token_read (s : script) : bool :=
  match s with ReadWindowVar (TokenVar _) => true | _ => false end.

Definition is_error_read (s : script) : bool :=
  match s with ReadWindowVar (ErrorVar _) => true | _ => false end.

(** The time spent in [tab.sleep], and in [asyncio.sleep], along a run, in
    milliseconds. *)
Fixpoint tab_sleep_total (l : list event) : Z :=
  match l with
  | [] => 0
  | EvTabSleep _ ms :: l' => ms + tab_sleep_total l'
  | _ :: l' => tab_sleep_total l'
  end.

Fixpoint sleep_total (l : list event) : Z :=
  match l with
  | [] => 0
  | EvSleep ms :: l' => ms + sleep_total l'
  | _ :: l' => sleep_total l'
  end.

Definition jsvar_eqb (a b : jsvar) : bool :=
  match a, b with
  | TokenVar x, TokenVar y => Z.eqb x y
  | ErrorVar x, ErrorVar y => Z.eqb x y
  | _, _ => false
  end.

(** The scripts of one execution: they name the two globals made from the
    time stamp [ts], and no other. *)
Definition executor_script (key : string) (ts : Z) (s : script) : bool :=
  match s with
  | ExecuteEnterprise k a b =>
      String.eqb k key && jsvar_eqb a (TokenVar ts) && jsvar_eqb b (ErrorVar ts)
  | ReadWindowVar v => jsvar_eqb v (TokenVar ts) || jsvar_eqb v (ErrorVar ts)
  | DeleteWindowVars a b =>
      jsvar_eqb a (TokenVar ts) && jsvar_eqb b (ErrorVar ts)
  | _ => false
  end.

(** The events of one execution on [tab] with time stamp [ts]. *)
Definition executor_events (tab : Tab) (key : string) (ts : Z) (e : event)
  : bool :=
  match e with
  | EvCall M_execute_recaptcha_on_tab | EvTime => true
  | EvLog Error (RecaptchaError _) => true
  | EvTabSleep t ms => Nat.eqb t tab && Z.eqb ms 500
  | EvEvaluate t s => Nat.eqb t tab && executor_script key ts s
  | _ => false
  end.

(** The globals of [tab] never hold a true value, and reading them does not
    raise. *)
Definition silent_page (D : driver) (tab : Tab) : Prop :=
  forall (v : jsvar) (w : W D),
    match fst (tab_evaluate D tab (ReadWindowVar v) w) with
    | Ret x => truthy x = false
    | Raise _ => False
    end.

(** [tab] takes the execution script and sleeps without raising. *)
Definition executes (D : driver) (tab : Tab) : Prop :=
  (forall key a b w,
     is_ret (fst (tab_evaluate D tab (ExecuteEnterprise key a b) w)) = true) /\
  (forall ms w, is_ret (fst (tab_sleep D tab ms w)) = true).

(** Neither closing a tab nor stopping the browser. *)
Definition keeps_open (e : event) : bool :=
  negb (is_close e) && negb (is_stop e).

(** Any change of the instance. *)
Definition any_change (a b : service) : Prop := True.

(** The resident tab, once there, stays there, and the binding is kept. *)
Definition tab_kept (a b : service) : Prop :=
  same_binding a b /\
  (is_some (resident_tab a) = true -> is_some (resident_tab b) = true).

(** The outcome [o] of the rest of a run, after the events [evs]. *)
Definition prepend {D : driver} {A} (evs : list event) (o : outcome D A)
  : outcome D A :=
  {| result := result o; final := final o; events := evs ++ events o |}.

(** [tab] answers the question for the ready state, and sleeps, without
    raising. *)
Definition ready_state_answers (D : driver) (tab : Tab) : Prop :=
  (forall w, is_ret (fst (tab_evaluate D tab DocumentReadyState w)) = true) /\
  (forall ms w, is_ret (fst (tab_sleep D tab ms w)) = true).

(** The events of the page-load wait: sleeping, asking for the ready
    state, logging, and opening a tab anew. *)
Definition load_events (e : event) : bool :=
  match e with
  | EvSleep _ | EvLog _ _ | EvOpen _ true _ => true
  | EvEvaluate _ s => is_ready_state s
  | _ => false
  end.

(** The instance is the same. *)
Definition same_service (a b : service) : Prop := a = b.

Definition is_liveness_check (e : event) : bool :=
  match e with EvStopped _ => true | _ => false end.

(** The warning of the page-load wait that the connection to the resident
    tab is lost, after which it opens the tab anew. *)
Definition is_connection_lost (e : event) : bool :=
  match e with
  | EvLog Warning (TabConnectionLost _) => true
  | _ => false
  end.

(** Neither opening a page nor that warning. *)
Definition opens_nothing (e : event) : bool :=
  negb (is_open e) && negb (is_connection_lost e).

(** * Concrete environments *)

(** A browser whose pages answer by a fixed table: what [evaluate] returns
    depends on the tab and on the script only.  The world counts the tabs
    opened so far; [browser.get] hands out the next tab number, the clock
    stands still, and nothing but [evaluate] raises. *)
Definition static_driver (page : Tab -> script -> res pyval) : driver :=
  {| W := nat;
     time_time := fun w => (1700000000000%Z, w);
     os_makedirs := fun _ w => (Ret tt, w);
     uc_start := fun _ _ w => (Ret 1, w);
     browser_stopped := fun _ w => (Ret false, w);
     browser_get := fun _ _ _ w => (Ret (S w), S w);
     browser_stop := fun _ w => (Ret tt, w);
     tab_evaluate := fun t s w => (page t s, w);
     tab_sleep := fun _ _ w => (Ret tt, w);
     tab_close := fun _ w => (Ret tt, w) |}.

(** A page that is loaded, has the challenge library, and resolves every
    execution to [token]. *)
Definition good_page (token : string) (t : Tab) (s : script) : res pyval :=
  match s with
  | DocumentReadyState => Ret (PStr "complete")
  | EnterpriseExecuteIsFunction => Ret (PBool true)
  | ReadWindowVar (TokenVar _) => Ret (PStr token)
  | _ => Ret PNone
  end.

(** A page that never finishes loading. *)
Definition loading_page (t : Tab) (s : script) : res pyval :=
  match s with
  | DocumentReadyState => Ret (PStr "loading")
  | EnterpriseExecuteIsFunction => Ret (PBool false)
  | _ => Ret PNone
  end.

(** A loaded page on which the challenge library never appears. *)
Definition bare_page (t : Tab) (s : script) : res pyval :=
  match s with
  | DocumentReadyState => Ret (PStr "complete")
  | EnterpriseExecuteIsFunction => Ret (PBool false)
  | _ => Ret PNone
  end.

(** Tab [7] has the library but every execution on it fails with an error
    message; the other tabs are good pages. *)
Definition degraded_page (token : string) (t : Tab) (s : script) : res pyval :=
  if Nat.eqb t 7 then
    match s with
    | DocumentReadyState => Ret (PStr "complete")
    | EnterpriseExecuteIsFunction => Ret (PBool true)
    | ReadWindowVar (ErrorVar _) => Ret (PStr "execute failed")
    | _ => Ret PNone
    end
  else good_page token t s.

(** A loaded page whose readiness check raises. *)
Definition broken_page (t : Tab) (s : script) : res pyval :=
  match s with
  | DocumentReadyState => Ret (PStr "complete")
  | EnterpriseExecuteIsFunction => Raise (OtherException "ProtocolException")
  | _ => Ret PNone
  end.

(** The connection to tab [1] is refused; the other tabs are good pages. *)
Definition refused_page (token : string) (t : Tab) (s : script) : res pyval :=
  if Nat.eqb t 1 then Raise ConnectionRefusedError else good_page token t s.

(** A page whose token global holds the empty string. *)
Definition empty_page (t : Tab) (s : script) : res pyval :=
  match s with
  | DocumentReadyState => Ret (PStr "complete")
  | EnterpriseExecuteIsFunction => Ret (PBool true)
  | ReadWindowVar (TokenVar _) => Ret (PStr EmptyString)
  | _ => Ret PNone
  end.

(** A fresh instance in a world where no tab has been opened. *)
Definition fresh (page : Tab -> script -> res pyval)
  : state (static_driver page) :=
  {| svc := __init__ "/srv" None; world := (0 : W (static_driver page)) |}.

(** An instance whose resident channel is running on tab [7] for project
    [project_id], with the browser started. *)
Definition resident_service (project_id : string) : service :=
  set_running true
    (set_recaptcha_ready true
       (set_resident_tab (Some 7)
          (set_resident_project_id (Some project_id)
             (set_initialized true
                (set_browser (Some 1) (__init__ "/srv" None)))))).

Definition resident (page : Tab -> script -> res pyval) (project_id : string)
  : state (static_driver page) :=
  {| svc := resident_service project_id;
     world := (7 : W (static_driver page)) |}.

(** A browser as [static_driver], except that its liveness check ends as
    [stopped], its launch as [launch], and closing a tab or stopping the
    browser as [ending]. *)
Definition faulty_driver (page : Tab -> script -> res pyval)
    (stopped : res bool) (launch : res Browser) (ending : res unit) : driver :=
  {| W := nat;
     time_time := fun w => (1700000000000%Z, w);
     os_makedirs := fun _ w => (Ret tt, w);
     uc_start := fun _ _ w => (launch, w);
     browser_stopped := fun _ w => (stopped, w);
     browser_get := fun _ _ _ w => (Ret (S w), S w);
     browser_stop := fun _ w => (ending, w);
     tab_evaluate := fun t s w => (page t s, w);
     tab_sleep := fun _ _ w => (Ret tt, w);
     tab_close := fun _ w => (ending, w) |}.

(** The instance [s] in a world of [faulty_driver] where [n] tabs have
    been opened. *)
Definition faulty (page : Tab -> script -> res pyval)
    (stopped : res bool) (launch : res Browser) (ending : res unit)
    (s : service) (n : nat)
  : state (faulty_driver page stopped launch ending) :=
  {| svc := s; world := (n : W (faulty_driver page stopped launch ending)) |}.

(** Every evaluation on tab [7] raises; the other tabs are good pages. *)
Definition crashed_page (token : string) (t : Tab) (s : script) : res pyval :=
  if Nat.eqb t 7 then Raise (OtherException "target closed")
  else good_page token t s.

(** The resident channel of [resident], with the ready flag down. *)
Definition resident_unready (page : Tab -> script -> res pyval)
    (project_id : string) : state (static_driver page) :=
  {| svc := set_recaptcha_ready false (resident_service project_id);
     world := (7 : W (static_driver page)) |}.

(** A good page, except that deleting globals on it raises. *)
Definition sticky_page (token : string) (t : Tab) (s : script) : res pyval :=
  match s with
  | DeleteWindowVars _ _ => Raise (OtherException "ProtocolException")
  | _ => good_page token t s
  end.

(** A browser that keeps its page targets in the order in which they were
    created.  It is launched with one main tab, [0];
    [browser.get(url, new_tab=True)] creates the next tab, and
    [browser.get(url)], which asks for no new tab, navigates the first page
    target there is; closing a tab takes it off the list.  The world is the
    number of the next tab and the list of the page targets; the pages
    answer by the table [page]. *)
Definition tabbed_driver (page : Tab -> script -> res pyval) : driver :=
  {| W := nat * list Tab;
     time_time := fun w => (1700000000000%Z, w);
     os_makedirs := fun _ w => (Ret tt, w);
     uc_start := fun _ _ _ => (Ret 1, (1, [0]));
     browser_stopped := fun _ w => (Ret false, w);
     browser_get := fun _ _ new_tab w =>
       if new_tab then (Ret (fst w), (S (fst w), snd w ++ [fst w]))
       else match snd w with
            | t :: _ => (Ret t, w)
            | [] => (Raise (OtherException "StopIteration"), w)
            end;
     browser_stop := fun _ w => (Ret tt, (fst w, []));
     tab_evaluate := fun t s w => (page t s, w);
     tab_sleep := fun _ _ w => (Ret tt, w);
     tab_close := fun t w => (Ret tt, (fst w, remove Nat.eq_dec t (snd w))) |}.

(** A fresh instance, before that browser is launched. *)
Definition unlaunched (page : Tab -> script -> res pyval)
  : state (tabbed_driver page) :=
  {| svc := __init__ "/srv" None;
     world := ((0, []) : W (tabbed_driver page)) |}.

(** * Reasoning about runs *)

Lemma count_app (p : event -> bool) (l1 l2 : list event) :
  count p (l1 ++ l2) = count p l1 + count p l2.
Proof.
  unfold count. rewrite filter_app, length_app. reflexivity.
Qed.

Lemma count_cons (p : event -> bool) (e : event) (l : list event) :
  count p (e :: l) = (if p e then 1 else 0) + count p l.
Proof.
  unfold count. simpl. destruct (p e); reflexivity.
Qed.

Lemma count_nil (p : event -> bool) : count p [] = 0.
Proof. reflexivity. Qed.

(** Counting along a list that is given piece by piece. *)
Ltac count_split :=
  repeat first [rewrite count_app | rewrite count_cons | rewrite count_nil].

(** Events of a class [c] are not counted by a predicate [p] that is false
    on the class. *)
Lemma count_class (c p : event -> bool) (l : list event) :
  (forall e, c e = true -> p e = false) ->
  forallb c l = true -> count p l = 0.
Proof.
  intros Hcp. induction l as [|e l IH]; simpl; intros H.
  - reflexivity.
  - apply andb_prop in H. destruct H as [He Hl].
    rewrite count_cons, (Hcp e He), (IH Hl). reflexivity.
Qed.

Lemma forallb_weaken (c1 c2 : event -> bool) (l : list event) :
  (forall e, c1 e = true -> c2 e = true) ->
  forallb c1 l = true -> forallb c2 l = true.
Proof.
  intros H. rewrite !forallb_forall. auto.
Qed.

Lemma truthy_not_empty (v : pyval) : truthy v = true -> v <> PStr EmptyString.
Proof.
  intros H E. subst v. discriminate H.
Qed.

Lemma truthy_not_none (v : pyval) : truthy v = true -> v <> PNone.
Proof.
  intros H E. subst v. discriminate H.
Qed.

Section Rules.

Variable D : driver.

(** ** What a program returns *)

Lemma returns_ret {A} (Q : A -> Prop) (a : A) : Q a -> returns D Q (ret a).
Proof. intros H st. exact H. Qed.

Lemma returns_raise {A} (Q : A -> Prop) (e : exn) : returns D Q (raise e).
Proof. intros st. exact I. Qed.

Lemma returns_bind {A B} (Q : B -> Prop) (m : M D A) (f : A -> M D B) :
  (forall a, returns D Q (f a)) -> returns D Q (bind m f).
Proof.
  intros Hf st. unfold bind.
  destruct (result (m st)) as [a|e] eqn:Hr; simpl.
  - apply Hf.
  - exact I.
Qed.

Lemma returns_bind_with {A B} (P : A -> Prop) (Q : B -> Prop)
    (m : M D A) (f : A -> M D B) :
  returns D P m -> (forall a, P a -> returns D Q (f a)) ->
  returns D Q (bind m f).
Proof.
  intros Hm Hf st. unfold bind. specialize (Hm st).
  destruct (result (m st)) as [a|e] eqn:Hr; simpl.
  - apply Hf. exact Hm.
  - exact I.
Qed.

Lemma returns_try_except {A} (Q : A -> Prop) (m : M D A) (h : exn -> M D A) :
  returns D Q m -> (forall e, returns D Q (h e)) -> returns D Q (try_except m h).
Proof.
  intros Hm Hh st. unfold try_except.
  specialize (Hm st).
  destruct (result (m st)) as [a|e] eqn:Hr; simpl.
  - rewrite Hr. exact Hm.
  - apply Hh.
Qed.

Lemma returns_try_finally {A} (Q : A -> Prop) (m : M D A) (f : M D unit) :
  returns D Q m -> returns D Q (try_finally m f).
Proof.
  intros Hm st. unfold try_finally. simpl.
  destruct (result (f (final (m st)))); [apply Hm | exact I].
Qed.

(** ** What a program touches *)

Section Keeps.

Variable S : service -> service -> Prop.
Variable c : event -> bool.
Hypothesis S_refl : forall s, S s s.
Hypothesis S_trans : forall s1 s2 s3, S s1 s2 -> S s2 s3 -> S s1 s3.

Lemma keeps_ret {A} (a : A) : keeps D S c (ret a).
Proof. intros st. split; [apply S_refl | reflexivity]. Qed.

Lemma keeps_raise {A} (e : exn) : keeps D S c (raise (A := A) e).
Proof. intros st. split; [apply S_refl | reflexivity]. Qed.

Lemma keeps_self : keeps D S c self.
Proof. intros st. split; [apply S_refl | reflexivity]. Qed.

Lemma keeps_emit (e : event) : c e = true -> keeps D S c (emit e).
Proof. intros H st. split; [apply S_refl | simpl; rewrite H; reflexivity]. Qed.

Lemma keeps_call (m : method) : c (EvCall m) = true -> keeps D S c (call m).
Proof. apply keeps_emit. Qed.

Lemma keeps_log (l : level) (msg : message) :
  c (EvLog l msg) = true -> keeps D S c (log l msg).
Proof. apply keeps_emit. Qed.

Lemma keeps_asyncio_sleep (ms : Z) :
  c (EvSleep ms) = true -> keeps D S c (asyncio_sleep ms).
Proof. apply keeps_emit. Qed.

Lemma keeps_assign (f : service -> service) :
  (forall s, S s (f s)) -> keeps D S c (assign f).
Proof. intros H st. split; [apply H | reflexivity]. Qed.

Lemma keeps_env {A} (e : event) (f : W D -> res A * W D) :
  c e = true -> keeps D S c (env e f).
Proof.
  intros H st. unfold env. destruct (f (world st)) as [r w]. simpl.
  split; [apply S_refl | rewrite H; reflexivity].
Qed.

Lemma keeps_time_now : c EvTime = true -> keeps D S c time_now.
Proof.
  intros H st. unfold time_now. destruct (time_time D (world st)) as [t w].
  simpl. split; [apply S_refl | rewrite H; reflexivity].
Qed.

Lemma keeps_open_page (url : string) (new_tab : bool) :
  (forall o, c (EvOpen url new_tab o) = true) ->
  keeps D S c (open_page url new_tab).
Proof.
  intros H st. unfold open_page. destruct (browser (svc st)) as [b|].
  - destruct (browser_get D b url new_tab (world st)) as [r w]. simpl.
    split; [apply S_refl | rewrite H; reflexivity].
  - split; [apply S_refl | reflexivity].
Qed.

Lemma keeps_evaluate (tab : option Tab) (s : script) :
  (forall t, tab = Some t -> c (EvEvaluate t s) = true) ->
  keeps D S c (evaluate tab s).
Proof.
  intros H. destruct tab as [t|]; simpl.
  - apply keeps_env. apply H. reflexivity.
  - apply keeps_raise.
Qed.

Lemma keeps_sleep_tab (tab : option Tab) (ms : Z) :
  (forall t, tab = Some t -> c (EvTabSleep t ms) = true) ->
  keeps D S c (sleep_tab tab ms).
Proof.
  intros H. destruct tab as [t|]; simpl.
  - apply keeps_env. apply H. reflexivity.
  - apply keeps_raise.
Qed.

Lemma keeps_close_tab (tab : option Tab) :
  (forall t, tab = Some t -> c (EvClose t) = true) ->
  keeps D S c (close_tab tab).
Proof.
  intros H. destruct tab as [t|]; simpl.
  - apply keeps_env. apply H. reflexivity.
  - apply keeps_raise.
Qed.

Lemma keeps_bind {A B} (m : M D A) (f : A -> M D B) :
  keeps D S c m -> (forall a, keeps D S c (f a)) -> keeps D S c (bind m f).
Proof.
  intros Hm Hf st. unfold bind.
  destruct (Hm st) as [Hs He].
  destruct (result (m st)) as [a|e]; simpl.
  - destruct (Hf a (final (m st))) as [Hs' He'].
    split; [eapply S_trans; eassumption | rewrite forallb_app, He, He'; reflexivity].
  - split; assumption.
Qed.

Lemma keeps_try_except {A} (m : M D A) (h : exn -> M D A) :
  keeps D S c m -> (forall e, keeps D S c (h e)) -> keeps D S c (try_except m h).
Proof.
  intros Hm Hh st. unfold try_except.
  destruct (Hm st) as [Hs He].
  destruct (result (m st)) as [a|e]; simpl.
  - split; assumption.
  - destruct (Hh e (final (m st))) as [Hs' He'].
    split; [eapply S_trans; eassumption | rewrite forallb_app, He, He'; reflexivity].
Qed.

Lemma keeps_try_finally {A} (m : M D A) (f : M D unit) :
  keeps D S c m -> keeps D S c f -> keeps D S c (try_finally m f).
Proof.
  intros Hm Hf st. unfold try_finally. simpl.
  destruct (Hm st) as [Hs He].
  destruct (Hf (final (m st))) as [Hs' He'].
  split; [eapply S_trans; eassumption | rewrite forallb_app, He, He'; reflexivity].
Qed.

Lemma keeps_suppress (m : M D unit) : keeps D S c m -> keeps D S c (suppress m).
Proof.
  intros Hm. apply keeps_try_except; [exact Hm | intros e; apply keeps_ret].
Qed.

End Keeps.

Lemma keeps_weaken (S : service -> service -> Prop) (c1 c2 : event -> bool)
    {A} (m : M D A) :
  (forall e, c1 e = true -> c2 e = true) -> keeps D S c1 m -> keeps D S c2 m.
Proof.
  intros H Hm st. destruct (Hm st) as [Hs He].
  split; [exact Hs | eapply forallb_weaken; eassumption].
Qed.

End Rules.

(** * Footprints of the methods *)

Lemma same_resident_refl (s : service) : same_resident s s.
Proof. reflexivity. Qed.

Lemma same_resident_trans (s1 s2 s3 : service) :
  same_resident s1 s2 -> same_resident s2 s3 -> same_resident s1 s3.
Proof. unfold same_resident. congruence. Qed.

Lemma same_binding_refl (s : service) : same_binding s s.
Proof. split; reflexivity. Qed.

Lemma same_binding_trans (s1 s2 s3 : service) :
  same_binding s1 s2 -> same_binding s2 s3 -> same_binding s1 s3.
Proof. unfold same_binding. intuition congruence. Qed.

Lemma same_resident_binding (s1 s2 : service) :
  same_resident s1 s2 -> same_binding s1 s2.
Proof.
  unfold same_resident, same_binding, resident_state. intros H.
  split; congruence.
Qed.

Lemma tab_events_not_stop (tab : option Tab) (e : event) :
  tab_events tab e = true -> not_stop e = true.
Proof. destruct e; try reflexivity; discriminate. Qed.

Lemma init_events_not_stop (e : event) :
  init_events e = true -> not_stop e = true.
Proof. destruct e; try reflexivity; discriminate. Qed.

(** Side conditions of the rules: the relation is a preorder, the event is
    in the class, the assignment leaves the resident channel alone. *)
Ltac keeps_side :=
  first
    [ exact same_resident_refl
    | exact same_resident_trans
    | exact same_binding_refl
    | exact same_binding_trans
    | reflexivity
    | intros; reflexivity
    | simpl; apply Nat.eqb_refl
    | intros ? [= <-]; simpl; apply Nat.eqb_refl
    | intros ? ->; simpl; apply Nat.eqb_refl
    | intros [?|]; simpl; auto using Nat.eqb_refl
    | intros; split; reflexivity ].

(** One step of a footprint proof, following the shape of the program. *)
Ltac keeps_step :=
  lazymatch goal with
  | |- keeps _ _ _ (bind _ _) => apply keeps_bind; [keeps_side | | intros ?]
  | |- keeps _ _ _ (try_except _ _) => apply keeps_try_except; [keeps_side | | intros ?]
  | |- keeps _ _ _ (try_finally _ _) => apply keeps_try_finally; [keeps_side | | ]
  | |- keeps _ _ _ (suppress _) => apply keeps_suppress; [keeps_side | keeps_side | ]
  | |- keeps _ _ _ (ret _) => apply keeps_ret; keeps_side
  | |- keeps _ _ _ (raise _) => apply keeps_raise; keeps_side
  | |- keeps _ _ _ self => apply keeps_self; keeps_side
  | |- keeps _ _ _ (call _) => apply keeps_call; keeps_side
  | |- keeps _ _ _ (log _ _) => apply keeps_log; keeps_side
  | |- keeps _ _ _ (emit _) => apply keeps_emit; keeps_side
  | |- keeps _ _ _ (asyncio_sleep _) => apply keeps_asyncio_sleep; keeps_side
  | |- keeps _ _ _ (assign _) => apply keeps_assign; keeps_side
  | |- keeps _ _ _ (env _ _) => apply keeps_env; keeps_side
  | |- keeps _ _ _ time_now => apply keeps_time_now; keeps_side
  | |- keeps _ _ _ (open_page _ _) => apply keeps_open_page; keeps_side
  | |- keeps _ _ _ (evaluate _ _) => apply keeps_evaluate; keeps_side
  | |- keeps _ _ _ (sleep_tab _ _) => apply keeps_sleep_tab; keeps_side
  | |- keeps _ _ _ (close_tab _) => apply keeps_close_tab; keeps_side
  | |- keeps _ _ _ (if ?b then _ else _) => destruct b
  | |- keeps _ _ _ (match ?x with _ => _ end) => destruct x
  end.

Ltac keeps_auto := repeat keeps_step.

Section Footprints.

Variable D : driver.

Lemma keeps_start_browser : keeps D same_resident init_events start_browser.
Proof. unfold start_browser. keeps_auto. Qed.

Lemma keeps_check_alive (b : Browser) :
  keeps D same_resident init_events (check_alive b).
Proof. unfold check_alive. keeps_auto. Qed.

Lemma keeps_initialize : keeps D same_resident init_events initialize.
Proof.
  unfold initialize. keeps_auto;
    first [apply keeps_check_alive | apply keeps_start_browser].
Qed.

Lemma keeps_recaptcha_poll (n i : nat) (tab : option Tab) :
  keeps D same_resident (tab_events tab) (recaptcha_poll n i tab).
Proof.
  revert i. induction n as [|n IH]; intros i; simpl.
  - keeps_auto.
  - keeps_auto. apply IH.
Qed.

Lemma keeps_wait_for_recaptcha (tab : option Tab) :
  keeps D same_resident (tab_events tab) (_wait_for_recaptcha tab).
Proof.
  unfold _wait_for_recaptcha. keeps_auto. apply keeps_recaptcha_poll.
Qed.

Lemma keeps_token_poll (n : nat) (tab : option Tab) (tv ev : jsvar)
    (token : pyval) :
  keeps D same_resident (tab_events tab) (token_poll n tab tv ev token).
Proof.
  revert token. induction n as [|n IH]; intros token; simpl.
  - keeps_auto.
  - keeps_auto. apply IH.
Qed.

Lemma keeps_execute_recaptcha_on_tab (tab : option Tab) :
  keeps D same_resident (tab_events tab) (_execute_recaptcha_on_tab tab).
Proof.
  unfold _execute_recaptcha_on_tab. keeps_auto. apply keeps_token_poll.
Qed.

Lemma keeps_legacy_dom_loop (n : nat) (tab : Tab) :
  keeps D same_resident (tab_events (Some tab)) (legacy_dom_loop n tab).
Proof.
  induction n as [|n IH]; simpl.
  - keeps_auto.
  - keeps_auto. apply IH.
Qed.

Lemma keeps_legacy_on_tab (tab : Tab) :
  keeps D same_resident (tab_events (Some tab)) (legacy_on_tab tab).
Proof.
  unfold legacy_on_tab. keeps_auto;
    first [ apply keeps_legacy_dom_loop
          | apply keeps_wait_for_recaptcha
          | apply keeps_execute_recaptcha_on_tab ].
Qed.

End Footprints.

(** * What [get_token] returns *)

Section Results.

Variable D : driver.

Lemma token_result_none : token_result D PNone.
Proof.
  split; [discriminate|]. split; [left; reflexivity|].
  intros _. left. reflexivity.
Qed.

Lemma token_result_truthy (v : pyval) :
  (typed_tokens D -> str_or_none v) -> truthy v = true -> token_result D v.
Proof.
  intros Hty Hv. split; [apply truthy_not_empty; exact Hv|].
  split; [right; exact Hv|].
  intros H. destruct (Hty H) as [->|[s ->]].
  - discriminate Hv.
  - right. exists s. split; [reflexivity|].
    intros ->. discriminate Hv.
Qed.

(** Reading the token global of a typed page. *)
Lemma returns_read_token (tab : option Tab) (ts : Z) :
  returns D (fun v => typed_tokens D -> str_or_none v)
    (evaluate tab (ReadWindowVar (TokenVar ts))).
Proof.
  intros st. destruct tab as [t|]; simpl; [|exact I].
  unfold env.
  destruct (tab_evaluate D t (ReadWindowVar (TokenVar ts)) (world st))
    as [r w] eqn:E. simpl.
  destruct r as [v|e]; [|exact I].
  intros H. specialize (H t ts (world st)). rewrite E in H. exact H.
Qed.

Lemma returns_token_poll (n : nat) (tab : option Tab) (ts : Z) (ev : jsvar)
    (token : pyval) :
  (typed_tokens D -> str_or_none token) ->
  returns D (fun v => typed_tokens D -> str_or_none v)
    (token_poll n tab (TokenVar ts) ev token).
Proof.
  revert token. induction n as [|n IH]; intros token Htok;
    cbn [token_poll].
  - apply returns_ret. exact Htok.
  - apply returns_bind. intros _.
    eapply returns_bind_with; [apply returns_read_token|].
    intros token' Htok'. cbv beta.
    destruct (truthy token').
    + apply returns_ret. exact Htok'.
    + apply returns_bind. intros error.
      destruct (truthy error).
      * apply returns_bind. intros _. apply returns_ret. exact Htok'.
      * apply IH. exact Htok'.
Qed.

Lemma returns_execute_recaptcha_on_tab (tab : option Tab) :
  returns D (fun v => typed_tokens D -> str_or_none v)
    (_execute_recaptcha_on_tab tab).
Proof.
  unfold _execute_recaptcha_on_tab.
  apply returns_bind. intros _.
  apply returns_bind. intros ts.
  apply returns_bind. intros s.
  apply returns_bind. intros _.
  eapply returns_bind_with.
  - apply returns_token_poll. intros _. left. reflexivity.
  - intros token Htok. cbv beta.
    apply returns_bind. intros _. apply returns_ret. exact Htok.
Qed.

Lemma returns_legacy_on_tab (tab : Tab) :
  returns D (token_result D) (legacy_on_tab tab).
Proof.
  unfold legacy_on_tab.
  do 3 (apply returns_bind; intros _).
  apply returns_bind. intros ready.
  destruct (negb ready).
  - apply returns_bind. intros _. apply returns_ret. apply token_result_none.
  - apply returns_bind. intros _.
    eapply returns_bind_with; [apply returns_execute_recaptcha_on_tab|].
    intros token Htok. cbv beta.
    apply returns_bind. intros _.
    destruct (truthy token) eqn:Hv; apply returns_bind; intros _;
      apply returns_ret.
    + apply token_result_truthy; assumption.
    + apply token_result_none.
Qed.

Lemma returns_legacy_except (e : exn) :
  returns D (token_result D) (legacy_except e).
Proof.
  unfold legacy_except. apply returns_bind. intros _.
  apply returns_ret. apply token_result_none.
Qed.

Lemma returns_get_token_legacy (project_id : string) :
  returns D (token_result D) (_get_token_legacy project_id).
Proof.
  unfold _get_token_legacy, legacy_try.
  do 2 (apply returns_bind; intros _).
  apply returns_bind. intros [tab|e].
  - apply returns_try_finally. apply returns_try_except.
    + apply returns_legacy_on_tab.
    + apply returns_legacy_except.
  - apply returns_legacy_except.
Qed.

Lemma returns_get_token (project_id : string) :
  returns D (token_result D) (get_token project_id).
Proof.
  unfold get_token.
  apply returns_bind. intros _.
  eapply returns_bind_with with
    (P := fun o => match o with Some v => token_result D v | None => True end).
  - unfold resident_attempt. apply returns_bind. intros s.
    destruct (_running s && id_eq (resident_project_id s) project_id);
      [|apply returns_ret; exact I].
    destruct (_recaptcha_ready s && is_some (resident_tab s)).
    + do 2 (apply returns_bind; intros _).
      eapply returns_bind_with; [apply returns_execute_recaptcha_on_tab|].
      intros token Htok. cbv beta.
      apply returns_bind. intros _.
      destruct (truthy token) eqn:Hv; apply returns_bind; intros _;
        apply returns_ret.
      * apply token_result_truthy; assumption.
      * exact I.
    + apply returns_bind. intros _. apply returns_ret. exact I.
  - intros [token|] H.
    + apply returns_ret. exact H.
    + apply returns_get_token_legacy.
Qed.

(** C1: whatever the project, on the resident path and on the legacy path,
    a value that [get_token] (or [_get_token_legacy] on its own) returns is
    [None] or a true value, hence never the empty string; and when the
    token global of the page holds [null] or a string, as the executor's
    script leaves it, it is [None] or a non-empty string. *)
Theorem get_token_never_empty (project_id : string) (st : state D) :
  match result (get_token project_id st) with
  | Ret v => token_result D v
  | Raise _ => True
  end /\
  match result (_get_token_legacy project_id st) with
  | Ret v => token_result D v
  | Raise _ => True
  end.
Proof.
  split.
  - apply returns_get_token.
  - apply returns_get_token_legacy.
Qed.

End Results.

(** From here on the methods are taken as wholes: simplification does not
    look into them. *)
Arguments initialize : simpl never.
Arguments legacy_prologue : simpl never.
Arguments _wait_for_recaptcha : simpl never.
Arguments _execute_recaptcha_on_tab : simpl never.
Arguments recaptcha_poll : simpl never.
Arguments token_poll : simpl never.
Arguments page_load_loop : simpl never.
Arguments legacy_dom_loop : simpl never.
Arguments legacy_on_tab : simpl never.
Arguments legacy_try : simpl never.
Arguments _get_token_legacy : simpl never.
Arguments resident_attempt : simpl never.
Arguments start_navigation : simpl never.
Arguments open_page : simpl never.
Arguments time_now : simpl never.
Arguments project_url : simpl never.
Arguments count : simpl never.
Arguments after_injection : simpl nomatch.
#[local] Arguments last : simpl never.

Section Legacy.

Variable D : driver.

Lemma init_events_setup (e : event) :
  init_events e = true -> setup_events e = true.
Proof. destruct e; simpl; auto. Qed.

Lemma setup_events_not_stop (e : event) :
  setup_events e = true -> not_stop e = true.
Proof. destruct e; try reflexivity; discriminate. Qed.

Lemma keeps_legacy_prologue :
  keeps D same_resident setup_events legacy_prologue.
Proof.
  unfold legacy_prologue. keeps_auto.
  eapply keeps_weaken; [apply init_events_setup | apply keeps_initialize].
Qed.

(** [browser.get] leaves one event, which carries the tab it returned. *)
Lemma open_page_events (url : string) (new_tab : bool) (st : state D) :
  match result (open_page url new_tab st) with
  | Ret tab => events (open_page url new_tab st) = [EvOpen url new_tab (Some tab)]
  | Raise _ => events (open_page url new_tab st) = [EvOpen url new_tab None]
               \/ events (open_page url new_tab st) = []
  end.
Proof.
  unfold open_page. destruct (browser (svc st)) as [b|]; simpl.
  - destruct (browser_get D b url new_tab (world st)) as [[t|e] w]; simpl; auto.
  - auto.
Qed.

Lemma open_page_same_resident (url : string) (new_tab : bool) (st : state D) :
  svc (final (open_page url new_tab st)) = svc st.
Proof.
  unfold open_page. destruct (browser (svc st)) as [b|]; simpl.
  - destruct (browser_get D b url new_tab (world st)) as [r w]. reflexivity.
  - reflexivity.
Qed.

(** The [try] statement of the legacy path, case by case. *)
Lemma legacy_try_cases (project_id : string) (st : state D) :
  let url := project_url project_id in
  let o := legacy_try project_id st in
  let opened := open_page url false st in
  match result opened with
  | Raise e =>
      result o = Ret PNone /\
      events o = EvLog Info (LegacyVisiting url) :: events opened
                 ++ [EvLog Error (LegacyException e)] /\
      svc (final o) = svc st
  | Ret tab =>
      let body := legacy_on_tab tab (final opened) in
      result o = match result body with
                 | Ret v => Ret v
                 | Raise _ => Ret PNone
                 end /\
      events o = EvLog Info (LegacyVisiting url) :: EvOpen url false (Some tab)
                 :: events body
                 ++ match result body with
                    | Ret _ => []
                    | Raise e => [EvLog Error (LegacyException e)]
                    end
                 ++ [EvClose tab] /\
      svc (final o) = svc (final body)
  end.
Proof.
  intros url o opened. subst o opened url.
  pose proof (open_page_events (project_url project_id) false st) as Hev.
  pose proof (open_page_same_resident (project_url project_id) false st) as Hsv.
  unfold legacy_try, bind, try_except, log, emit, ret. cbn.
  destruct (open_page (project_url project_id) false st)
    as [[tab|e] s1 ev1]; cbn in *.
  - subst ev1.
    unfold suppress, legacy_except, close_tab, try_finally, try_except, env,
      bind, log, emit, ret. cbn.
    destruct (legacy_on_tab tab s1) as [[v|e] s2 ev2]; cbn;
      destruct (tab_close D tab (world s2)) as [[[]|e'] w]; cbn;
      rewrite ?app_nil_r, <- ?app_assoc; auto.
  - unfold legacy_except, bind, log, emit, ret. cbn.
    rewrite !app_nil_r. auto.
Qed.

Lemma tab_events_page (tab : option Tab) (e : event) :
  tab_events tab e = true -> page_events e = true.
Proof. destruct e; simpl; auto. Qed.

Lemma page_events_not_stop (e : event) :
  page_events e = true -> not_stop e = true.
Proof. destruct e; try reflexivity; discriminate. Qed.

Lemma keeps_legacy_try (project_id : string) :
  keeps D same_resident page_events (legacy_try project_id).
Proof.
  unfold legacy_try, legacy_except. keeps_auto.
  eapply keeps_weaken; [apply tab_events_page | apply keeps_legacy_on_tab].
Qed.

Lemma keeps_get_token_legacy (project_id : string) :
  keeps D same_resident not_stop (_get_token_legacy project_id).
Proof.
  unfold _get_token_legacy. keeps_auto.
  - eapply keeps_weaken; [apply setup_events_not_stop | apply keeps_legacy_prologue].
  - eapply keeps_weaken; [apply page_events_not_stop | apply keeps_legacy_try].
Qed.

Lemma keeps_resident_attempt (project_id : string) :
  keeps D same_resident not_stop (resident_attempt project_id).
Proof.
  unfold resident_attempt. apply keeps_bind; [keeps_side | keeps_auto | intros s].
  destruct (_running s && id_eq (resident_project_id s) project_id);
    [ | keeps_auto].
  destruct (resident_tab s) as [tab|].
  - destruct (_recaptcha_ready s); cbn [andb is_some]; keeps_auto.
    eapply keeps_weaken;
      [apply tab_events_not_stop | apply keeps_execute_recaptcha_on_tab].
  - rewrite andb_false_r. keeps_auto.
Qed.

Lemma keeps_get_token (project_id : string) :
  keeps D same_resident not_stop (get_token project_id).
Proof.
  unfold get_token. keeps_auto.
  - apply keeps_resident_attempt.
  - apply keeps_get_token_legacy.
Qed.

Lemma count_not_stop (l : list event) :
  forallb not_stop l = true -> count is_stop l = 0.
Proof.
  apply count_class. intros e. unfold not_stop.
  destruct (is_stop e); [discriminate | reflexivity].
Qed.

Lemma count_setup_events (p : event -> bool) (l : list event) :
  (forall e, setup_events e = true -> p e = false) ->
  forallb setup_events l = true -> count p l = 0.
Proof. apply count_class. Qed.

Lemma setup_events_not_open (e : event) :
  setup_events e = true -> is_open e = false.
Proof. destruct e; try reflexivity; discriminate. Qed.

Lemma setup_events_not_close (e : event) :
  setup_events e = true -> is_close e = false.
Proof. destruct e; try reflexivity; discriminate. Qed.

Lemma tab_events_not_open (tab : option Tab) (e : event) :
  tab_events tab e = true -> is_open e = false.
Proof. destruct e; try reflexivity; discriminate. Qed.

Lemma tab_events_not_close (tab : option Tab) (e : event) :
  tab_events tab e = true -> is_close e = false.
Proof. destruct e; try reflexivity; discriminate. Qed.

(** C6: the legacy acquirer never stops the browser; only a failure to
    start the browser, before the [try] statement, escapes it; when
    [browser.get] raises there is no tab and nothing is closed, and the
    result is [None]; when [browser.get] returns a tab, the run opens no
    other, closes that tab exactly once as its last act, and returns what the
    work on the tab returned, or [None] when that work (the wait for
    navigation, the readiness probe, the executor) raised. *)
Theorem legacy_closes_its_tab (project_id : string) (st : state D) :
  let url := project_url project_id in
  let o := _get_token_legacy project_id st in
  let pre := legacy_prologue st in
  let opened := open_page url false (final pre) in
  count is_stop (events o) = 0 /\
  match result pre with
  | Raise e =>
      result o = Raise e /\
      count is_open (events o) = 0 /\ count is_close (events o) = 0
  | Ret _ =>
      match result opened with
      | Raise _ =>
          result o = Ret PNone /\ count is_close (events o) = 0
      | Ret tab =>
          result o = match result (legacy_on_tab tab (final opened)) with
                     | Ret v => Ret v
                     | Raise _ => Ret PNone
                     end /\
          count is_open (events o) = 1 /\
          count is_close (events o) = 1 /\
          last (events o) EvTime = EvClose tab
      end
  end.
Proof.
  intros url o pre opened. split.
  - apply count_not_stop. apply keeps_get_token_legacy.
  - subst o pre opened url.
    destruct (keeps_legacy_prologue st) as [_ Hpre].
    pose proof (legacy_try_cases project_id (final (legacy_prologue st))) as Htry.
    cbv zeta in Htry.
    pose proof (open_page_events (project_url project_id) false
                  (final (legacy_prologue st))) as Hop.
    unfold _get_token_legacy, bind, call, emit. cbn.
    destruct (legacy_prologue st) as [[[]|e] s0 ev0]; cbn in *.
    + destruct (open_page (project_url project_id) false s0)
        as [[tab|e] s1 ev1]; cbn in *.
      * destruct (keeps_legacy_on_tab D tab s1) as [_ Hbody].
        destruct Htry as (Hr & He & _). rewrite Hr, He. subst ev1.
        pose proof (count_class _ _ _ setup_events_not_open Hpre) as Hpo.
        pose proof (count_class _ _ _ setup_events_not_close Hpre) as Hpc.
        pose proof (count_class _ _ _ (tab_events_not_open (Some tab)) Hbody)
          as Hbo.
        pose proof (count_class _ _ _ (tab_events_not_close (Some tab)) Hbody)
          as Hbc.
        repeat split.
        -- count_split. rewrite Hpo, Hbo.
           destruct (result (legacy_on_tab tab s1)); reflexivity.
        -- count_split. rewrite Hpc, Hbc.
           destruct (result (legacy_on_tab tab s1)); reflexivity.
        -- rewrite !app_comm_cons, !app_assoc. apply last_last.
      * destruct Htry as (Hr & He & _). rewrite Hr, He.
        pose proof (count_class _ _ _ setup_events_not_close Hpre) as Hpc.
        split; [reflexivity|].
        count_split. rewrite Hpc.
        destruct Hop as [-> | ->]; reflexivity.
    + pose proof (count_class _ _ _ setup_events_not_open Hpre) as Hpo.
      pose proof (count_class _ _ _ setup_events_not_close Hpre) as Hpc.
      repeat split; count_split; [rewrite Hpo | rewrite Hpc]; reflexivity.
Qed.

(** C10: [get_token] leaves the state of the resident channel ([_running],
    [resident_project_id], [resident_tab], [_recaptcha_ready]) as it found
    it, whatever it returns and whichever path it took. *)
Theorem get_token_keeps_resident_state (project_id : string) (st : state D) :
  resident_state (svc (final (get_token project_id st)))
  = resident_state (svc st).
Proof.
  destruct (keeps_get_token project_id st) as [H _]. symmetry. exact H.
Qed.

End Legacy.

(** * Which path [get_token] takes *)

Section Routing.

Variable D : driver.

Lemma id_eq_refl (project_id : string) : id_eq (Some project_id) project_id = true.
Proof. simpl. apply String.eqb_refl. Qed.

Lemma id_eq_true (o : option string) (project_id : string) :
  id_eq o project_id = true -> o = Some project_id.
Proof.
  destruct o as [p|]; simpl; [|discriminate].
  intros H. apply String.eqb_eq in H. congruence.
Qed.

(** The legacy path enters itself once. *)
Lemma legacy_enters_once (project_id : string) (st : state D) :
  count (is_call M_get_token_legacy) (events (_get_token_legacy project_id st)) = 1.
Proof.
  unfold _get_token_legacy, bind, call, emit. cbn.
  destruct (keeps_legacy_prologue D st) as [_ Hpre].
  destruct (result (legacy_prologue st)) as [[]|e]; cbn.
  - destruct (keeps_legacy_try D project_id (final (legacy_prologue st)))
      as [_ Htry].
    count_split. cbn.
    rewrite (count_class setup_events), (count_class page_events); auto.
    + intros e He. destruct e as [[]| | | | | | | | | | |]; try reflexivity;
        discriminate.
    + intros e He. destruct e as [[]| | | | | | | | | | |]; try reflexivity;
        discriminate.
  - count_split. cbn.
    rewrite (count_class setup_events); auto.
    intros e' He. destruct e' as [[]| | | | | | | | | | |]; try reflexivity;
      discriminate.
Qed.

(** The resident branch when the channel is bound to the project, ready,
    and has its tab. *)
Lemma resident_attempt_bound (project_id : string) (st : state D) (tab : Tab) :
  _running (svc st) = true ->
  resident_project_id (svc st) = Some project_id ->
  _recaptcha_ready (svc st) = true ->
  resident_tab (svc st) = Some tab ->
  let ex := _execute_recaptcha_on_tab (Some tab) (final (time_now st)) in
  match result ex with
  | Ret token =>
      result (resident_attempt project_id st)
      = Ret (if truthy token then Some token else None) /\
      final (resident_attempt project_id st) = final (time_now (final ex)) /\
      events (resident_attempt project_id st)
      = EvTime :: EvLog Info ResidentGenerating :: events ex
        ++ [EvTime;
            if truthy token then EvLog Info TokenGenerated
            else EvLog Warning ResidentFailedFallback]
  | Raise e =>
      result (resident_attempt project_id st) = Raise e
  end.
Proof.
  intros Hrun Hid Hready Htab ex. subst ex.
  unfold resident_attempt, bind at 1, self. cbn.
  rewrite Hrun, Hid, Hready, Htab, id_eq_refl. cbn [andb is_some].
  unfold bind, time_now, log, emit, ret. cbn.
  destruct (time_time D (world st)) as [t w]. cbn.
  destruct (_execute_recaptcha_on_tab (Some tab) _) as [[token|e] s1 ev1]; cbn.
  - destruct (time_time D (world s1)) as [t' w']. cbn.
    destruct (truthy token); cbn; rewrite <- ?app_assoc; auto.
  - reflexivity.
Qed.

Lemma count_tab_events (p : event -> bool) (tab : option Tab) (l : list event) :
  (forall e, page_events e = true -> p e = false) ->
  forallb (tab_events tab) l = true -> count p l = 0.
Proof.
  intros Hp Hl. apply (count_class page_events); [exact Hp|].
  eapply forallb_weaken; [apply tab_events_page | exact Hl].
Qed.

Lemma page_events_not_legacy (e : event) :
  page_events e = true -> is_call M_get_token_legacy e = false.
Proof. destruct e as [[]| | | | | | | | | | |]; try reflexivity; discriminate. Qed.

(** C2: when the channel is running, bound to the project, marked ready
    and has its tab, and the executor returns a token on that tab, then
    [get_token] returns that very token, and the run neither enters the
    legacy path nor opens a page. *)
Theorem resident_token_is_served (project_id : string) (st : state D)
    (tab : Tab) (token : pyval) :
  _running (svc st) = true ->
  resident_project_id (svc st) = Some project_id ->
  _recaptcha_ready (svc st) = true ->
  resident_tab (svc st) = Some tab ->
  result (_execute_recaptcha_on_tab (Some tab) (final (time_now st))) = Ret token ->
  truthy token = true ->
  let o := get_token project_id st in
  result o = Ret token /\
  count (is_call M_get_token_legacy) (events o) = 0 /\
  count is_open (events o) = 0.
Proof.
  intros Hrun Hid Hready Htab Hex Htok o. subst o.
  pose proof (resident_attempt_bound project_id st tab Hrun Hid Hready Htab)
    as H. cbv zeta in H. rewrite Hex, Htok in H. destruct H as (Hr & _ & He).
  destruct (keeps_execute_recaptcha_on_tab D (Some tab) (final (time_now st)))
    as [_ Hev].
  unfold get_token, bind at 1, call, emit. cbn.
  unfold bind. rewrite Hr, He. cbn.
  pose proof (count_tab_events _ _ _ page_events_not_legacy Hev) as Hl.
  pose proof (count_class _ _ _ (tab_events_not_open (Some tab)) Hev) as Ho.
  repeat split; count_split; [rewrite Hl | rewrite Ho]; reflexivity.
Qed.

(** C3: in the same situation, when the executor returns a false value on
    the resident tab, [get_token] goes on with the legacy path from the state
    the resident attempt left, returns what the legacy path returns, and
    the run enters the legacy path exactly once. *)
Theorem resident_failure_falls_back (project_id : string) (st : state D)
    (tab : Tab) (token : pyval) :
  _running (svc st) = true ->
  resident_project_id (svc st) = Some project_id ->
  _recaptcha_ready (svc st) = true ->
  resident_tab (svc st) = Some tab ->
  result (_execute_recaptcha_on_tab (Some tab) (final (time_now st))) = Ret token ->
  truthy token = false ->
  let o := get_token project_id st in
  let legacy := _get_token_legacy project_id (final (resident_attempt project_id st)) in
  result o = result legacy /\
  final o = final legacy /\
  count (is_call M_get_token_legacy) (events o) = 1.
Proof.
  intros Hrun Hid Hready Htab Hex Htok o legacy. subst o legacy.
  pose proof (resident_attempt_bound project_id st tab Hrun Hid Hready Htab)
    as H. cbv zeta in H. rewrite Hex, Htok in H. destruct H as (Hr & _ & He).
  destruct (keeps_execute_recaptcha_on_tab D (Some tab) (final (time_now st)))
    as [_ Hev].
  unfold get_token, bind at 1, call, emit. cbn.
  unfold bind. rewrite Hr. cbn. rewrite He.
  pose proof (count_tab_events _ _ _ page_events_not_legacy Hev) as Hl.
  repeat split.
  count_split. rewrite legacy_enters_once, Hl. reflexivity.
Qed.

Lemma class_member (c : event -> bool) (l : list event) (e : event) :
  forallb c l = true -> In e l -> c e = true.
Proof. intros H. rewrite forallb_forall in H. apply H. Qed.

(** The legacy path evaluates scripts on the tab it opened and on no
    other. *)
Lemma legacy_evaluates_on_its_tab (project_id : string) (st : state D)
    (t : Tab) (s : script) :
  In (EvEvaluate t s) (events (_get_token_legacy project_id st)) ->
  In (EvOpen (project_url project_id) false (Some t))
     (events (_get_token_legacy project_id st)).
Proof.
  unfold _get_token_legacy, bind, call, emit. cbn.
  destruct (keeps_legacy_prologue D st) as [_ Hpre].
  pose proof (legacy_try_cases D project_id (final (legacy_prologue st)))
    as Htry. cbv zeta in Htry.
  pose proof (open_page_events D (project_url project_id) false
                (final (legacy_prologue st))) as Hop.
  destruct (legacy_prologue st) as [[[]|e] s0 ev0]; cbn in *.
  - intros [H|H]; [discriminate H|]. right.
    apply in_app_or in H. apply in_or_app. destruct H as [H|H].
    + apply (class_member _ _ _ Hpre) in H. discriminate H.
    + right.
      destruct (open_page (project_url project_id) false s0)
        as [[tab|e] s1 ev1]; cbn in *.
      * destruct (keeps_legacy_on_tab D tab s1) as [_ Hbody].
        destruct Htry as (_ & He & _). rewrite He in *.
        destruct H as [H|[H|H]]; try discriminate H.
        apply in_app_or in H. destruct H as [H|H].
        -- apply (class_member _ _ _ Hbody) in H. cbn in H.
           apply Nat.eqb_eq in H. subst t. right. left. reflexivity.
        -- apply in_app_or in H. destruct H as [H|H].
           ++ destruct (result (legacy_on_tab tab s1)); cbn in H;
                intuition discriminate.
           ++ cbn in H. intuition discriminate.
      * destruct Htry as (_ & He & _). rewrite He in *.
        destruct H as [H|H]; [discriminate H|].
        apply in_app_or in H. destruct H as [H|H].
        -- destruct Hop as [Hop|Hop]; rewrite Hop in H; cbn in H;
             intuition discriminate.
        -- cbn in H. intuition discriminate.
  - intros [H|H]; [discriminate H|].
    apply (class_member _ _ _ Hpre) in H. discriminate H.
Qed.

(** X24: when the channel is not running, or is bound to another project
    than the one asked for, [get_token] is the legacy path and nothing
    else: it enters it at once and ends as it ends, and every script of the
    run is evaluated on the tab that the [browser.get] of this legacy run
    returned. *)
Theorem other_target_goes_legacy (project_id : string) (st : state D) :
  _running (svc st) = false \/ resident_project_id (svc st) <> Some project_id ->
  let o := get_token project_id st in
  let legacy := _get_token_legacy project_id st in
  result o = result legacy /\
  final o = final legacy /\
  events o = EvCall M_get_token :: events legacy /\
  forall (t : Tab) (s : script),
    In (EvEvaluate t s) (events o) ->
    In (EvOpen (project_url project_id) false (Some t)) (events o).
Proof.
  intros Hother o legacy. subst o legacy.
  assert (Hguard : _running (svc st)
                   && id_eq (resident_project_id (svc st)) project_id = false).
  { destruct Hother as [H|H].
    - rewrite H. reflexivity.
    - destruct (id_eq (resident_project_id (svc st)) project_id) eqn:E.
      + apply id_eq_true in E. contradiction.
      + apply andb_false_r. }
  assert (Heq : get_token project_id st
                = {| result := result (_get_token_legacy project_id st);
                     final := final (_get_token_legacy project_id st);
                     events := EvCall M_get_token
                               :: events (_get_token_legacy project_id st) |}).
  { assert (Hskip : resident_attempt project_id st
                     = {| result := Ret None; final := st; events := [] |}).
    { unfold resident_attempt, bind, self. cbn. rewrite Hguard. reflexivity. }
    unfold get_token, bind, call, emit. cbn. rewrite Hskip. reflexivity. }
  rewrite Heq. cbn. repeat split.
  intros t s [H|H]; [discriminate H|]. right.
  apply (legacy_evaluates_on_its_tab _ _ _ _ H).
Qed.

End Routing.

(** * The resident channel *)

Section Resident.

Variable D : driver.

Lemma keeps_page_load_loop (n retry : nat) (website_url : string) :
  keeps D same_binding all_events (page_load_loop n retry website_url).
Proof.
  revert retry. induction n as [|n IH]; intros retry.
  - apply keeps_ret. keeps_side.
  - unfold page_load_loop; fold (page_load_loop (D := D)).
    keeps_auto. apply IH.
Qed.

(** The page-load loop ends with [page_loaded], whatever happens. *)
Lemma page_load_loop_returns (n retry : nat) (website_url : string)
    (st : state D) :
  exists loaded, result (page_load_loop n retry website_url st) = Ret loaded.
Proof.
  revert retry st. induction n as [|n IH]; intros retry st.
  - exists false. reflexivity.
  - unfold page_load_loop; fold (page_load_loop (D := D)).
    unfold bind at 1.
    match goal with
    | |- context [result (try_except ?m ?h st)] =>
        assert (Hr : exists loaded, result (try_except m h st) = Ret loaded)
    end.
    { unfold try_except.
      match goal with
      | |- context [result (?m st)] => destruct (m st) as [[b|e] s1 ev1]
      end; cbn.
      - exists b. reflexivity.
      - exists false. destruct e; unfold bind, log, emit, asyncio_sleep, ret;
          cbn; try reflexivity.
        unfold try_except.
        match goal with
        | |- context [result (?m s1)] => destruct (m s1) as [[[]|e2] s2 ev2]
        end; reflexivity. }
    destruct Hr as [loaded Hr]. rewrite Hr.
    destruct loaded.
    + exists true. reflexivity.
    + cbn. apply IH.
Qed.

(** The navigation part leaves [_running] alone, and has stored the project
    as soon as [initialize] has returned. *)
Lemma start_navigation_binding (project_id : string) (st : state D) :
  _running (svc (final (start_navigation project_id st))) = _running (svc st) /\
  (result (initialize st) = Ret tt ->
   resident_project_id (svc (final (start_navigation project_id st)))
   = Some project_id) /\
  (result (start_navigation project_id st) = Ret tt ->
   result (initialize st) = Ret tt).
Proof.
  destruct (keeps_initialize D st) as [Hinit _].
  unfold start_navigation, bind, assign, log, emit. cbn.
  destruct (initialize st) as [[[]|e] s0 ev0]; cbn in *.
  - pose proof (open_page_same_resident D (project_url project_id) true
                  {| svc := set_resident_project_id (Some project_id) (svc s0);
                     world := world s0 |}) as Hop.
    destruct (open_page _ _ _) as [[t|e] s1 ev1]; cbn in *.
    + repeat split. unfold same_resident, resident_state in Hinit.
      rewrite Hop. cbn. congruence.
      rewrite Hop. reflexivity.
    + repeat split.
      * unfold same_resident, resident_state in Hinit.
        rewrite Hop. cbn. congruence.
      * rewrite Hop. reflexivity.
  - repeat split; try discriminate.
    unfold same_resident, resident_state in Hinit. congruence.
Qed.

Lemma start_running_noop (project_id : string) (st : state D) :
  _running (svc st) = true ->
  start_resident_mode project_id st
  = {| result := Ret tt; final := st;
       events := [EvCall M_start_resident_mode;
                  EvLog Warning ResidentAlreadyRunning] |}.
Proof.
  intros Hrun. unfold start_resident_mode, bind, call, emit, self, log. cbn.
  rewrite Hrun. reflexivity.
Qed.

Lemma start_not_running (project_id : string) (st : state D) :
  _running (svc st) = false ->
  start_resident_mode project_id st
  = {| result := result (start_resident_body project_id st);
       final := final (start_resident_body project_id st);
       events := EvCall M_start_resident_mode
                 :: events (start_resident_body project_id st) |}.
Proof.
  intros Hrun. unfold start_resident_mode, bind, call, emit, self, log. cbn.
  rewrite Hrun. reflexivity.
Qed.

(** The polling loop of the probe never injects, and checks at most once
    for each iteration it has. *)
Lemma recaptcha_poll_bound (n i : nat) (tab : Tab) (st : state D) :
  injections (events (recaptcha_poll n i (Some tab) st)) = 0 /\
  readiness_checks (events (recaptcha_poll n i (Some tab) st)) <= n.
Proof.
  unfold injections, readiness_checks.
  revert i st. induction n as [|n IH]; intros i st.
  - split; [reflexivity|]. cbv. lia.
  - unfold recaptcha_poll; fold (recaptcha_poll (D := D)).
    unfold bind, evaluate, sleep_tab, env, log, emit, ret. cbn.
    destruct (tab_evaluate D tab EnterpriseExecuteIsFunction (world st))
      as [[v|e] w]; cbn.
    + destruct (truthy v); cbn.
      * split; count_split; cbn; lia.
      * destruct (tab_sleep D tab 500 w) as [[[]|e] w']; cbn.
        -- specialize (IH (S i) {| svc := svc st; world := w' |}).
           destruct IH as [IH1 IH2].
           split; count_split; cbn; lia.
        -- split; count_split; cbn; lia.
    + split; count_split; cbn; lia.
Qed.

(** On a page that is never ready the polling loop uses up its budget. *)
Lemma recaptcha_poll_exhausts (n i : nat) (tab : Tab) (st : state D) :
  never_ready D tab -> obliging D tab ->
  result (recaptcha_poll n i (Some tab) st) = Ret false /\
  injections (events (recaptcha_poll n i (Some tab) st)) = 0 /\
  readiness_checks (events (recaptcha_poll n i (Some tab) st)) = n.
Proof.
  intros Hnever [_ Hsleep]. unfold injections, readiness_checks.
  revert i st. induction n as [|n IH]; intros i st.
  - repeat split.
  - unfold recaptcha_poll; fold (recaptcha_poll (D := D)).
    unfold bind, evaluate, sleep_tab, env, log, emit, ret. cbn.
    specialize (Hnever (world st)).
    destruct (tab_evaluate D tab EnterpriseExecuteIsFunction (world st))
      as [[v|e] w]; cbn in *; [|contradiction].
    rewrite Hnever. cbn.
    specialize (Hsleep 500%Z w).
    destruct (tab_sleep D tab 500 w) as [[[]|e] w']; cbn in *;
      [|discriminate].
    specialize (IH (S i) {| svc := svc st; world := w' |}).
    destruct IH as (IH1 & IH2 & IH3).
    repeat split; [exact IH1 | |]; count_split; cbn; lia.
Qed.

Ltac run_probe :=
  unfold _wait_for_recaptcha, bind, call, evaluate, sleep_tab, env, log, emit,
    self, ret; cbn.

Lemma probe_ready_at_once (tab : Tab) (st : state D) :
  ready_at_once D tab st ->
  result (_wait_for_recaptcha (Some tab) st) = Ret true /\
  injections (events (_wait_for_recaptcha (Some tab) st)) = 0.
Proof.
  unfold ready_at_once, injections. intros Hready. run_probe.
  destruct (tab_evaluate D tab EnterpriseExecuteIsFunction (world st))
    as [[v|e] w]; cbn in *; [|contradiction].
  rewrite Hready. cbn. split; reflexivity.
Qed.

Lemma probe_never_ready (tab : Tab) (st : state D) :
  never_ready D tab -> obliging D tab ->
  result (_wait_for_recaptcha (Some tab) st) = Ret false /\
  injections (events (_wait_for_recaptcha (Some tab) st)) = 1 /\
  readiness_checks (after_injection (events (_wait_for_recaptcha (Some tab) st)))
  = 20.
Proof.
  intros Hnever Hobl.
  pose proof (fun st' => recaptcha_poll_exhausts 20 0 tab st' Hnever Hobl)
    as Hpoll.
  destruct Hobl as [Hinj Hsleep].
  unfold injections, readiness_checks in *. run_probe.
  pose proof (Hnever (world st)) as Hfirst.
  destruct (tab_evaluate D tab EnterpriseExecuteIsFunction (world st))
    as [[v|e] w]; cbn in *; [|contradiction].
  rewrite Hfirst. cbn.
  specialize (Hinj (website_key (svc st)) w).
  destruct (tab_evaluate D tab (InjectRecaptchaScript _) w)
    as [[v'|e'] w']; cbn in *; [|discriminate].
  specialize (Hsleep 3000%Z w').
  destruct (tab_sleep D tab 3000 w') as [[[]|e''] w'']; cbn in *;
    [|discriminate].
  destruct (Hpoll {| svc := svc st; world := w'' |}) as (Hr & Hi & Hc).
  repeat split.
  - exact Hr.
  - count_split. cbn. rewrite Hi. reflexivity.
  - count_split. cbn. rewrite Hc. reflexivity.
Qed.

Lemma probe_bounds (tab : Tab) (st : state D) :
  injections (events (_wait_for_recaptcha (Some tab) st)) <= 1 /\
  readiness_checks (after_injection (events (_wait_for_recaptcha (Some tab) st)))
  <= 20.
Proof.
  pose proof (fun st' => recaptcha_poll_bound 20 0 tab st') as Hpoll.
  unfold injections, readiness_checks in *. run_probe.
  destruct (tab_evaluate D tab EnterpriseExecuteIsFunction (world st))
    as [[v|e] w]; cbn; [|split; cbv; lia].
  destruct (truthy v); cbn; [split; cbv; lia|].
  destruct (tab_evaluate D tab (InjectRecaptchaScript _) w)
    as [[v'|e'] w']; cbn; [|split; cbv; lia].
  destruct (tab_sleep D tab 3000 w') as [[[]|e''] w'']; cbn;
    [|split; cbv; lia].
  destruct (Hpoll {| svc := svc st; world := w'' |}) as (Hi & Hc).
  split; count_split; cbn; lia.
Qed.

(** On a page that is never ready the polling loop does not return ready,
    however it ends. *)
Lemma recaptcha_poll_not_ready (n i : nat) (tab : Tab) (st : state D) :
  never_ready D tab ->
  result (recaptcha_poll n i (Some tab) st) <> Ret true.
Proof.
  intros Hnever. revert i st. induction n as [|n IH]; intros i st.
  - discriminate.
  - unfold recaptcha_poll; fold (recaptcha_poll (D := D)).
    unfold bind, evaluate, sleep_tab, env, log, emit, ret. cbn.
    pose proof (Hnever (world st)) as Hfirst.
    destruct (tab_evaluate D tab EnterpriseExecuteIsFunction (world st))
      as [[v|e] w]; cbn in *; [|contradiction].
    rewrite Hfirst. cbn.
    destruct (tab_sleep D tab 500 w) as [[[]|e] w']; cbn; [|discriminate].
    apply IH.
Qed.

Lemma probe_never_ready_attempts (tab : Tab) (st : state D) :
  never_ready D tab ->
  result (_wait_for_recaptcha (Some tab) st) <> Ret true /\
  injections (events (_wait_for_recaptcha (Some tab) st)) = 1.
Proof.
  intros Hnever.
  pose proof (fun st' => recaptcha_poll_not_ready 20 0 tab st' Hnever) as Hnot.
  pose proof (fun st' => recaptcha_poll_bound 20 0 tab st') as Hpoll.
  unfold injections, readiness_checks in *. run_probe.
  pose proof (Hnever (world st)) as Hfirst.
  destruct (tab_evaluate D tab EnterpriseExecuteIsFunction (world st))
    as [[v|e] w]; cbn in *; [|contradiction].
  rewrite Hfirst. cbn.
  destruct (tab_evaluate D tab (InjectRecaptchaScript _) w)
    as [[v'|e'] w']; cbn; [|split; [discriminate | reflexivity]].
  destruct (tab_sleep D tab 3000 w') as [[[]|e''] w'']; cbn;
    [|split; [discriminate | reflexivity]].
  destruct (Hpoll {| svc := svc st; world := w'' |}) as (Hi & _).
  split; [apply Hnot|]. count_split. cbn. rewrite Hi. reflexivity.
Qed.

(** C7: on a page whose first readiness check succeeds, the probe returns
    ready without injecting anything; on a page where the check is never
    true, it makes exactly one injection attempt and never returns ready,
    and, when the page takes the injection and the sleeps without raising,
    it returns not ready after exactly [20] checks that follow the
    injection; on any page it injects at most once and checks at most [20]
    times after the injection. *)
Theorem readiness_probe_budget (tab : Tab) (st : state D) :
  let o := _wait_for_recaptcha (Some tab) st in
  (ready_at_once D tab st ->
   result o = Ret true /\ injections (events o) = 0) /\
  (never_ready D tab ->
   result o <> Ret true /\
   injections (events o) = 1 /\
   (obliging D tab ->
    result o = Ret false /\
    readiness_checks (after_injection (events o)) = 20)) /\
  injections (events o) <= 1 /\
  readiness_checks (after_injection (events o)) <= 20.
Proof.
  intros o. subst o.
  split; [apply probe_ready_at_once|].
  split; [|apply probe_bounds].
  intros Hnever.
  destruct (probe_never_ready_attempts tab st Hnever) as [Hr Hi].
  split; [exact Hr|]. split; [exact Hi|].
  intros Hobl.
  destruct (probe_never_ready tab st Hnever Hobl) as (Hf & _ & Hc).
  split; [exact Hf | exact Hc].
Qed.

(** C5, as the code has it: from a channel that is not running,
    [start_resident_mode] ends with [_running] true exactly when the
    navigation part returned, the page-load wait ended with the page
    loaded and the readiness probe returned ready, and otherwise leaves
    [_running] false; the project, though, is stored before the page is
    opened, as soon as [initialize] has returned, and stays stored when the
    page-load wait or the probe fails. *)
Theorem start_sets_running_last (project_id : string) (st : state D) :
  _running (svc st) = false ->
  let o := start_resident_mode project_id st in
  let nav := start_navigation project_id st in
  let load := page_load_loop 15 0 (project_url project_id) (final nav) in
  let probe :=
    _wait_for_recaptcha (resident_tab (svc (final load))) (final load) in
  (_running (svc (final o)) = true <->
   result nav = Ret tt /\ result load = Ret true /\ result probe = Ret true) /\
  (result (initialize st) = Ret tt ->
   resident_project_id (svc (final o)) = Some project_id).
Proof.
  intros Hrun o nav load probe. subst o nav load probe.
  rewrite (start_not_running project_id st Hrun). cbn [result final events].
  destruct (start_navigation_binding project_id st) as (Hnr & Hnid & _).
  rewrite Hrun in Hnr.
  destruct (keeps_page_load_loop 15 0 (project_url project_id)
              (final (start_navigation project_id st))) as [[Hlr Hlid] _].
  unfold start_resident_body, bind, self, assign, log, emit. cbn.
  destruct (start_navigation project_id st) as [[[]|e] s1 ev1]; cbn in *.
  - destruct (keeps_wait_for_recaptcha D
                (resident_tab (svc (final (page_load_loop 15 0
                   (project_url project_id) s1))))
                (final (page_load_loop 15 0 (project_url project_id) s1)))
      as [Hprobe _].
    apply same_resident_binding in Hprobe. destruct Hprobe as [Hpr Hpid].
    destruct (page_load_loop 15 0 (project_url project_id) s1)
      as [[[|]|e] s2 ev2]; cbn in *.
    + destruct (_wait_for_recaptcha (resident_tab (svc s2)) s2)
        as [[[|]|e] s3 ev3]; cbn in *.
      * split; [tauto|]. intros H. rewrite <- Hpid, <- Hlid. auto.
      * split.
        -- split; [congruence | intros (_ & _ & H); discriminate H].
        -- intros H. rewrite <- Hpid, <- Hlid. auto.
      * split.
        -- split; [congruence | intros (_ & _ & H); discriminate H].
        -- intros H. rewrite <- Hpid, <- Hlid. auto.
    + split.
      * split; [congruence | intros (_ & H & _); discriminate H].
      * intros H. rewrite <- Hlid. auto.
    + split.
      * split; [congruence | intros (_ & H & _); discriminate H].
      * intros H. rewrite <- Hlid. auto.
  - split.
    + split; [congruence | intros (H & _); discriminate H].
    + exact Hnid.
Qed.

End Resident.

(** * The queue that is not there *)

(** C9: on every instance [get_queue_size] raises [AttributeError]: the
    instance has no attribute [token_queue], neither as [__init__] leaves it
    nor in any later state. *)
Theorem get_queue_size_raises (s : service) :
  getattr s "token_queue" = None /\ get_queue_size s = Raise AttributeError.
Proof.
  split; reflexivity.
Qed.

(** * Concrete runs *)

(** The executor itself may hand back the empty string that a page holds
    in its token global; [get_token] turns it into [None], on the resident
    path (by falling back) and on the legacy path. *)
Example empty_token_is_filtered :
  result (_execute_recaptcha_on_tab (Some 7) (resident empty_page "p"))
  = Ret (PStr EmptyString) /\
  result (get_token "p" (resident empty_page "p")) = Ret PNone.
Proof. split; vm_compute; reflexivity. Qed.

(** A readiness check that raises in the legacy path: [None] is returned
    and the tab is closed. *)
Example broken_page_is_closed :
  result (get_token "p" (fresh broken_page)) = Ret PNone /\
  count is_close (events (get_token "p" (fresh broken_page))) = 1 /\
  In (EvLog Error (LegacyException (OtherException "ProtocolException")))
     (events (get_token "p" (fresh broken_page))).
Proof.
  split; [vm_compute; reflexivity|].
  split; [vm_compute; reflexivity|].
  vm_compute. tauto.
Qed.

Lemma good_page_typed (token : string) :
  typed_tokens (static_driver (good_page token)).
Proof.
  intros t ts w. simpl. right. exists token. reflexivity.
Qed.

Lemma get_token_never_empty_witness :
  typed_tokens (static_driver (good_page "tok")) /\
  token_or_none (PStr "tok").
Proof.
  split; [apply good_page_typed|].
  exact (proj2 (proj2 (proj1
           (get_token_never_empty (static_driver (good_page "tok")) "p"
              (fresh (good_page "tok")))))
           (good_page_typed "tok")).
Defined.

Lemma resident_token_is_served_witness :
  result (get_token "p" (resident (good_page "tok") "p")) = Ret (PStr "tok") /\
  count (is_call M_get_token_legacy)
    (events (get_token "p" (resident (good_page "tok") "p"))) = 0 /\
  count is_open (events (get_token "p" (resident (good_page "tok") "p"))) = 0.
Proof.
  apply (resident_token_is_served (static_driver (good_page "tok")) "p"
           (resident (good_page "tok") "p") 7 (PStr "tok"));
    reflexivity.
Defined.

Lemma resident_failure_falls_back_witness :
  result (get_token "p" (resident (degraded_page "tok") "p"))
  = result (_get_token_legacy "p"
              (final (resident_attempt "p" (resident (degraded_page "tok") "p")))) /\
  final (get_token "p" (resident (degraded_page "tok") "p"))
  = final (_get_token_legacy "p"
             (final (resident_attempt "p" (resident (degraded_page "tok") "p")))) /\
  count (is_call M_get_token_legacy)
    (events (get_token "p" (resident (degraded_page "tok") "p"))) = 1.
Proof.
  apply (resident_failure_falls_back (static_driver (degraded_page "tok")) "p"
           (resident (degraded_page "tok") "p") 7 PNone);
    reflexivity.
Defined.

(** The degraded resident tab is served by the legacy path. *)
Example degraded_resident_is_rescued :
  result (get_token "p" (resident (degraded_page "tok") "p")) = Ret (PStr "tok").
Proof. vm_compute. reflexivity. Qed.

Lemma other_target_goes_legacy_witness :
  result (get_token "q" (resident (good_page "tok") "p"))
  = result (_get_token_legacy "q" (resident (good_page "tok") "p")) /\
  events (get_token "q" (resident (good_page "tok") "p"))
  = EvCall M_get_token
    :: events (_get_token_legacy "q" (resident (good_page "tok") "p")).
Proof.
  assert (H : _running (svc (resident (good_page "tok") "p")) = false \/
              resident_project_id (svc (resident (good_page "tok") "p"))
              <> Some "q")
    by (right; discriminate).
  destruct (other_target_goes_legacy (static_driver (good_page "tok")) "q"
              (resident (good_page "tok") "p") H) as (Hr & _ & He & _).
  split; [exact Hr | exact He].
Defined.

(** C4, where the code departs from it: the legacy path calls
    [browser.get(url)] without [new_tab=True], so the browser creates no
    tab for it but navigates the first page target it has.  On a fresh
    instance, after [start_resident_mode "p"] has opened the resident tab
    [1] next to the main tab [0], a first [get_token "q"] runs on the main
    tab and closes it; the resident tab is then the first page target, and
    a second [get_token "q"], for a project the channel is not bound to,
    is handed that tab: it navigates it to the page of ["q"], executes on
    it and closes it, while the channel stays marked running on it. *)
Theorem legacy_reuses_resident_tab :
  let s1 := final (start_resident_mode "p" (unlaunched (good_page "tok"))) in
  let first := get_token "q" s1 in
  let s2 := final first in
  let o := get_token "q" s2 in
  let ts := 1700000000000%Z in
  (_running (svc s2) = true /\
   resident_project_id (svc s2) = Some "p" /\
   resident_tab (svc s2) = Some 1 /\
   world s2 = (2, [1])) /\
  (In (EvOpen (project_url "q") false (Some 0)) (events first) /\
   last (events first) EvTime = EvClose 0) /\
  result o = Ret (PStr "tok") /\
  In (EvOpen (project_url "q") false (Some 1)) (events o) /\
  In (EvEvaluate 1 (ExecuteEnterprise (website_key (svc s2))
                      (TokenVar ts) (ErrorVar ts))) (events o) /\
  last (events o) EvTime = EvClose 1 /\
  svc (final o) = svc s2 /\
  world (final o) = (2, []).
Proof.
  vm_compute. intuition.
Qed.

(** C5, counterexample: on a page that never finishes loading, the start
    fails at the page-load wait and [_running] stays false, but the stored
    project is no longer what it was. *)
Lemma failed_start_stores_project :
  In (EvLog Error PageLoadTimeout)
     (events (start_resident_mode "p" (fresh loading_page))) /\
  _running (svc (final (start_resident_mode "p" (fresh loading_page)))) = false /\
  resident_project_id (svc (fresh loading_page)) = None /\
  resident_project_id (svc (final (start_resident_mode "p" (fresh loading_page))))
  = Some "p".
Proof.
  split; [vm_compute; tauto|].
  repeat split; vm_compute; reflexivity.
Qed.

Lemma start_sets_running_last_witness :
  _running (svc (fresh loading_page)) = false /\
  resident_project_id
    (svc (final (start_resident_mode "p" (fresh loading_page)))) = Some "p".
Proof.
  split; [reflexivity|].
  apply (start_sets_running_last (static_driver loading_page) "p"
           (fresh loading_page)); reflexivity.
Defined.

(** C8, counterexample: after a first call that failed, a second call
    without a stop in between navigates again; and a first call that
    succeeded may itself have opened two pages. *)
Lemma failed_start_is_repeated :
  count is_open
    (events (start_resident_mode "p"
               (final (start_resident_mode "p" (fresh loading_page))))) = 1 /\
  count is_open
    (events (start_resident_mode "p" (fresh loading_page))
     ++ events (start_resident_mode "p"
                  (final (start_resident_mode "p" (fresh loading_page))))) = 2 /\
  _running (svc (final (start_resident_mode "p" (fresh (refused_page "tok")))))
  = true /\
  count is_open
    (events (start_resident_mode "p" (fresh (refused_page "tok")))) = 2.
Proof.
  repeat split; vm_compute; reflexivity.
Qed.

Lemma bare_page_never_ready (tab : Tab) :
  never_ready (static_driver bare_page) tab.
Proof. intros w. reflexivity. Qed.

Lemma static_pages_oblige (page : Tab -> script -> res pyval) (tab : Tab) :
  (forall key, is_ret (page tab (InjectRecaptchaScript key)) = true) ->
  obliging (static_driver page) tab.
Proof.
  intros H. split; intros; simpl; auto.
Qed.

Lemma readiness_probe_budget_witness :
  (ready_at_once (static_driver (good_page "tok")) 3 (fresh (good_page "tok")) /\
   injections (events (_wait_for_recaptcha (Some 3) (fresh (good_page "tok")))) = 0) /\
  (never_ready (static_driver bare_page) 3 /\
   obliging (static_driver bare_page) 3 /\
   result (_wait_for_recaptcha (Some 3) (fresh bare_page)) = Ret false /\
   readiness_checks
     (after_injection (events (_wait_for_recaptcha (Some 3) (fresh bare_page))))
   = 20).
Proof.
  assert (Hready : ready_at_once (static_driver (good_page "tok")) 3
                     (fresh (good_page "tok"))) by reflexivity.
  assert (Hnever : never_ready (static_driver bare_page) 3)
    by apply bare_page_never_ready.
  assert (Hobl : obliging (static_driver bare_page) 3)
    by (apply static_pages_oblige; reflexivity).
  split.
  - split; [exact Hready|].
    apply (readiness_probe_budget (static_driver (good_page "tok")) 3
             (fresh (good_page "tok"))). exact Hready.
  - split; [exact Hnever|]. split; [exact Hobl|].
    destruct (proj1 (proj2 (readiness_probe_budget (static_driver bare_page) 3
                              (fresh bare_page))) Hnever)
      as (_ & _ & Hrest).
    exact (Hrest Hobl).
Defined.

(** * Running a program step by step *)

Section Steps.

Variable D : driver.

Lemma bind_unfold {A B} (m : M D A) (f : A -> M D B) (st : state D) :
  bind m f st
  = match result (m st) with
    | Ret a => prepend (events (m st)) (f a (final (m st)))
    | Raise e => {| result := Raise e; final := final (m st);
                    events := events (m st) |}
    end.
Proof. reflexivity. Qed.

Lemma try_except_unfold {A} (m : M D A) (h : exn -> M D A) (st : state D) :
  try_except m h st
  = match result (m st) with
    | Ret _ => m st
    | Raise e => prepend (events (m st)) (h e (final (m st)))
    end.
Proof. reflexivity. Qed.

Lemma try_finally_unfold {A} (m : M D A) (f : M D unit) (st : state D) :
  try_finally m f st
  = {| result := match result (f (final (m st))) with
                 | Ret _ => result (m st)
                 | Raise e => Raise e
                 end;
       final := final (f (final (m st)));
       events := events (m st) ++ events (f (final (m st))) |}.
Proof. reflexivity. Qed.

End Steps.

Arguments prepend : simpl never.

(** One step of a run: the outermost sequencing or handler, then what the
    primitive in front of it does. *)
Ltac run_step :=
  first [ rewrite bind_unfold
        | rewrite try_except_unfold
        | rewrite try_finally_unfold ];
  cbn [result final events svc world
       emit call log self assign ret raise asyncio_sleep].

(** The projections of the outcome reached. *)
Ltac run_done :=
  unfold prepend;
  cbn [result final events svc world app
       emit call log self assign ret raise asyncio_sleep].

(** * Stopping the channel and closing the service *)

Section Shutdown.

Variable D : driver.

Lemma stop_skips (st : state D) :
  _running (svc st) = false ->
  stop_resident_mode st
  = {| result := Ret tt; final := st;
       events := [EvCall M_stop_resident_mode] |}.
Proof.
  intros Hrun. unfold stop_resident_mode.
  do 2 run_step. rewrite Hrun. reflexivity.
Qed.

(** What [stop_resident_mode] does to a running channel. *)
Lemma stop_running (st : state D) :
  _running (svc st) = true ->
  result (stop_resident_mode st) = Ret tt /\
  resident_state (svc (final (stop_resident_mode st)))
  = (false, None, None, false) /\
  browser (svc (final (stop_resident_mode st))) = browser (svc st) /\
  _initialized (svc (final (stop_resident_mode st))) = _initialized (svc st) /\
  events (stop_resident_mode st)
  = EvCall M_stop_resident_mode
    :: match resident_tab (svc st) with
       | Some t => [EvClose t]
       | None => []
       end
    ++ [EvLog Info ResidentStopped].
Proof.
  intros Hrun. unfold stop_resident_mode, suppress.
  repeat run_step. rewrite Hrun. cbn [negb]. repeat run_step.
  destruct (resident_tab (svc st)) as [t|] eqn:Htab.
  - repeat run_step. cbn [close_tab]. unfold env. cbv beta. cbn [svc world].
    destruct (tab_close D t (world st)) as [[[]|e] w];
      cbn [result final events]; repeat run_step; run_done; repeat split.
  - repeat run_step. run_done. unfold resident_state. cbn.
    rewrite Htab. repeat split.
Qed.

(** X1: [stop_resident_mode] on a channel that is not running does
    nothing: it returns without raising, leaves the instance and the world
    as they are, and calls neither the logger nor the browser. *)
Theorem stop_when_not_running (st : state D) :
  _running (svc st) = false ->
  let o := stop_resident_mode st in
  result o = Ret tt /\
  final o = st /\
  events o = [EvCall M_stop_resident_mode].
Proof.
  intros Hrun o. subst o. rewrite (stop_skips st Hrun). repeat split.
Qed.

(** X2: [stop_resident_mode] on a running channel returns without raising,
    also when closing the tab raises; it leaves the channel not running,
    with no tab, no project and the ready flag down, and the browser as it
    was; and it closes the resident tab, if there is one, exactly once and
    closes nothing else. *)
Theorem stop_resets_channel (st : state D) :
  _running (svc st) = true ->
  let o := stop_resident_mode st in
  result o = Ret tt /\
  resident_state (svc (final o)) = (false, None, None, false) /\
  browser (svc (final o)) = browser (svc st) /\
  _initialized (svc (final o)) = _initialized (svc st) /\
  (forall t, In (EvClose t) (events o) -> resident_tab (svc st) = Some t) /\
  count is_close (events o) = (if is_some (resident_tab (svc st)) then 1 else 0) /\
  count is_stop (events o) = 0.
Proof.
  intros Hrun o. subst o.
  destruct (stop_running st Hrun) as (Hr & Hs & Hb & Hi & He).
  rewrite He. repeat split; try assumption.
  - intros t. destruct (resident_tab (svc st)) as [t'|]; cbn.
    + intros [H|[H|[H|[]]]]; try discriminate H. congruence.
    + intros [H|[H|[]]]; discriminate H.
  - destruct (resident_tab (svc st)); reflexivity.
  - destruct (resident_tab (svc st)); reflexivity.
Qed.

Lemma stop_summary (st : state D) :
  result (stop_resident_mode st) = Ret tt /\
  _running (svc (final (stop_resident_mode st))) = false /\
  browser (svc (final (stop_resident_mode st))) = browser (svc st) /\
  count is_stop (events (stop_resident_mode st)) = 0 /\
  count is_start (events (stop_resident_mode st)) = 0 /\
  count is_open (events (stop_resident_mode st)) = 0.
Proof.
  destruct (_running (svc st)) eqn:Hrun.
  - destruct (stop_running st Hrun) as (Hr & Hs & Hb & _ & He).
    rewrite He. unfold resident_state in Hs.
    repeat split; try assumption; try congruence;
      destruct (resident_tab (svc st)); reflexivity.
  - rewrite (stop_skips st Hrun). repeat split. exact Hrun.
Qed.

(** X3: however the channel is, [stop_resident_mode] returns without
    raising and leaves it not running, so that a second stop right after
    it does nothing at all. *)
Theorem stop_is_idempotent (st : state D) :
  let o := stop_resident_mode st in
  result o = Ret tt /\
  _running (svc (final o)) = false /\
  stop_resident_mode (final o)
  = {| result := Ret tt; final := final o;
       events := [EvCall M_stop_resident_mode] |}.
Proof.
  intros o. subst o.
  destruct (stop_summary st) as (Hr & Hn & _).
  repeat split; try assumption.
  apply stop_skips. exact Hn.
Qed.

Lemma close_parts (st : state D) :
  let o := close st in
  result o = Ret tt /\
  _running (svc (final o)) = false /\
  browser (svc (final o)) = None /\
  _initialized (svc (final o)) = false /\
  count is_stop (events o) = (if is_some (browser (svc st)) then 1 else 0) /\
  count is_start (events o) = 0 /\
  count is_open (events o) = 0.
Proof.
  intros o. subst o.
  destruct (stop_summary st) as (Hr & Hn & Hb & Hstop & Hstart & Hopen).
  unfold close. repeat run_step.
  destruct (stop_resident_mode st) as [[[]|e] s1 ev1];
    cbn [result final events] in *; [|discriminate].
  rewrite <- Hb. repeat run_step.
  destruct (browser (svc s1)) as [b|] eqn:Hbr.
  - repeat run_step. unfold env. cbv beta. cbn [svc world].
    destruct (browser_stop D b (world s1)) as [[[]|e] w];
      cbn [result final events]; repeat run_step; run_done; cbn;
      repeat split; try assumption; count_split; cbn; lia.
  - repeat run_step. run_done. cbn.
    repeat split; try assumption; count_split; cbn; lia.
Qed.

(** X4: [close] never raises, not even when stopping the browser does; it
    leaves the channel not running, the browser handle dropped and the
    service marked not initialized; it stops the browser exactly once when
    there was one and not at all otherwise, and it neither starts a browser
    nor opens a page. *)
Theorem close_shuts_down (st : state D) :
  let o := close st in
  result o = Ret tt /\
  _running (svc (final o)) = false /\
  browser (svc (final o)) = None /\
  _initialized (svc (final o)) = false /\
  count is_stop (events o) = (if is_some (browser (svc st)) then 1 else 0) /\
  count is_start (events o) = 0 /\
  count is_open (events o) = 0.
Proof. apply close_parts. Qed.

End Shutdown.

(** * Starting the browser *)

Section Launch.

Variable D : driver.

(** The launch block, case by case. *)
Lemma start_browser_cases (st : state D) :
  let o := start_browser st in
  In (EvMakedirs (user_data_dir (svc st))) (events o) /\
  count is_start (events o) <= 1 /\
  match result o with
  | Ret _ =>
      (exists b, svc (final o)
                 = set_initialized true (set_browser (Some b) (svc st))) /\
      count is_start (events o) = 1
  | Raise e =>
      svc (final o) = svc st /\
      In (EvLog Error (BrowserStartFailed e)) (events o)
  end.
Proof.
  intros o. subst o. unfold start_browser. repeat run_step.
  unfold env. cbv beta. cbn [svc world].
  destruct (os_makedirs D (user_data_dir (svc st)) (world st))
    as [[[]|e] w]; cbn [result final events]; repeat run_step.
  - unfold env. cbv beta. cbn [svc world].
    destruct (uc_start D (headless (svc st)) (user_data_dir (svc st)) w)
      as [[b|e] w']; cbn [result final events]; repeat run_step; run_done.
    + split; [cbn; tauto|]. split; [cbv; lia|].
      split; [exists b; reflexivity | reflexivity].
    + split; [cbn; tauto|]. split; [cbv; lia|].
      split; [reflexivity | cbn; tauto].
  - run_done. split; [cbn; tauto|]. split; [cbv; lia|].
    split; [reflexivity | cbn; tauto].
Qed.

(** [initialize] on a service that is marked initialized and has a browser. *)
Lemma initialize_checks (st : state D) (b : Browser) :
  _initialized (svc st) = true ->
  browser (svc st) = Some b ->
  initialize st
  = match fst (browser_stopped D b (world st)) with
    | Ret false =>
        {| result := Ret tt;
           final := {| svc := svc st;
                       world := snd (browser_stopped D b (world st)) |};
           events := [EvCall M_initialize; EvStopped b] |}
    | r =>
        prepend [EvCall M_initialize; EvStopped b;
                 EvLog Warning
                   (if is_ret r then BrowserStoppedReinit
                    else BrowserUnresponsiveReinit)]
          (start_browser
             {| svc := set_initialized false (svc st);
                world := snd (browser_stopped D b (world st)) |})
    end.
Proof.
  intros Hinit Hbr. unfold initialize. repeat run_step.
  rewrite Hinit, Hbr. unfold check_alive. repeat run_step.
  unfold env. cbv beta. cbn [svc world].
  destruct (browser_stopped D b (world st)) as [[[|]|e] w];
    cbn [result final events fst snd is_ret]; repeat run_step; run_done.
  - unfold prepend. reflexivity.
  - reflexivity.
  - unfold prepend. reflexivity.
Qed.

(** [initialize] on a service that is not marked initialized, or has no
    browser. *)
Lemma initialize_launches (st : state D) :
  _initialized (svc st) = false \/ browser (svc st) = None ->
  initialize st = prepend [EvCall M_initialize] (start_browser st).
Proof.
  intros H. unfold initialize. repeat run_step.
  assert (E : match _initialized (svc st), browser (svc st) with
              | true, Some b => check_alive b
              | _, _ => ret false
              end = ret (D := D) false).
  { destruct H as [H|H]; rewrite H; [reflexivity|].
    destruct (_initialized (svc st)); reflexivity. }
  rewrite E. repeat run_step. run_done.
  unfold prepend. reflexivity.
Qed.

Lemma initialize_outcome_parts (st : state D) :
  let o := initialize st in
  resident_state (svc (final o)) = resident_state (svc st) /\
  count is_start (events o) <= 1 /\
  count is_stop (events o) = 0 /\
  count is_open (events o) = 0 /\
  match result o with
  | Ret _ =>
      _initialized (svc (final o)) = true /\
      is_some (browser (svc (final o))) = true
  | Raise e =>
      In (EvLog Error (BrowserStartFailed e)) (events o) /\
      browser (svc (final o)) = browser (svc st)
  end.
Proof.
  intros o. subst o.
  destruct (keeps_initialize D st) as [Hres Hev].
  split; [symmetry; exact Hres|].
  assert (Hstop : count is_stop (events (initialize st)) = 0).
  { apply (count_class init_events); [|exact Hev].
    intros e. destruct e; try reflexivity; discriminate. }
  assert (Hopen : count is_open (events (initialize st)) = 0).
  { apply (count_class init_events); [|exact Hev].
    intros e. destruct e; try reflexivity; discriminate. }
  assert (Hlaunch : forall st' : state D,
             browser (svc st') = browser (svc st) ->
             count is_start (events (start_browser st')) <= 1 /\
             match result (start_browser st') with
             | Ret _ =>
                 _initialized (svc (final (start_browser st'))) = true /\
                 is_some (browser (svc (final (start_browser st')))) = true
             | Raise e =>
                 In (EvLog Error (BrowserStartFailed e))
                    (events (start_browser st')) /\
                 browser (svc (final (start_browser st'))) = browser (svc st)
             end).
  { intros st' Hb. pose proof (start_browser_cases st') as H. cbv zeta in H.
    destruct H as (_ & Hle & H). split; [exact Hle|].
    destruct (result (start_browser st')).
    - destruct H as [[b Hs] _]. rewrite Hs. split; reflexivity.
    - destruct H as [Hs Hin]. rewrite Hs. split; [exact Hin | exact Hb]. }
  cut (count is_start (events (initialize st)) <= 1 /\
       match result (initialize st) with
       | Ret _ =>
           _initialized (svc (final (initialize st))) = true /\
           is_some (browser (svc (final (initialize st)))) = true
       | Raise e =>
           In (EvLog Error (BrowserStartFailed e)) (events (initialize st)) /\
           browser (svc (final (initialize st))) = browser (svc st)
       end).
  { intros [H1 H2]. repeat split; assumption. }
  clear Hres Hev Hstop Hopen.
  destruct (_initialized (svc st)) eqn:Hinit;
    [destruct (browser (svc st)) as [b|] eqn:Hbr|].
  - rewrite (initialize_checks st b Hinit Hbr).
    destruct (fst (browser_stopped D b (world st))) as [[|]|e];
      cbn [is_ret].
    + specialize (Hlaunch
        {| svc := set_initialized false (svc st);
           world := snd (browser_stopped D b (world st)) |} Hbr).
      destruct Hlaunch as [Hle H]. unfold prepend. cbn [result final events].
      split; [count_split; cbn; lia|].
      destruct (result (start_browser _)); [exact H|].
      destruct H as [Hin Hb]. split; [|exact Hb].
      apply in_or_app. right. exact Hin.
    + cbn [result final events svc]. split; [cbv; lia|].
      split; [exact Hinit | rewrite Hbr; reflexivity].
    + specialize (Hlaunch
        {| svc := set_initialized false (svc st);
           world := snd (browser_stopped D b (world st)) |} Hbr).
      destruct Hlaunch as [Hle H]. unfold prepend. cbn [result final events].
      split; [count_split; cbn; lia|].
      destruct (result (start_browser _)); [exact H|].
      destruct H as [Hin Hb]. split; [|exact Hb].
      apply in_or_app. right. exact Hin.
  - rewrite (initialize_launches st (or_intror Hbr)).
    destruct (Hlaunch st Hbr) as [Hle H].
    unfold prepend. cbn [result final events].
    split; [count_split; cbn; lia|].
    destruct (result (start_browser st)); [exact H|].
    destruct H as [Hin Hb]. split; [|exact Hb].
    right. exact Hin.
  - rewrite (initialize_launches st (or_introl Hinit)).
    destruct (Hlaunch st eq_refl) as [Hle H].
    unfold prepend. cbn [result final events].
    split; [count_split; cbn; lia|].
    destruct (result (start_browser st)); [exact H|].
    destruct H as [Hin Hb]. split; [|exact Hb]. right. exact Hin.
Qed.

(** X5: [initialize] leaves the resident channel alone, launches at most
    one browser, never stops one and never opens a page; when it returns,
    the service is marked initialized and has a browser; when it raises,
    the failure of the launch has been logged with the exception that is
    raised, and the browser handle is the one it had. *)
Theorem initialize_outcome (st : state D) :
  let o := initialize st in
  resident_state (svc (final o)) = resident_state (svc st) /\
  count is_start (events o) <= 1 /\
  count is_stop (events o) = 0 /\
  count is_open (events o) = 0 /\
  match result o with
  | Ret _ =>
      _initialized (svc (final o)) = true /\
      is_some (browser (svc (final o))) = true
  | Raise e =>
      In (EvLog Error (BrowserStartFailed e)) (events o) /\
      browser (svc (final o)) = browser (svc st)
  end.
Proof. apply initialize_outcome_parts. Qed.

(** X6: on a service that is marked initialized and whose browser answers
    the liveness check with not stopped, [initialize] returns at once: the
    instance is unchanged, and nothing is created or launched. *)
Theorem initialize_alive_is_noop (st : state D) (b : Browser) :
  _initialized (svc st) = true ->
  browser (svc st) = Some b ->
  fst (browser_stopped D b (world st)) = Ret false ->
  let o := initialize st in
  result o = Ret tt /\
  svc (final o) = svc st /\
  events o = [EvCall M_initialize; EvStopped b].
Proof.
  intros Hinit Hbr Halive o. subst o.
  rewrite (initialize_checks st b Hinit Hbr), Halive. repeat split.
Qed.

(** X7: when the liveness check of an initialized service reports the
    browser stopped, or raises, [initialize] goes on to launch a new one:
    the profile directory is made, and either the launch succeeds, once,
    and the service is initialized again, or [initialize] raises and the
    service is left marked not initialized, still holding the dead
    handle. *)
Theorem initialize_relaunches (st : state D) (b : Browser) :
  _initialized (svc st) = true ->
  browser (svc st) = Some b ->
  fst (browser_stopped D b (world st)) <> Ret false ->
  let o := initialize st in
  In (EvMakedirs (user_data_dir (svc st))) (events o) /\
  match result o with
  | Ret _ =>
      _initialized (svc (final o)) = true /\
      count is_start (events o) = 1
  | Raise _ =>
      _initialized (svc (final o)) = false /\
      browser (svc (final o)) = Some b
  end.
Proof.
  intros Hinit Hbr Hdead o. subst o.
  rewrite (initialize_checks st b Hinit Hbr).
  pose proof (start_browser_cases
                {| svc := set_initialized false (svc st);
                   world := snd (browser_stopped D b (world st)) |}) as H.
  cbv zeta in H. cbn [svc] in H. destruct H as (Hmk & _ & H).
  assert (Hgoal :
    forall msg,
      In (EvMakedirs (user_data_dir (svc st)))
         (events (prepend [EvCall M_initialize; EvStopped b; EvLog Warning msg]
            (start_browser
               {| svc := set_initialized false (svc st);
                  world := snd (browser_stopped D b (world st)) |}))) /\
      match result (prepend [EvCall M_initialize; EvStopped b; EvLog Warning msg]
            (start_browser
               {| svc := set_initialized false (svc st);
                  world := snd (browser_stopped D b (world st)) |})) with
      | Ret _ =>
          _initialized (svc (final (prepend
            [EvCall M_initialize; EvStopped b; EvLog Warning msg]
            (start_browser
               {| svc := set_initialized false (svc st);
                  world := snd (browser_stopped D b (world st)) |})))) = true /\
          count is_start (events (prepend
            [EvCall M_initialize; EvStopped b; EvLog Warning msg]
            (start_browser
               {| svc := set_initialized false (svc st);
                  world := snd (browser_stopped D b (world st)) |}))) = 1
      | Raise _ =>
          _initialized (svc (final (prepend
            [EvCall M_initialize; EvStopped b; EvLog Warning msg]
            (start_browser
               {| svc := set_initialized false (svc st);
                  world := snd (browser_stopped D b (world st)) |})))) = false /\
          browser (svc (final (prepend
            [EvCall M_initialize; EvStopped b; EvLog Warning msg]
            (start_browser
               {| svc := set_initialized false (svc st);
                  world := snd (browser_stopped D b (world st)) |})))) = Some b
      end).
  { intros msg. unfold prepend. cbn [result final events].
    split; [apply in_or_app; right; exact Hmk|].
    destruct (result (start_browser _)).
    - destruct H as [[b' Hs] Hc]. rewrite Hs.
      split; [reflexivity|]. count_split. cbn. lia.
    - destruct H as [Hs _]. rewrite Hs. split; [reflexivity | exact Hbr]. }
  destruct (fst (browser_stopped D b (world st))) as [[|]|e];
    [apply Hgoal | contradiction | apply Hgoal].
Qed.

End Launch.

(** * The executor *)

Lemma tab_sleep_total_app (l1 l2 : list event) :
  tab_sleep_total (l1 ++ l2) = (tab_sleep_total l1 + tab_sleep_total l2)%Z.
Proof.
  induction l1 as [|e l1 IH]; [reflexivity|].
  destruct e; cbn [app tab_sleep_total]; rewrite IH; lia.
Qed.

Lemma sleep_total_app (l1 l2 : list event) :
  sleep_total (l1 ++ l2) = (sleep_total l1 + sleep_total l2)%Z.
Proof.
  induction l1 as [|e l1 IH]; [reflexivity|].
  destruct e; cbn [app sleep_total]; rewrite IH; lia.
Qed.

(** A call on a tab that is there, down to the call of the driver. *)
Ltac run_call :=
  cbn [evaluate sleep_tab close_tab]; unfold env; cbv beta; cbn [svc world].

Ltac class_side :=
  cbn [forallb executor_events executor_script jsvar_eqb andb orb];
  rewrite ?Nat.eqb_refl, ?Z.eqb_refl, ?String.eqb_refl, ?orb_true_r;
  cbn [andb orb]; try reflexivity; try assumption.

Section Executor.

Variable D : driver.

(** The polling loop of the executor: its events, and its budget. *)
Lemma token_poll_budget (n : nat) (tab : Tab) (key : string) (ts : Z)
    (token : pyval) (st : state D) :
  let o := token_poll n (Some tab) (TokenVar ts) (ErrorVar ts) token st in
  forallb (executor_events tab key ts) (events o) = true /\
  count (is_evaluate is_token_read) (events o) <= n /\
  count (is_evaluate is_error_read) (events o) <= n /\
  count (is_evaluate is_delete) (events o) = 0 /\
  count (is_evaluate is_execute) (events o) = 0 /\
  (0 <= tab_sleep_total (events o) <= 500 * Z.of_nat n)%Z.
Proof.
  revert token st. induction n as [|n IH]; intros token st; cbv zeta.
  - unfold token_poll. run_done. repeat split; cbv; lia || congruence.
  - unfold token_poll; fold (token_poll (D := D)).
    repeat run_step. run_call.
    destruct (tab_sleep D tab 500 (world st)) as [[[]|e] w];
      cbn [result final events]; repeat run_step.
    + run_call.
      destruct (tab_evaluate D tab (ReadWindowVar (TokenVar ts)) w)
        as [[v|e] w1]; cbn [result final events]; repeat run_step.
      * destruct (truthy v).
        -- run_done. repeat split; try class_side; try (cbv; lia);
             count_split; cbn; lia.
        -- repeat run_step. run_call.
           destruct (tab_evaluate D tab (ReadWindowVar (ErrorVar ts)) w1)
             as [[err|e] w2]; cbn [result final events]; repeat run_step.
           ++ destruct (truthy err).
              ** repeat run_step. run_done.
                 repeat split; try class_side; try (cbv; lia);
                   count_split; cbn; lia.
              ** specialize (IH v {| svc := svc st; world := w2 |}).
                 cbv zeta in IH.
                 destruct IH as (I1 & I2 & I3 & I4 & I5 & I6).
                 run_done. repeat split; try class_side;
                   try (count_split; cbn; lia);
                   cbn [tab_sleep_total]; lia.
           ++ run_done. repeat split; try class_side; try (cbv; lia);
                count_split; cbn; lia.
      * run_done. repeat split; try class_side; try (cbv; lia);
          count_split; cbn; lia.
    + run_done. repeat split; try class_side; try (cbv; lia);
        count_split; cbn; lia.
Qed.

(** On a page whose globals stay false, the loop goes through all its
    iterations. *)
Lemma token_poll_exhausts (n : nat) (tab : Tab) (ts : Z) (token : pyval)
    (st : state D) :
  silent_page D tab -> executes D tab -> truthy token = false ->
  let o := token_poll n (Some tab) (TokenVar ts) (ErrorVar ts) token st in
  (exists v, result o = Ret v /\ truthy v = false) /\
  count (is_evaluate is_token_read) (events o) = n /\
  count (is_evaluate is_error_read) (events o) = n /\
  tab_sleep_total (events o) = (500 * Z.of_nat n)%Z.
Proof.
  intros Hsilent [_ Hsleep]. revert token st.
  induction n as [|n IH]; intros token st Htok; cbv zeta.
  - unfold token_poll. run_done.
    split; [exists token; split; [reflexivity | exact Htok]|].
    repeat split.
  - unfold token_poll; fold (token_poll (D := D)).
    repeat run_step. run_call.
    specialize (Hsleep 500%Z (world st)).
    destruct (tab_sleep D tab 500 (world st)) as [[[]|e] w];
      cbn [fst is_ret] in Hsleep; [|discriminate].
    cbn [result final events]. repeat run_step. run_call.
    pose proof (Hsilent (TokenVar ts) w) as Hv.
    destruct (tab_evaluate D tab (ReadWindowVar (TokenVar ts)) w)
      as [[v|e] w1]; cbn [fst] in Hv; [|contradiction].
    cbn [result final events]. repeat run_step. rewrite Hv.
    repeat run_step. run_call.
    pose proof (Hsilent (ErrorVar ts) w1) as He.
    destruct (tab_evaluate D tab (ReadWindowVar (ErrorVar ts)) w1)
      as [[err|e] w2]; cbn [fst] in He; [|contradiction].
    cbn [result final events]. repeat run_step. rewrite He.
    specialize (IH v {| svc := svc st; world := w2 |} Hv). cbv zeta in IH.
    destruct IH as (I1 & I2 & I3 & I4).
    run_done. split; [exact I1|].
    repeat split; try (count_split; cbn; lia).
    cbn [tab_sleep_total]. lia.
Qed.

(** The executor, case by case: the clock is read, the execution script is
    injected, the globals are polled, and the globals are deleted if the
    polling returned. *)
Lemma execute_cases (tab : Tab) (st : state D) :
  let o := _execute_recaptcha_on_tab (Some tab) st in
  let ts := fst (time_time D (world st)) in
  let run := ExecuteEnterprise (website_key (svc st)) (TokenVar ts) (ErrorVar ts) in
  let injected := tab_evaluate D tab run (snd (time_time D (world st))) in
  let p := token_poll 30 (Some tab) (TokenVar ts) (ErrorVar ts) PNone
             {| svc := svc st; world := snd injected |} in
  match fst injected with
  | Raise e =>
      result o = Raise e /\
      events o = [EvCall M_execute_recaptcha_on_tab; EvTime; EvEvaluate tab run]
  | Ret _ =>
      match result p with
      | Raise e =>
          result o = Raise e /\
          events o = EvCall M_execute_recaptcha_on_tab :: EvTime
                     :: EvEvaluate tab run :: events p
      | Ret token =>
          result o = Ret token /\
          svc (final o) = svc (final p) /\
          events o = EvCall M_execute_recaptcha_on_tab :: EvTime
                     :: EvEvaluate tab run :: events p
                     ++ [EvEvaluate tab
                           (DeleteWindowVars (TokenVar ts) (ErrorVar ts))]
      end
  end.
Proof.
  cbv zeta. unfold _execute_recaptcha_on_tab, suppress.
  repeat run_step. unfold time_now.
  destruct (time_time D (world st)) as [ts w0].
  cbn [result final events fst snd]. repeat run_step. run_call.
  destruct (tab_evaluate D tab
              (ExecuteEnterprise (website_key (svc st)) (TokenVar ts)
                 (ErrorVar ts)) w0) as [[v|e] w1];
    cbn [result final events fst snd]; repeat run_step.
  - destruct (token_poll 30 (Some tab) (TokenVar ts) (ErrorVar ts) PNone
                {| svc := svc st; world := w1 |}) as [[token|e] s2 ev2];
      cbn [result final events]; repeat run_step.
    + run_call.
      destruct (tab_evaluate D tab
                  (DeleteWindowVars (TokenVar ts) (ErrorVar ts)) (world s2))
        as [[v'|e'] w3]; cbn [result final events]; repeat run_step;
        run_done; rewrite ?app_nil_r; repeat split.
    + run_done. split; reflexivity.
  - run_done. split; reflexivity.
Qed.

Lemma executor_budget_parts (tab : Tab) (st : state D) :
  let o := _execute_recaptcha_on_tab (Some tab) st in
  count (is_evaluate is_execute) (events o) <= 1 /\
  count (is_evaluate is_token_read) (events o) <= 30 /\
  count (is_evaluate is_error_read) (events o) <= 30 /\
  (0 <= tab_sleep_total (events o) <= 15000)%Z /\
  count is_open (events o) = 0 /\
  count is_close (events o) = 0.
Proof.
  intros o. subst o.
  destruct (keeps_execute_recaptcha_on_tab D (Some tab) st) as [_ Hclass].
  pose proof (count_class _ _ _ (tab_events_not_open (Some tab)) Hclass) as Ho.
  pose proof (count_class _ _ _ (tab_events_not_close (Some tab)) Hclass) as Hc.
  pose proof (execute_cases tab st) as H. cbv zeta in H.
  match type of H with
  | context [result ?p] =>
      match p with
      | token_poll _ _ _ _ _ ?s =>
          pose proof (token_poll_budget 30 tab (website_key (svc st))
                        (fst (time_time D (world st))) PNone s) as Hp
      end
  end.
  cbv zeta in Hp. destruct Hp as (_ & P1 & P2 & P3 & P4 & P5).
  destruct (fst (tab_evaluate D tab _ _)).
  - destruct (result (token_poll _ _ _ _ _ _)).
    + destruct H as (_ & _ & He). rewrite He in *.
      repeat split; try assumption; try (count_split; cbn; lia);
        cbn [tab_sleep_total]; rewrite tab_sleep_total_app;
        cbn [tab_sleep_total]; lia.
    + destruct H as (_ & He). rewrite He in *.
      repeat split; try assumption; try (count_split; cbn; lia);
        cbn [tab_sleep_total]; lia.
  - destruct H as (_ & He). rewrite He in *.
    repeat split; try assumption; try (count_split; cbn; lia);
      cbn [tab_sleep_total]; lia.
Qed.

(** X8: whatever the page does, one execution injects the execution script
    at most once, reads the token global at most [30] times and the error
    global at most [30] times, spends at most fifteen seconds in
    [tab.sleep], and neither opens nor closes a tab. *)
Theorem executor_budget (tab : Tab) (st : state D) :
  let o := _execute_recaptcha_on_tab (Some tab) st in
  count (is_evaluate is_execute) (events o) <= 1 /\
  count (is_evaluate is_token_read) (events o) <= 30 /\
  count (is_evaluate is_error_read) (events o) <= 30 /\
  (0 <= tab_sleep_total (events o) <= 15000)%Z /\
  count is_open (events o) = 0 /\
  count is_close (events o) = 0.
Proof. apply executor_budget_parts. Qed.

(** X9: when the injection of the execution script and the polling that
    follows it have both ended without an exception, the executor deletes
    its two globals exactly once, as its last act, and returns the very
    value the polling ended with, whatever the deletion does (an exception
    of the deletion is suppressed); when the injection raises, or the
    polling raises, the executor raises that same exception and the globals
    are not deleted. *)
Theorem executor_cleanup (tab : Tab) (st : state D) :
  let o := _execute_recaptcha_on_tab (Some tab) st in
  let ts := fst (time_time D (world st)) in
  let run := ExecuteEnterprise (website_key (svc st)) (TokenVar ts) (ErrorVar ts) in
  let injected := tab_evaluate D tab run (snd (time_time D (world st))) in
  let p := token_poll 30 (Some tab) (TokenVar ts) (ErrorVar ts) PNone
             {| svc := svc st; world := snd injected |} in
  match fst injected with
  | Raise e =>
      result o = Raise e /\
      count (is_evaluate is_delete) (events o) = 0
  | Ret _ =>
      match result p with
      | Raise e =>
          result o = Raise e /\
          count (is_evaluate is_delete) (events o) = 0
      | Ret token =>
          result o = Ret token /\
          count (is_evaluate is_delete) (events o) = 1 /\
          last (events o) EvTime
          = EvEvaluate tab (DeleteWindowVars (TokenVar ts) (ErrorVar ts))
      end
  end.
Proof.
  cbv zeta.
  pose proof (execute_cases tab st) as H. cbv zeta in H.
  match type of H with
  | context [result ?p] =>
      match p with
      | token_poll _ _ _ _ _ ?s =>
          pose proof (token_poll_budget 30 tab (website_key (svc st))
                        (fst (time_time D (world st))) PNone s) as Hp
      end
  end.
  cbv zeta in Hp. destruct Hp as (_ & _ & _ & P3 & _).
  destruct (fst (tab_evaluate D tab _ _)).
  - destruct (result (token_poll _ _ _ _ _ _)).
    + destruct H as (Hr & _ & He). rewrite He. split; [exact Hr|]. split.
      * count_split. cbn. lia.
      * rewrite !app_comm_cons. apply last_last.
    + destruct H as (Hr & He). rewrite He. split; [exact Hr|].
      count_split. cbn. lia.
  - destruct H as (Hr & He). rewrite He. split; [exact Hr|]. reflexivity.
Qed.

(** X10: one execution touches its own tab and its own two globals only:
    with [ts] the clock at its start, every script it evaluates is the
    execution script, a read or the deletion of the globals named after
    [ts], on [tab], and every sleep is half a second on [tab]; and it
    leaves the instance as it is. *)
Theorem executor_uses_its_own_globals (tab : Tab) (st : state D) :
  let o := _execute_recaptcha_on_tab (Some tab) st in
  forallb (executor_events tab (website_key (svc st))
             (fst (time_time D (world st)))) (events o) = true /\
  resident_state (svc (final o)) = resident_state (svc st).
Proof.
  intros o. subst o.
  destruct (keeps_execute_recaptcha_on_tab D (Some tab) st) as [Hres _].
  split; [|symmetry; exact Hres].
  pose proof (execute_cases tab st) as H. cbv zeta in H.
  match type of H with
  | context [result ?p] =>
      match p with
      | token_poll _ _ _ _ _ ?s =>
          pose proof (token_poll_budget 30 tab (website_key (svc st))
                        (fst (time_time D (world st))) PNone s) as Hp
      end
  end.
  cbv zeta in Hp. destruct Hp as (P0 & _).
  destruct (fst (tab_evaluate D tab _ _)).
  - destruct (result (token_poll _ _ _ _ _ _)).
    + destruct H as (_ & _ & He). rewrite He.
      cbn [forallb]. rewrite forallb_app, P0. class_side.
    + destruct H as (_ & He). rewrite He. class_side.
  - destruct H as (_ & He). rewrite He. class_side.
Qed.

(** X11: on a tab whose globals never hold a true value, and which takes
    the script and the sleeps without raising, the executor gives up after
    [30] rounds: it has read each global [30] times, slept fifteen seconds
    in all, and returns a false value. *)
Theorem executor_times_out (tab : Tab) (st : state D) :
  silent_page D tab -> executes D tab ->
  let o := _execute_recaptcha_on_tab (Some tab) st in
  (exists v, result o = Ret v /\ truthy v = false) /\
  count (is_evaluate is_token_read) (events o) = 30 /\
  count (is_evaluate is_error_read) (events o) = 30 /\
  tab_sleep_total (events o) = 15000%Z.
Proof.
  intros Hsilent Hexec o. subst o.
  pose proof (execute_cases tab st) as H. cbv zeta in H.
  match type of H with
  | context [result ?p] =>
      match p with
      | token_poll _ _ _ _ _ ?s =>
          pose proof (token_poll_exhausts 30 tab
                        (fst (time_time D (world st))) PNone s
                        Hsilent Hexec eq_refl) as Hp
      end
  end.
  cbv zeta in Hp. destruct Hp as ((v & Hv & Hf) & P1 & P2 & P3).
  destruct Hexec as [Hinj _].
  specialize (Hinj (website_key (svc st))
                (TokenVar (fst (time_time D (world st))))
                (ErrorVar (fst (time_time D (world st))))
                (snd (time_time D (world st)))).
  destruct (fst (tab_evaluate D tab _ _)); [|discriminate].
  rewrite Hv in H. destruct H as (Hr & _ & He). rewrite He.
  split; [exists v; split; assumption|].
  repeat split; try (count_split; cbn; lia).
  cbn [tab_sleep_total]. rewrite tab_sleep_total_app, P3. reflexivity.
Qed.

End Executor.

(** * Waiting budgets *)

Lemma tab_sleep_total_class (c : event -> bool) (l : list event) :
  (forall t ms, c (EvTabSleep t ms) = false) ->
  forallb c l = true -> tab_sleep_total l = 0%Z.
Proof.
  intros Hc. induction l as [|e l IH]; [reflexivity|].
  cbn [forallb]. intros H. apply andb_prop in H. destruct H as [He Hl].
  destruct e; cbn [tab_sleep_total]; auto.
  rewrite Hc in He. discriminate He.
Qed.

Lemma sleep_total_class (c : event -> bool) (l : list event) :
  (forall ms, c (EvSleep ms) = false) ->
  forallb c l = true -> sleep_total l = 0%Z.
Proof.
  intros Hc. induction l as [|e l IH]; [reflexivity|].
  cbn [forallb]. intros H. apply andb_prop in H. destruct H as [He Hl].
  destruct e; cbn [sleep_total]; auto.
  rewrite Hc in He. discriminate He.
Qed.

(** The sleeping time of a list of events that is given piece by piece. *)
Ltac sleep_norm :=
  repeat first [ rewrite tab_sleep_total_app
               | rewrite sleep_total_app
               | progress cbn [tab_sleep_total sleep_total] ].

Section Budgets.

Variable D : driver.

Lemma recaptcha_poll_sleep (n i : nat) (tab : Tab) (st : state D) :
  (0 <= tab_sleep_total (events (recaptcha_poll n i (Some tab) st))
   <= 500 * Z.of_nat n)%Z.
Proof.
  revert i st. induction n as [|n IH]; intros i st.
  - unfold recaptcha_poll. repeat run_step. run_done. cbn. lia.
  - unfold recaptcha_poll; fold (recaptcha_poll (D := D)).
    repeat run_step. run_call.
    destruct (tab_evaluate D tab EnterpriseExecuteIsFunction (world st))
      as [[v|e] w]; cbn [result final events]; repeat run_step.
    + destruct (truthy v); repeat run_step.
      * run_done. cbn [tab_sleep_total]. lia.
      * run_call.
        destruct (tab_sleep D tab 500 w) as [[[]|e] w'];
          cbn [result final events]; repeat run_step; run_done;
          cbn [tab_sleep_total].
        -- specialize (IH (S i) {| svc := svc st; world := w' |}). lia.
        -- lia.
    + run_done. cbn [tab_sleep_total]. lia.
Qed.

Lemma probe_sleep_bound (tab : Tab) (st : state D) :
  (0 <= tab_sleep_total (events (_wait_for_recaptcha (Some tab) st))
   <= 13000)%Z.
Proof.
  unfold _wait_for_recaptcha. repeat run_step. run_call.
  destruct (tab_evaluate D tab EnterpriseExecuteIsFunction (world st))
    as [[v|e] w]; cbn [result final events]; repeat run_step.
  - destruct (truthy v); repeat run_step.
    + run_done. cbn [tab_sleep_total]. lia.
    + run_call.
      destruct (tab_evaluate D tab (InjectRecaptchaScript _) w)
        as [[v'|e'] w']; cbn [result final events]; repeat run_step.
      * run_call.
        destruct (tab_sleep D tab 3000 w') as [[[]|e''] w''];
          cbn [result final events]; repeat run_step; run_done;
          cbn [tab_sleep_total].
        -- pose proof (recaptcha_poll_sleep 20 0 tab
                         {| svc := svc st; world := w'' |}). lia.
        -- lia.
      * run_done. cbn [tab_sleep_total]. lia.
  - run_done. cbn [tab_sleep_total]. lia.
Qed.

(** X12: whatever the page does, the readiness probe spends at most
    thirteen seconds in [tab.sleep]: three after the injection and half a
    second after each of at most [20] failed checks. *)
Theorem probe_sleeps_at_most (tab : Tab) (st : state D) :
  (0 <= tab_sleep_total (events (_wait_for_recaptcha (Some tab) st))
   <= 13000)%Z.
Proof. apply probe_sleep_bound. Qed.

(** The DOM wait of the legacy path. *)
Lemma legacy_dom_loop_budget (n : nat) (tab : Tab) (st : state D) :
  count (is_evaluate is_ready_state) (events (legacy_dom_loop n tab st)) <= n /\
  (0 <= tab_sleep_total (events (legacy_dom_loop n tab st))
   <= 500 * Z.of_nat n)%Z /\
  (ready_state_answers D tab -> result (legacy_dom_loop n tab st) = Ret tt).
Proof.
  revert st. induction n as [|n IH]; intros st.
  - unfold legacy_dom_loop. run_done. repeat split; cbv; lia || congruence.
  - unfold legacy_dom_loop; fold (legacy_dom_loop (D := D)).
    repeat run_step. run_call.
    destruct (tab_evaluate D tab DocumentReadyState (world st))
      as [[v|e] w] eqn:Hrs; cbn [result final events]; repeat run_step.
    + destruct (eq_str v "complete"); repeat run_step.
      * run_done. repeat split; try (count_split; cbn; lia);
          cbn [tab_sleep_total]; lia.
      * run_call.
        destruct (tab_sleep D tab 500 w) as [[[]|e] w'] eqn:Hsl;
          cbn [result final events]; repeat run_step; run_done.
        -- destruct (IH {| svc := svc st; world := w' |}) as (I1 & I2 & I3).
           repeat split; try (count_split; cbn; lia);
             try (cbn [tab_sleep_total]; lia).
           exact I3.
        -- repeat split; try (count_split; cbn; lia);
             try (cbn [tab_sleep_total]; lia).
           intros [_ Hs]. specialize (Hs 500%Z w). rewrite Hsl in Hs.
           discriminate Hs.
    + run_done. repeat split; try (count_split; cbn; lia);
        try (cbn [tab_sleep_total]; lia).
      intros [Ha _]. specialize (Ha (world st)). rewrite Hrs in Ha.
      discriminate Ha.
Qed.

(** X13: the DOM wait of the legacy path asks for the ready state at most
    [10] times and sleeps at most five seconds; and as long as the tab
    answers, it returns normally whether or not the page ever becomes
    complete, so that the legacy path goes on to the readiness probe in
    either case. *)
Theorem legacy_dom_wait_is_tolerant (tab : Tab) (st : state D) :
  let o := legacy_dom_loop 10 tab st in
  count (is_evaluate is_ready_state) (events o) <= 10 /\
  (0 <= tab_sleep_total (events o) <= 5000)%Z /\
  (ready_state_answers D tab -> result o = Ret tt).
Proof.
  intros o. subst o.
  destruct (legacy_dom_loop_budget 10 tab st) as (H1 & H2 & H3).
  repeat split; try assumption; lia.
Qed.

Lemma legacy_on_tab_sleep (tab : Tab) (st : state D) :
  (0 <= tab_sleep_total (events (legacy_on_tab tab st)) <= 36000)%Z.
Proof.
  unfold legacy_on_tab. repeat run_step. run_call.
  destruct (tab_sleep D tab 3000 (world st)) as [[[]|e] w];
    cbn [result final events]; repeat run_step;
    [|run_done; sleep_norm; lia].
  pose proof (legacy_dom_loop_budget 10 tab {| svc := svc st; world := w |})
    as (_ & Hdom & _).
  change (500 * Z.of_nat 10)%Z with 5000%Z in Hdom.
  destruct (legacy_dom_loop 10 tab {| svc := svc st; world := w |})
    as [[[]|e] s1 ev1]; cbn [result final events] in *; repeat run_step;
    [|run_done; sleep_norm; lia].
  pose proof (probe_sleep_bound tab s1) as Hprobe.
  destruct (_wait_for_recaptcha (Some tab) s1) as [[ready|e] s2 ev2];
    cbn [result final events] in *; repeat run_step;
    [|run_done; sleep_norm; lia].
  destruct ready; cbn [negb]; repeat run_step.
  - pose proof (executor_budget_parts D tab s2) as (_ & _ & _ & Hex & _).
    destruct (_execute_recaptcha_on_tab (Some tab) s2) as [[token|e] s3 ev3];
      cbn [result final events] in *; repeat run_step.
    + unfold time_now. destruct (time_time D (world s3)) as [t w3].
      cbn [result final events]. destruct (truthy token); repeat run_step;
        run_done; sleep_norm; lia.
    + run_done. sleep_norm. lia.
  - run_done. sleep_norm. lia.
Qed.

(** The events of the legacy path are its entry, those of the prologue, and
    those of the [try] statement if the prologue returned. *)
Lemma legacy_events_split (project_id : string) (st : state D) :
  events (_get_token_legacy project_id st)
  = EvCall M_get_token_legacy
    :: events (legacy_prologue st)
    ++ match result (legacy_prologue st) with
       | Ret _ => events (legacy_try project_id (final (legacy_prologue st)))
       | Raise _ => []
       end.
Proof.
  unfold _get_token_legacy. repeat run_step.
  destruct (legacy_prologue st) as [[[]|e] s0 ev0];
    cbn [result final events]; run_done.
  - reflexivity.
  - rewrite app_nil_r. reflexivity.
Qed.

Lemma legacy_try_sleep (project_id : string) (st : state D) :
  (0 <= tab_sleep_total (events (legacy_try project_id st)) <= 36000)%Z /\
  sleep_total (events (legacy_try project_id st)) = 0%Z.
Proof.
  split.
  - pose proof (legacy_try_cases D project_id st) as H. cbv zeta in H.
    pose proof (open_page_events D (project_url project_id) false st) as Hop.
    destruct (result (open_page (project_url project_id) false st))
      as [tab|e].
    + destruct H as (_ & He & _). rewrite He.
      pose proof (legacy_on_tab_sleep tab
                    (final (open_page (project_url project_id) false st))).
      destruct (result (legacy_on_tab tab _)); sleep_norm; lia.
    + destruct H as (_ & He & _). rewrite He.
      destruct Hop as [-> | ->]; sleep_norm; lia.
  - destruct (keeps_legacy_try D project_id st) as [_ H].
    apply (sleep_total_class page_events); [reflexivity | exact H].
Qed.

Lemma legacy_sleep_bound (project_id : string) (st : state D) :
  (0 <= tab_sleep_total (events (_get_token_legacy project_id st)) <= 36000)%Z /\
  sleep_total (events (_get_token_legacy project_id st)) = 0%Z.
Proof.
  rewrite legacy_events_split.
  destruct (keeps_legacy_prologue D st) as [_ Hpre].
  pose proof (tab_sleep_total_class setup_events _
                (fun _ _ => eq_refl) Hpre) as Ht.
  pose proof (sleep_total_class setup_events _ (fun _ => eq_refl) Hpre) as Hs.
  destruct (result (legacy_prologue st)).
  - destruct (legacy_try_sleep project_id (final (legacy_prologue st)))
      as [H1 H2]. sleep_norm. split; lia.
  - sleep_norm. split; lia.
Qed.

(** X14: whatever the browser and the page do, one legacy acquisition
    spends at most thirty-six seconds in [tab.sleep] (three for the page,
    five for the DOM, thirteen for the probe, fifteen for the executor) and
    none in [asyncio.sleep]. *)
Theorem legacy_sleeps_at_most (project_id : string) (st : state D) :
  (0 <= tab_sleep_total (events (_get_token_legacy project_id st)) <= 36000)%Z /\
  sleep_total (events (_get_token_legacy project_id st)) = 0%Z.
Proof. apply legacy_sleep_bound. Qed.

Lemma resident_attempt_sleep (project_id : string) (st : state D) :
  (0 <= tab_sleep_total (events (resident_attempt project_id st)) <= 15000)%Z /\
  sleep_total (events (resident_attempt project_id st)) = 0%Z.
Proof.
  unfold resident_attempt. repeat run_step.
  destruct (_running (svc st) && id_eq (resident_project_id (svc st)) project_id);
    [|run_done; cbn; split; lia].
  destruct (resident_tab (svc st)) as [tab|];
    [|rewrite andb_false_r; repeat run_step; run_done; cbn; split; lia].
  destruct (_recaptcha_ready (svc st)); cbn [andb is_some];
    [|repeat run_step; run_done; cbn; split; lia].
  repeat run_step. unfold time_now. cbv beta. cbn [svc world].
  destruct (time_time D (world st)) as [t w].
  cbn [result final events]. repeat run_step.
  pose proof (executor_budget_parts D tab {| svc := svc st; world := w |})
    as (_ & _ & _ & Hex & _).
  destruct (keeps_execute_recaptcha_on_tab D (Some tab)
              {| svc := svc st; world := w |}) as [_ Hclass].
  pose proof (sleep_total_class (tab_events (Some tab)) _
                (fun _ => eq_refl) Hclass) as Hs.
  destruct (_execute_recaptcha_on_tab (Some tab) _) as [[token|e] s1 ev1];
    cbn [result final events] in *; repeat run_step.
  - cbv beta. cbn [svc world]. destruct (time_time D (world s1)) as [t' w'].
    cbn [result final events]. destruct (truthy token); repeat run_step;
      run_done; sleep_norm; split; lia.
  - run_done. sleep_norm. split; lia.
Qed.

(** X15: whatever the browser and the page do, one call of [get_token]
    spends at most fifty-one seconds in [tab.sleep], fifteen on the resident
    tab and thirty-six in the legacy path, and none in [asyncio.sleep]. *)
Theorem get_token_sleeps_at_most (project_id : string) (st : state D) :
  (0 <= tab_sleep_total (events (get_token project_id st)) <= 51000)%Z /\
  sleep_total (events (get_token project_id st)) = 0%Z.
Proof.
  unfold get_token. repeat run_step.
  destruct (resident_attempt_sleep project_id st) as [Hr1 Hr2].
  destruct (resident_attempt project_id st) as [[[token|]|e] s1 ev1];
    cbn [result final events] in *; repeat run_step; run_done;
    cbn [tab_sleep_total sleep_total].
  - sleep_norm. split; lia.
  - destruct (legacy_sleep_bound project_id s1) as [Hl1 Hl2].
    sleep_norm. split; lia.
  - sleep_norm. split; lia.
Qed.

End Budgets.

(** * Footprints, for any relation *)

Lemma same_service_refl (s : service) : same_service s s.
Proof. reflexivity. Qed.

Lemma same_service_trans (s1 s2 s3 : service) :
  same_service s1 s2 -> same_service s2 s3 -> same_service s1 s3.
Proof. unfold same_service. congruence. Qed.

Lemma any_change_refl (s : service) : any_change s s.
Proof. exact I. Qed.

Lemma any_change_trans (s1 s2 s3 : service) :
  any_change s1 s2 -> any_change s2 s3 -> any_change s1 s3.
Proof. intros _ _. exact I. Qed.

Lemma tab_kept_refl (s : service) : tab_kept s s.
Proof. split; [apply same_binding_refl | auto]. Qed.

Lemma tab_kept_trans (s1 s2 s3 : service) :
  tab_kept s1 s2 -> tab_kept s2 s3 -> tab_kept s1 s3.
Proof.
  intros [B1 T1] [B2 T2].
  split; [eapply same_binding_trans; eassumption | auto].
Qed.

Lemma keeps_relax (D : driver) (S1 S2 : service -> service -> Prop)
    (c1 c2 : event -> bool) {A} (m : M D A) :
  (forall a b, S1 a b -> S2 a b) ->
  (forall e, c1 e = true -> c2 e = true) ->
  keeps D S1 c1 m -> keeps D S2 c2 m.
Proof.
  intros HS Hc Hm st. destruct (Hm st) as [Hs He].
  split; [apply HS; exact Hs | eapply forallb_weaken; eassumption].
Qed.

(** Side conditions of the rules, for a relation given by the proofs
    [refl] and [trans] that it is a preorder. *)
Ltac frame_side refl trans :=
  first
    [ exact refl
    | exact trans
    | reflexivity
    | intros; reflexivity
    | simpl; apply Nat.eqb_refl
    | intros ? [= <-]; simpl; apply Nat.eqb_refl
    | intros ? ->; simpl; apply Nat.eqb_refl
    | intros; exact I
    | intros; split; [split; reflexivity | auto]
    | intros; split; reflexivity ].

Ltac frame_step refl trans :=
  lazymatch goal with
  | |- keeps _ _ _ (bind _ _) =>
      apply keeps_bind; [frame_side refl trans | | intros ?]
  | |- keeps _ _ _ (try_except _ _) =>
      apply keeps_try_except; [frame_side refl trans | | intros ?]
  | |- keeps _ _ _ (try_finally _ _) =>
      apply keeps_try_finally; [frame_side refl trans | | ]
  | |- keeps _ _ _ (suppress _) =>
      apply keeps_suppress;
      [frame_side refl trans | frame_side refl trans | ]
  | |- keeps _ _ _ (ret _) => apply keeps_ret; frame_side refl trans
  | |- keeps _ _ _ (raise _) => apply keeps_raise; frame_side refl trans
  | |- keeps _ _ _ self => apply keeps_self; frame_side refl trans
  | |- keeps _ _ _ (call _) => apply keeps_call; frame_side refl trans
  | |- keeps _ _ _ (log _ _) => apply keeps_log; frame_side refl trans
  | |- keeps _ _ _ (emit _) => apply keeps_emit; frame_side refl trans
  | |- keeps _ _ _ (asyncio_sleep _) =>
      apply keeps_asyncio_sleep; frame_side refl trans
  | |- keeps _ _ _ (assign _) => apply keeps_assign; frame_side refl trans
  | |- keeps _ _ _ (env _ _) => apply keeps_env; frame_side refl trans
  | |- keeps _ _ _ time_now => apply keeps_time_now; frame_side refl trans
  | |- keeps _ _ _ (open_page _ _) =>
      apply keeps_open_page; frame_side refl trans
  | |- keeps _ _ _ (evaluate _ _) =>
      apply keeps_evaluate; frame_side refl trans
  | |- keeps _ _ _ (sleep_tab _ _) =>
      apply keeps_sleep_tab; frame_side refl trans
  | |- keeps _ _ _ (close_tab _) =>
      apply keeps_close_tab; frame_side refl trans
  | |- keeps _ _ _ (if ?b then _ else _) => destruct b
  | |- keeps _ _ _ (match ?x with _ => _ end) => destruct x
  end.

Ltac frame_auto refl trans := repeat frame_step refl trans.

Section Frames.

Variable D : driver.

(** The page-load wait keeps the binding and the presence of the tab, and
    does nothing but sleep, ask for the ready state, log, and open tabs. *)
Lemma page_load_loop_frame (n retry : nat) (website_url : string) :
  keeps D tab_kept load_events (page_load_loop n retry website_url).
Proof.
  revert retry. induction n as [|n IH]; intros retry.
  - unfold page_load_loop. frame_auto tab_kept_refl tab_kept_trans.
  - unfold page_load_loop; fold (page_load_loop (D := D)).
    frame_auto tab_kept_refl tab_kept_trans. apply IH.
Qed.

(** The readiness probe, the executor and the [try] statement of the legacy
    path assign nothing. *)
Lemma recaptcha_poll_same (n i : nat) (tab : option Tab) :
  keeps D same_service all_events (recaptcha_poll n i tab).
Proof.
  revert i. induction n as [|n IH]; intros i.
  - unfold recaptcha_poll. frame_auto same_service_refl same_service_trans.
  - unfold recaptcha_poll; fold (recaptcha_poll (D := D)).
    frame_auto same_service_refl same_service_trans. apply IH.
Qed.

Lemma wait_for_recaptcha_same (tab : option Tab) :
  keeps D same_service all_events (_wait_for_recaptcha tab).
Proof.
  unfold _wait_for_recaptcha.
  frame_auto same_service_refl same_service_trans.
  apply recaptcha_poll_same.
Qed.

Lemma token_poll_same (n : nat) (tab : option Tab) (tv ev : jsvar)
    (token : pyval) :
  keeps D same_service all_events (token_poll n tab tv ev token).
Proof.
  revert token. induction n as [|n IH]; intros token.
  - unfold token_poll. frame_auto same_service_refl same_service_trans.
  - unfold token_poll; fold (token_poll (D := D)).
    frame_auto same_service_refl same_service_trans. apply IH.
Qed.

Lemma execute_recaptcha_on_tab_same (tab : option Tab) :
  keeps D same_service all_events (_execute_recaptcha_on_tab tab).
Proof.
  unfold _execute_recaptcha_on_tab.
  frame_auto same_service_refl same_service_trans.
  apply token_poll_same.
Qed.

Lemma legacy_dom_loop_same (n : nat) (tab : Tab) :
  keeps D same_service all_events (legacy_dom_loop n tab).
Proof.
  induction n as [|n IH].
  - unfold legacy_dom_loop. frame_auto same_service_refl same_service_trans.
  - unfold legacy_dom_loop; fold (legacy_dom_loop (D := D)).
    frame_auto same_service_refl same_service_trans. apply IH.
Qed.

Lemma legacy_try_same (project_id : string) :
  keeps D same_service all_events (legacy_try project_id).
Proof.
  unfold legacy_try, legacy_except, legacy_on_tab.
  frame_auto same_service_refl same_service_trans;
    first [ apply legacy_dom_loop_same
          | apply wait_for_recaptcha_same
          | apply execute_recaptcha_on_tab_same ].
Qed.

End Frames.

(** * The page-load wait and the start of the channel *)

Lemma result_prepend {D : driver} {A} (evs : list event) (o : outcome D A) :
  result (prepend evs o) = result o.
Proof. reflexivity. Qed.

Lemma final_prepend {D : driver} {A} (evs : list event) (o : outcome D A) :
  final (prepend evs o) = final o.
Proof. reflexivity. Qed.

Lemma events_prepend {D : driver} {A} (evs : list event) (o : outcome D A) :
  events (prepend evs o) = evs ++ events o.
Proof. reflexivity. Qed.

(** One step of a run, looking through what has been run already. *)
Ltac run_on :=
  first [ run_step
        | progress (rewrite ?result_prepend, ?final_prepend, ?events_prepend;
                    cbv beta iota;
                    cbn [result final events svc world
                         emit call log self assign ret raise asyncio_sleep]) ].

Section Channel.

Variable D : driver.

Lemma open_page_counts (url : string) (new_tab : bool) (st : state D) :
  count is_open (events (open_page url new_tab st)) <= 1 /\
  count (is_evaluate is_ready_state) (events (open_page url new_tab st)) = 0 /\
  sleep_total (events (open_page url new_tab st)) = 0%Z.
Proof.
  pose proof (open_page_events D url new_tab st) as H.
  destruct (result (open_page url new_tab st)).
  - rewrite H. repeat split. cbv. lia.
  - destruct H as [-> | ->]; repeat split; cbv; lia.
Qed.

(** The page-load wait: how often it asks, opens and sleeps at most. *)
Lemma page_load_loop_budget (n retry : nat) (website_url : string)
    (st : state D) :
  let o := page_load_loop n retry website_url st in
  count (is_evaluate is_ready_state) (events o) <= n /\
  count is_open (events o) <= n /\
  (0 <= sleep_total (events o) <= 3000 * Z.of_nat n)%Z.
Proof.
  revert retry st. induction n as [|n IH]; intros retry st; cbv zeta.
  - unfold page_load_loop. run_done. repeat split; cbv; lia || congruence.
  - unfold page_load_loop; fold (page_load_loop (D := D)).
    repeat run_on.
    destruct (resident_tab (svc st)) as [t|].
    + run_call.
      destruct (tab_evaluate D t DocumentReadyState (world st))
        as [[v|e] w]; cbn [result final events]; repeat run_on.
      * destruct (eq_str v "complete"); repeat run_on.
        -- run_done. repeat split; try (count_split; cbn; lia);
             sleep_norm; lia.
        -- specialize (IH (S retry) {| svc := svc st; world := w |}).
           cbv zeta in IH. destruct IH as (I1 & I2 & I3).
           run_done. repeat split; try (count_split; cbn; lia);
             sleep_norm; lia.
      * destruct e; cbv beta iota; repeat run_on.
        -- pose proof (open_page_counts website_url true
                         {| svc := svc st; world := w |}) as (O1 & O2 & O3).
           destruct (open_page website_url true
                       {| svc := svc st; world := w |})
             as [[t'|e2] s1 ev1]; cbn [result final events] in *;
             repeat run_on.
           ++ specialize (IH (S retry)
                {| svc := set_resident_tab (Some t') (svc s1);
                   world := world s1 |}).
              cbv zeta in IH. destruct IH as (I1 & I2 & I3).
              run_done. repeat split; try (count_split; cbn; lia);
                sleep_norm; lia.
           ++ specialize (IH (S retry) s1).
              cbv zeta in IH. destruct IH as (I1 & I2 & I3).
              run_done. repeat split; try (count_split; cbn; lia);
                sleep_norm; lia.
        -- specialize (IH (S retry) {| svc := svc st; world := w |}).
           cbv zeta in IH. destruct IH as (I1 & I2 & I3).
           run_done. repeat split; try (count_split; cbn; lia);
             sleep_norm; lia.
        -- specialize (IH (S retry) {| svc := svc st; world := w |}).
           cbv zeta in IH. destruct IH as (I1 & I2 & I3).
           run_done. repeat split; try (count_split; cbn; lia);
             sleep_norm; lia.
    + cbn [evaluate]. repeat run_on.
      specialize (IH (S retry) st).
      cbv zeta in IH. destruct IH as (I1 & I2 & I3).
      run_done. repeat split; try (count_split; cbn; lia);
        sleep_norm; lia.
Qed.

Lemma load_events_keeps_open (e : event) :
  load_events e = true -> keeps_open e = true.
Proof. destruct e; try reflexivity; discriminate. Qed.

Lemma init_events_keeps_open (e : event) :
  init_events e = true -> keeps_open e = true.
Proof. destruct e; try reflexivity; discriminate. Qed.

Lemma tab_events_keeps_open (tab : option Tab) (e : event) :
  tab_events tab e = true -> keeps_open e = true.
Proof. destruct e; try reflexivity; discriminate. Qed.

Lemma count_keeps_open (l : list event) :
  forallb keeps_open l = true ->
  count is_close l = 0 /\ count is_stop l = 0.
Proof.
  intros H. split; apply (count_class keeps_open); try exact H;
    intros e; unfold keeps_open; destruct (is_close e), (is_stop e);
    try discriminate; reflexivity.
Qed.

(** X16: the page-load wait of the resident channel never raises; it asks
    for the ready state at most [15] times, opens at most [15] tabs anew,
    spends at most forty-five seconds in [asyncio.sleep] and none in
    [tab.sleep], closes no tab, not even one it replaces, and leaves
    [_running] and the stored project as they are. *)
Theorem page_load_wait_budget (website_url : string) (st : state D) :
  let o := page_load_loop 15 0 website_url st in
  (exists loaded, result o = Ret loaded) /\
  count (is_evaluate is_ready_state) (events o) <= 15 /\
  count is_open (events o) <= 15 /\
  (0 <= sleep_total (events o) <= 45000)%Z /\
  tab_sleep_total (events o) = 0%Z /\
  count is_close (events o) = 0 /\
  same_binding (svc st) (svc (final o)).
Proof.
  intros o. subst o.
  destruct (page_load_loop_budget 15 0 website_url st) as (B1 & B2 & B3).
  destruct (page_load_loop_frame D 15 0 website_url st) as [[Hb _] Hc].
  split; [apply page_load_loop_returns|].
  repeat split; try assumption; try lia.
  - apply (tab_sleep_total_class load_events); [reflexivity | exact Hc].
  - apply count_keeps_open.
    eapply forallb_weaken; [apply load_events_keeps_open | exact Hc].
  - apply Hb.
  - apply Hb.
Qed.

(** The navigation part of the start. *)
Lemma start_navigation_facts (project_id : string) (st : state D) :
  let o := start_navigation project_id st in
  count is_open (events o) <= 1 /\
  count is_start (events o) <= 1 /\
  sleep_total (events o) = 0%Z /\
  tab_sleep_total (events o) = 0%Z /\
  (result o = Ret tt -> is_some (resident_tab (svc (final o))) = true).
Proof.
  cbv zeta.
  pose proof (initialize_outcome_parts D st) as H. cbv zeta in H.
  destruct H as (_ & Hst & _ & Hop & _).
  destruct (keeps_initialize D st) as [_ Hc].
  pose proof (sleep_total_class init_events _ (fun _ => eq_refl) Hc) as Hs.
  pose proof (tab_sleep_total_class init_events _ (fun _ _ => eq_refl) Hc)
    as Ht.
  unfold start_navigation. repeat run_on.
  destruct (initialize st) as [[[]|e] s0 ev0]; cbn [result final events] in *;
    repeat run_on.
  - pose proof (open_page_events D (project_url project_id) true
                  {| svc := set_resident_project_id (Some project_id) (svc s0);
                     world := world s0 |}) as Hev.
    destruct (open_page (project_url project_id) true _)
      as [[t|e] s1 ev1]; cbn [result final events] in *; repeat run_on;
      run_done.
    + subst ev1. repeat split; try (count_split; cbn; lia);
        sleep_norm; lia.
    + destruct Hev as [-> | ->];
        (repeat split; try (count_split; cbn; lia); try discriminate;
         sleep_norm; lia).
  - run_done. repeat split; try (count_split; cbn; lia); try discriminate;
      sleep_norm; lia.
Qed.

(** The probe on a reference that may be [None]. *)
Lemma probe_sleep_bound_any (tab : option Tab) (st : state D) :
  (0 <= tab_sleep_total (events (_wait_for_recaptcha tab st)) <= 13000)%Z.
Proof.
  destruct tab as [t|]; [apply probe_sleep_bound|].
  unfold _wait_for_recaptcha. repeat run_on. cbn [evaluate]. repeat run_on.
  run_done. sleep_norm. lia.
Qed.

Lemma probe_counts_any (tab : option Tab) (st : state D) :
  count is_open (events (_wait_for_recaptcha tab st)) = 0 /\
  count is_start (events (_wait_for_recaptcha tab st)) = 0 /\
  sleep_total (events (_wait_for_recaptcha tab st)) = 0%Z.
Proof.
  destruct (keeps_wait_for_recaptcha D tab st) as [_ Hc].
  split; [|split].
  - apply (count_class (tab_events tab)); [|exact Hc].
    apply tab_events_not_open.
  - apply (count_class (tab_events tab)); [|exact Hc].
    intros e. destruct e; try reflexivity; discriminate.
  - apply (sleep_total_class (tab_events tab)); [reflexivity | exact Hc].
Qed.

Lemma page_load_counts (n retry : nat) (website_url : string) (st : state D) :
  count is_start (events (page_load_loop n retry website_url st)) = 0 /\
  tab_sleep_total (events (page_load_loop n retry website_url st)) = 0%Z.
Proof.
  destruct (page_load_loop_frame D n retry website_url st) as [_ Hc].
  split.
  - apply (count_class load_events); [|exact Hc].
    intros e. destruct e; try reflexivity; discriminate.
  - apply (tab_sleep_total_class load_events); [reflexivity | exact Hc].
Qed.

Lemma start_body_keeps_open (project_id : string) :
  keeps D any_change keeps_open (start_resident_body project_id).
Proof.
  unfold start_resident_body, start_navigation.
  frame_auto any_change_refl any_change_trans.
  - eapply keeps_relax; [| apply init_events_keeps_open | apply keeps_initialize].
    intros; exact I.
  - eapply keeps_relax;
      [| apply load_events_keeps_open | apply page_load_loop_frame].
    intros; exact I.
  - eapply keeps_relax;
      [| apply tab_events_keeps_open | apply keeps_wait_for_recaptcha].
    intros; exact I.
Qed.

Lemma start_body_budget (project_id : string) (st : state D) :
  let o := start_resident_body project_id st in
  count is_open (events o) <= 16 /\
  count is_start (events o) <= 1 /\
  (0 <= sleep_total (events o) <= 45000)%Z /\
  (0 <= tab_sleep_total (events o) <= 13000)%Z.
Proof.
  cbv zeta.
  pose proof (start_navigation_facts project_id st) as H. cbv zeta in H.
  destruct H as (N1 & N2 & N3 & N4 & _).
  unfold start_resident_body. repeat run_on.
  destruct (start_navigation project_id st) as [[[]|e] s1 ev1];
    cbn [result final events] in *; repeat run_on;
    [|run_done; repeat split; try lia; sleep_norm; lia].
  pose proof (page_load_loop_budget 15 0 (project_url project_id) s1) as H.
  cbv zeta in H. destruct H as (_ & L2 & L3).
  destruct (page_load_counts 15 0 (project_url project_id) s1) as (L4 & L5).
  destruct (page_load_loop 15 0 (project_url project_id) s1)
    as [[[|]|e] s2 ev2]; cbn [result final events negb] in *; repeat run_on.
  - pose proof (probe_sleep_bound_any (resident_tab (svc s2)) s2) as P1.
    destruct (probe_counts_any (resident_tab (svc s2)) s2) as (P2 & P3 & P4).
    destruct (_wait_for_recaptcha (resident_tab (svc s2)) s2)
      as [[[|]|e] s3 ev3]; cbn [result final events negb] in *;
      repeat run_on; run_done;
      (repeat split; try (count_split; cbn; lia); sleep_norm; lia).
  - run_done. repeat split; try (count_split; cbn; lia); sleep_norm; lia.
  - run_done. repeat split; try (count_split; cbn; lia); sleep_norm; lia.
Qed.

(** X17: whatever happens, one call of [start_resident_mode] closes no tab
    and does not stop the browser, so that a start that fails leaves the
    tab it opened open; it launches at most one browser, opens at most
    [16] tabs, and spends at most forty-five seconds in [asyncio.sleep]
    and thirteen in [tab.sleep]. *)
Theorem start_never_cleans_up (project_id : string) (st : state D) :
  let o := start_resident_mode project_id st in
  count is_close (events o) = 0 /\
  count is_stop (events o) = 0 /\
  count is_start (events o) <= 1 /\
  count is_open (events o) <= 16 /\
  (0 <= sleep_total (events o) <= 45000)%Z /\
  (0 <= tab_sleep_total (events o) <= 13000)%Z.
Proof.
  intros o. subst o.
  destruct (_running (svc st)) eqn:Hrun.
  - rewrite (start_running_noop D project_id st Hrun).
    cbn [events]. repeat split; cbv; lia || congruence.
  - rewrite (start_not_running D project_id st Hrun). cbn [events].
    destruct (start_body_keeps_open project_id st) as [_ Hc].
    destruct (count_keeps_open _ Hc) as [Hclose Hstop].
    pose proof (start_body_budget project_id st) as H. cbv zeta in H.
    destruct H as (B1 & B2 & B3 & B4).
    repeat split; try (count_split; cbn; lia); sleep_norm; lia.
Qed.

End Channel.

(** * The invariant of the channel *)

Section Invariant.

Variable D : driver.

Lemma same_resident_fields (a b : service) :
  same_resident a b ->
  _running a = _running b /\
  resident_project_id a = resident_project_id b /\
  resident_tab a = resident_tab b /\
  _recaptcha_ready a = _recaptcha_ready b.
Proof.
  unfold same_resident, resident_state. intros H.
  injection H as H1 H2 H3 H4. auto.
Qed.

Lemma channel_ok_same_resident (a b : service) :
  same_resident a b -> channel_ok a -> channel_ok b.
Proof.
  intros H Ha Hb. apply same_resident_fields in H.
  destruct H as (H1 & H2 & H3 & H4). unfold channel_ok in Ha.
  rewrite <- H1 in Hb. rewrite <- H2, <- H3, <- H4. auto.
Qed.

Lemma channel_ok_stopped (s : service) : _running s = false -> channel_ok s.
Proof. intros H Hr. rewrite H in Hr. discriminate Hr. Qed.

(** A start that ends running. *)
Lemma start_body_success (project_id : string) (st : state D) :
  _running (svc st) = false ->
  _running (svc (final (start_resident_body project_id st))) = true ->
  result (start_resident_body project_id st) = Ret tt /\
  resident_project_id (svc (final (start_resident_body project_id st)))
  = Some project_id /\
  is_some (resident_tab (svc (final (start_resident_body project_id st))))
  = true /\
  _recaptcha_ready (svc (final (start_resident_body project_id st))) = true /\
  In (EvLog Info (ResidentStarted project_id))
     (events (start_resident_body project_id st)).
Proof.
  intros Hrun.
  destruct (start_navigation_binding D project_id st) as (Hnr & Hnid & Hni).
  rewrite Hrun in Hnr.
  pose proof (start_navigation_facts D project_id st) as H. cbv zeta in H.
  destruct H as (_ & _ & _ & _ & Hntab).
  unfold start_resident_body. repeat run_on.
  destruct (start_navigation project_id st) as [[[]|e] s1 ev1];
    cbn [result final events] in *; repeat run_on;
    [|run_done; intros H; congruence].
  specialize (Hntab eq_refl). specialize (Hnid (Hni eq_refl)).
  destruct (page_load_loop_frame D 15 0 (project_url project_id) s1)
    as [[[Hlr Hlid] Hltab] _].
  specialize (Hltab Hntab).
  destruct (page_load_loop 15 0 (project_url project_id) s1)
    as [[[|]|e] s2 ev2]; cbn [result final events negb] in *; repeat run_on;
    [|run_done; intros H; congruence | run_done; intros H; congruence].
  destruct (keeps_wait_for_recaptcha D (resident_tab (svc s2)) s2)
    as [Hprobe _].
  apply same_resident_fields in Hprobe. destruct Hprobe as (P1 & P2 & P3 & P4).
  destruct (_wait_for_recaptcha (resident_tab (svc s2)) s2)
    as [[[|]|e] s3 ev3]; cbn [result final events negb] in *; repeat run_on;
    run_done; cbn; intros H; try congruence.
  repeat split; try congruence.
  apply in_or_app. right. apply in_or_app. right. apply in_or_app. right.
  cbn. tauto.
Qed.

(** X18: when [start_resident_mode], called on a channel that is not
    running, ends with the channel running, it has returned normally, the
    channel is bound to the requested project, has a tab, and is marked
    ready, so that [is_resident_mode_active] and [get_resident_project_id]
    answer with [True] and that project; and the success has been
    logged. *)
Theorem start_success_binds (project_id : string) (st : state D) :
  _running (svc st) = false ->
  let o := start_resident_mode project_id st in
  is_resident_mode_active (svc (final o)) = true ->
  result o = Ret tt /\
  get_resident_project_id (svc (final o)) = Some project_id /\
  is_some (resident_tab (svc (final o))) = true /\
  _recaptcha_ready (svc (final o)) = true /\
  In (EvLog Info (ResidentStarted project_id)) (events o).
Proof.
  intros Hrun o. subst o.
  unfold is_resident_mode_active, get_resident_project_id.
  rewrite (start_not_running D project_id st Hrun).
  cbn [result final events]. intros Hend.
  destruct (start_body_success project_id st Hrun Hend)
    as (H1 & H2 & H3 & H4 & H5).
  repeat split; try assumption. right. exact H5.
Qed.

Lemma start_keeps_channel_ok (project_id : string) (st : state D) :
  channel_ok (svc st) ->
  channel_ok (svc (final (start_resident_mode project_id st))).
Proof.
  intros Hok. destruct (_running (svc st)) eqn:Hrun.
  - rewrite (start_running_noop D project_id st Hrun). exact Hok.
  - rewrite (start_not_running D project_id st Hrun). cbn [final].
    intros Hend.
    destruct (start_body_success project_id st Hrun Hend)
      as (_ & H2 & H3 & H4 & _).
    rewrite H2. repeat split; assumption.
Qed.

(** X19: a fresh instance satisfies the invariant of the channel, that a
    running channel has a tab, a project and the ready flag up, and every
    method keeps it: [initialize], [start_resident_mode],
    [stop_resident_mode], [get_token], [_get_token_legacy] and [close] end
    in a state that satisfies it when they start in one, however they
    end. *)
Theorem channel_invariant :
  (forall cwd db, channel_ok (__init__ cwd db)) /\
  (forall st : state D,
     channel_ok (svc st) ->
     channel_ok (svc (final (initialize st))) /\
     (forall project_id,
        channel_ok (svc (final (start_resident_mode project_id st)))) /\
     channel_ok (svc (final (stop_resident_mode st))) /\
     (forall project_id,
        channel_ok (svc (final (get_token project_id st)))) /\
     (forall project_id,
        channel_ok (svc (final (_get_token_legacy project_id st)))) /\
     channel_ok (svc (final (close st)))).
Proof.
  split.
  - intros cwd db. apply channel_ok_stopped. reflexivity.
  - intros st Hok. split; [|split; [|split; [|split; [|split]]]].
    + destruct (keeps_initialize D st) as [Hk _].
      eapply channel_ok_same_resident; eassumption.
    + intros project_id. apply start_keeps_channel_ok. exact Hok.
    + apply channel_ok_stopped. apply stop_summary.
    + intros project_id. destruct (keeps_get_token D project_id st) as [Hk _].
      eapply channel_ok_same_resident; eassumption.
    + intros project_id.
      destruct (keeps_get_token_legacy D project_id st) as [Hk _].
      eapply channel_ok_same_resident; eassumption.
    + apply channel_ok_stopped. apply close_parts.
Qed.

End Invariant.

(** * More on the paths of [get_token] *)

Section Paths.

Variable D : driver.

(** The prologue of the legacy path on a started service. *)
Lemma legacy_prologue_skips (st : state D) :
  _initialized (svc st) = true ->
  is_some (browser (svc st)) = true ->
  result (legacy_prologue st) = Ret tt /\
  svc (final (legacy_prologue st)) = svc st /\
  events (legacy_prologue st) = [EvTime].
Proof.
  intros Hinit Hbr. unfold legacy_prologue. repeat run_on.
  rewrite Hinit, Hbr. cbn [negb orb]. repeat run_on.
  unfold time_now. cbv beta. cbn [svc world].
  destruct (time_time D (world st)) as [t w]. cbn [result final events].
  repeat run_on. run_done. repeat split.
Qed.

(** The prologue of the legacy path ends with the browser started, or
    raises. *)
Lemma legacy_prologue_starts (st : state D) :
  match result (legacy_prologue st) with
  | Ret _ =>
      _initialized (svc (final (legacy_prologue st))) = true /\
      is_some (browser (svc (final (legacy_prologue st)))) = true
  | Raise _ => True
  end.
Proof.
  destruct (negb (_initialized (svc st)) || negb (is_some (browser (svc st))))
    eqn:Hneed.
  - pose proof (initialize_outcome_parts D st) as H. cbv zeta in H.
    destruct H as (_ & _ & _ & _ & H).
    unfold legacy_prologue. repeat run_on. rewrite Hneed.
    destruct (initialize st) as [[[]|e] s0 ev0]; cbn [result final events] in *;
      repeat run_on; [|run_done; exact I].
    unfold time_now. cbv beta. cbn [svc world].
    destruct (time_time D (world s0)) as [t w]. cbn [result final events].
    repeat run_on. run_done. exact H.
  - apply orb_false_elim in Hneed. destruct Hneed as [Hi Hb].
    apply negb_false_iff in Hi. apply negb_false_iff in Hb.
    destruct (legacy_prologue_skips st Hi Hb) as (Hr & Hs & _).
    rewrite Hr, Hs. split; assumption.
Qed.

(** The [try] statement of the legacy path always returns. *)
Lemma legacy_try_returns (project_id : string) (st : state D) :
  exists v, result (legacy_try project_id st) = Ret v.
Proof.
  pose proof (legacy_try_cases D project_id st) as H. cbv zeta in H.
  destruct (result (open_page (project_url project_id) false st)).
  - destruct H as (Hr & _). rewrite Hr.
    destruct (result (legacy_on_tab _ _)) as [v|e]; eauto.
  - destruct H as (Hr & _). eauto.
Qed.

Lemma legacy_result_split (project_id : string) (st : state D) :
  result (_get_token_legacy project_id st)
  = match result (legacy_prologue st) with
    | Ret _ => result (legacy_try project_id (final (legacy_prologue st)))
    | Raise e => Raise e
    end /\
  svc (final (_get_token_legacy project_id st))
  = match result (legacy_prologue st) with
    | Ret _ => svc (final (legacy_try project_id (final (legacy_prologue st))))
    | Raise e => svc (final (legacy_prologue st))
    end.
Proof.
  unfold _get_token_legacy. repeat run_on.
  destruct (legacy_prologue st) as [[[]|e] s0 ev0];
    cbn [result final events]; run_done; split; reflexivity.
Qed.

(** X20: when the legacy path returns, with a token or with [None], the
    service is marked initialized and holds a browser: the only exception
    that escapes it comes before a browser is there. *)
Theorem legacy_returns_with_browser (project_id : string) (st : state D) :
  match result (_get_token_legacy project_id st) with
  | Ret _ =>
      _initialized (svc (final (_get_token_legacy project_id st))) = true /\
      is_some (browser (svc (final (_get_token_legacy project_id st)))) = true
  | Raise e => result (legacy_prologue st) = Raise e
  end.
Proof.
  destruct (legacy_result_split project_id st) as [Hr Hs].
  rewrite Hr, Hs.
  pose proof (legacy_prologue_starts st) as Hp.
  destruct (result (legacy_prologue st)) as [[]|e]; [|reflexivity].
  destruct (legacy_try_returns project_id (final (legacy_prologue st)))
    as [v Hv].
  rewrite Hv.
  destruct (legacy_try_same D project_id (final (legacy_prologue st)))
    as [Hsame _].
  unfold same_service in Hsame. rewrite <- Hsame. exact Hp.
Qed.

(** X21: on a service that is marked initialized and holds a browser, the
    legacy path returns, with a token or with [None], and leaves the
    instance exactly as it was; it does not ask whether the browser is
    still alive and launches nothing, so that a dead browser shows only as
    a [None]. *)
Theorem legacy_on_started_service (project_id : string) (st : state D) :
  _initialized (svc st) = true ->
  is_some (browser (svc st)) = true ->
  let o := _get_token_legacy project_id st in
  (exists v, result o = Ret v) /\
  svc (final o) = svc st /\
  count is_liveness_check (events o) = 0 /\
  count is_start (events o) = 0.
Proof.
  intros Hinit Hbr o. subst o.
  destruct (legacy_prologue_skips st Hinit Hbr) as (Hr & Hs & He).
  destruct (legacy_result_split project_id st) as [Hres Hsvc].
  rewrite Hr in Hres, Hsvc.
  destruct (legacy_try_same D project_id (final (legacy_prologue st)))
    as [Hsame _].
  destruct (keeps_legacy_try D project_id (final (legacy_prologue st)))
    as [_ Hc].
  unfold same_service in Hsame.
  split; [rewrite Hres; apply legacy_try_returns|].
  split; [rewrite Hsvc, <- Hsame; exact Hs|].
  rewrite legacy_events_split, Hr, He.
  assert (Hlive : forall e, page_events e = true -> is_liveness_check e = false)
    by (intros e; destruct e as [[]| | | | | | | | | | |];
        try reflexivity; discriminate).
  assert (Hstart : forall e, page_events e = true -> is_start e = false)
    by (intros e; destruct e as [[]| | | | | | | | | | |];
        try reflexivity; discriminate).
  split; count_split; cbn.
  - rewrite (count_class page_events _ _ Hlive Hc). reflexivity.
  - rewrite (count_class page_events _ _ Hstart Hc). reflexivity.
Qed.

(** The resident branch when the channel is bound to the project but is
    not ready or has no tab. *)
Lemma resident_attempt_not_ready (project_id : string) (st : state D) :
  _running (svc st) = true ->
  resident_project_id (svc st) = Some project_id ->
  _recaptcha_ready (svc st) = false \/ resident_tab (svc st) = None ->
  resident_attempt project_id st
  = {| result := Ret None; final := st;
       events := [EvLog Warning ResidentNotReadyFallback] |}.
Proof.
  intros Hrun Hid Hnot. unfold resident_attempt. repeat run_on.
  rewrite Hrun, Hid, id_eq_refl. cbn [andb].
  assert (E : _recaptcha_ready (svc st) && is_some (resident_tab (svc st))
              = false).
  { destruct Hnot as [H|H]; rewrite H; [reflexivity | apply andb_false_r]. }
  rewrite E. repeat run_on. run_done. reflexivity.
Qed.

(** X22: when the channel is running and bound to the requested project
    but is not marked ready, or has lost its tab, [get_token] does not call
    the executor of the resident branch: it logs the warning and is the
    legacy path from there on, so that every script of the run is evaluated
    on the tab that the [browser.get] of this legacy run returned. *)
Theorem not_ready_falls_back (project_id : string) (st : state D) :
  _running (svc st) = true ->
  resident_project_id (svc st) = Some project_id ->
  _recaptcha_ready (svc st) = false \/ resident_tab (svc st) = None ->
  let o := get_token project_id st in
  let legacy := _get_token_legacy project_id st in
  result o = result legacy /\
  final o = final legacy /\
  events o = EvCall M_get_token :: EvLog Warning ResidentNotReadyFallback
             :: events legacy /\
  forall (t : Tab) (s : script),
    In (EvEvaluate t s) (events o) ->
    In (EvOpen (project_url project_id) false (Some t)) (events o).
Proof.
  intros Hrun Hid Hnot o legacy. subst o legacy.
  unfold get_token. repeat run_on.
  rewrite (resident_attempt_not_ready project_id st Hrun Hid Hnot).
  cbn [result final events]. run_done.
  split; [reflexivity|]. split; [reflexivity|]. split; [reflexivity|].
  intros t s [H|[H|H]]; try discriminate H.
  right. right. exact (legacy_evaluates_on_its_tab D project_id st t s H).
Qed.

(** X23: an exception of the executor on the resident tab is not caught:
    [get_token] raises it, without falling back to the legacy path and
    without opening or closing a tab. *)
Theorem resident_exception_escapes (project_id : string) (st : state D)
    (tab : Tab) (e : exn) :
  _running (svc st) = true ->
  resident_project_id (svc st) = Some project_id ->
  _recaptcha_ready (svc st) = true ->
  resident_tab (svc st) = Some tab ->
  result (_execute_recaptcha_on_tab (Some tab) (final (time_now st))) = Raise e ->
  let o := get_token project_id st in
  result o = Raise e /\
  count (is_call M_get_token_legacy) (events o) = 0 /\
  count is_open (events o) = 0 /\
  count is_close (events o) = 0.
Proof.
  intros Hrun Hid Hready Htab Hex o. subst o.
  destruct (keeps_execute_recaptcha_on_tab D (Some tab) (final (time_now st)))
    as [_ Hc].
  pose proof (count_tab_events _ _ _ page_events_not_legacy Hc) as Hl.
  pose proof (count_class _ _ _ (tab_events_not_open (Some tab)) Hc) as Ho.
  pose proof (count_class _ _ _ (tab_events_not_close (Some tab)) Hc) as Hcl.
  unfold get_token, resident_attempt. repeat run_on.
  rewrite Hrun, Hid, Hready, Htab, id_eq_refl. cbn [andb is_some].
  repeat run_on. unfold time_now in *. cbv beta in *. cbn [svc world] in *.
  destruct (time_time D (world st)) as [t w]. cbn [result final events] in *.
  repeat run_on. rewrite Hex. repeat run_on. run_done.
  repeat split; count_split; cbn; lia.
Qed.

End Paths.

(** * Starting the channel twice *)

Section Restart.

Variable D : driver.

Lemma opens_nothing_counts (l : list event) :
  forallb opens_nothing l = true ->
  count is_open l = 0 /\ count is_connection_lost l = 0.
Proof.
  intros H. split; apply (count_class opens_nothing); try exact H;
    intros e; unfold opens_nothing;
    destruct (is_open e), (is_connection_lost e);
    try discriminate; reflexivity.
Qed.

Lemma initialize_opens_nothing :
  keeps D any_change opens_nothing (initialize (D := D)).
Proof.
  unfold initialize, check_alive, start_browser.
  frame_auto any_change_refl any_change_trans.
Qed.

Lemma recaptcha_poll_opens_nothing (n i : nat) (tab : option Tab) :
  keeps D any_change opens_nothing (recaptcha_poll n i tab).
Proof.
  revert i. induction n as [|n IH]; intros i.
  - unfold recaptcha_poll. frame_auto any_change_refl any_change_trans.
  - unfold recaptcha_poll; fold (recaptcha_poll (D := D)).
    frame_auto any_change_refl any_change_trans. apply IH.
Qed.

Lemma probe_opens_nothing (tab : option Tab) :
  keeps D any_change opens_nothing (_wait_for_recaptcha tab).
Proof.
  unfold _wait_for_recaptcha.
  frame_auto any_change_refl any_change_trans.
  apply recaptcha_poll_opens_nothing.
Qed.

(** With a browser at hand, [browser.get] is called, whatever comes of
    it. *)
Lemma open_page_opens (url : string) (new_tab : bool) (st : state D) :
  is_some (browser (svc st)) = true ->
  count is_open (events (open_page url new_tab st)) = 1 /\
  count is_connection_lost (events (open_page url new_tab st)) = 0 /\
  svc (final (open_page url new_tab st)) = svc st.
Proof.
  unfold open_page. destruct (browser (svc st)) as [b|]; [|discriminate].
  intros _. destruct (browser_get D b url new_tab (world st)) as [r w].
  repeat split.
Qed.

(** The page-load wait opens a tab once for each connection it finds
    lost. *)
Lemma page_load_loop_opens (n retry : nat) (website_url : string)
    (st : state D) :
  is_some (browser (svc st)) = true ->
  count is_open (events (page_load_loop n retry website_url st))
  = count is_connection_lost (events (page_load_loop n retry website_url st)).
Proof.
  revert retry st. induction n as [|n IH]; intros retry st Hb.
  - reflexivity.
  - unfold page_load_loop; fold (page_load_loop (D := D)).
    repeat run_on.
    destruct (resident_tab (svc st)) as [t|].
    + run_call.
      destruct (tab_evaluate D t DocumentReadyState (world st))
        as [[v|e] w]; cbn [result final events]; repeat run_on.
      * destruct (eq_str v "complete"); repeat run_on.
        -- run_done. reflexivity.
        -- specialize (IH (S retry) {| svc := svc st; world := w |} Hb).
           run_done. count_split. cbn. lia.
      * destruct e; cbv beta iota; repeat run_on.
        -- destruct (open_page_opens website_url true
                       {| svc := svc st; world := w |} Hb) as (O1 & O2 & O3).
           destruct (open_page website_url true
                       {| svc := svc st; world := w |})
             as [[t'|e2] s1 ev1]; cbn [result final events svc] in *;
             repeat run_on.
           ++ assert (Hb' : is_some (browser (svc
                  {| svc := set_resident_tab (Some t') (svc s1);
                     world := world s1 |})) = true).
              { cbn. rewrite O3. exact Hb. }
              specialize (IH (S retry) _ Hb').
              run_done. count_split. cbn. lia.
           ++ assert (Hb' : is_some (browser (svc s1)) = true).
              { rewrite O3. exact Hb. }
              specialize (IH (S retry) s1 Hb').
              run_done. count_split. cbn. lia.
        -- specialize (IH (S retry) {| svc := svc st; world := w |} Hb).
           run_done. count_split. cbn. lia.
        -- specialize (IH (S retry) {| svc := svc st; world := w |} Hb).
           run_done. count_split. cbn. lia.
    + cbn [evaluate]. repeat run_on.
      specialize (IH (S retry) st Hb).
      run_done. count_split. cbn. lia.
Qed.

(** The start procedure opens the resident tab once, and once more for
    each connection that its page-load wait finds lost; it gets that far
    when the browser is started, and ends with the channel running only
    then. *)
Lemma start_body_opens (project_id : string) (st : state D) :
  let o := start_resident_body project_id st in
  (result (initialize st) = Ret tt ->
   count is_open (events o) = 1 + count is_connection_lost (events o)) /\
  (_running (svc st) = false -> _running (svc (final o)) = true ->
   result (initialize st) = Ret tt).
Proof.
  cbv zeta.
  pose proof (initialize_outcome_parts D st) as H. cbv zeta in H.
  destruct H as (Hres & _ & _ & _ & Hb).
  destruct (initialize_opens_nothing st) as [_ Hc].
  apply opens_nothing_counts in Hc. destruct Hc as [I1 I2].
  unfold start_resident_body, start_navigation. repeat run_on.
  destruct (initialize st) as [[[]|e] s0 ev0]; cbn [result final events] in *;
    repeat run_on.
  - split; [intros _ | reflexivity]. destruct Hb as [_ Hb].
    destruct (open_page_opens (project_url project_id) true
                {| svc := set_resident_project_id (Some project_id) (svc s0);
                   world := world s0 |} Hb) as (O1 & O2 & O3).
    destruct (open_page (project_url project_id) true _)
      as [[t|e] s1 ev1]; cbn [result final events svc] in *; repeat run_on.
    + assert (Hb' : is_some (browser (svc
             {| svc := set_resident_tab (Some t) (svc s1);
                world := world s1 |})) = true).
      { cbn. rewrite O3. exact Hb. }
      pose proof (page_load_loop_opens 15 0 (project_url project_id) _ Hb')
        as L.
      destruct (page_load_loop 15 0 (project_url project_id) _)
        as [[[|]|e] s2 ev2]; cbn [result final events negb] in *;
        repeat run_on.
      * destruct (probe_opens_nothing (resident_tab (svc s2)) s2) as [_ Pc].
        apply opens_nothing_counts in Pc. destruct Pc as [P1 P2].
        destruct (_wait_for_recaptcha (resident_tab (svc s2)) s2)
          as [[[|]|e] s3 ev3]; cbn [result final events negb] in *;
          repeat run_on; run_done; count_split; cbn; lia.
      * run_done. count_split. cbn. lia.
      * run_done. count_split. cbn. lia.
    + run_done. count_split. cbn. lia.
  - split; [discriminate|]. run_done. cbn [final svc].
    intros Hrun Hend. exfalso.
    unfold resident_state in Hres. congruence.
Qed.

(** C8, as the code has it: a call of [start_resident_mode] that finds the
    channel running, as a second call does after a first call that
    succeeded, returns at once: it changes nothing, logs one warning, and
    opens no page, so that the two calls together have opened what the
    first one opened, which is one page, and one more for each connection
    that its page-load wait found lost, when the first call found the
    channel not running.  A second call that finds the channel not running,
    after a first call that failed, is the whole start procedure again,
    from the state that the first call left; once its browser is started it
    opens a page again. *)
Theorem start_twice_is_noop (first second : string) (st : state D) :
  let o1 := start_resident_mode first st in
  let o2 := start_resident_mode second (final o1) in
  (_running (svc (final o1)) = true ->
   result o2 = Ret tt /\
   final o2 = final o1 /\
   events o2 = [EvCall M_start_resident_mode;
                EvLog Warning ResidentAlreadyRunning] /\
   count is_open (events o1 ++ events o2) = count is_open (events o1) /\
   (_running (svc st) = false ->
    count is_open (events o1 ++ events o2)
    = 1 + count is_connection_lost (events o1))) /\
  (_running (svc (final o1)) = false ->
   let again := start_resident_body second (final o1) in
   result o2 = result again /\
   final o2 = final again /\
   events o2 = EvCall M_start_resident_mode :: events again /\
   (result (initialize (final o1)) = Ret tt ->
    count is_open (events o2) = 1 + count is_connection_lost (events o2))).
Proof.
  intros o1 o2. subst o1 o2. split.
  - intros Hrun.
    rewrite (start_running_noop D second _ Hrun). cbn [result final events].
    split; [reflexivity|]. split; [reflexivity|]. split; [reflexivity|].
    split; [count_split; cbn; lia|].
    intros Hnot. revert Hrun.
    rewrite (start_not_running D first st Hnot). cbn [result final events].
    intros Hrun.
    destruct (start_body_opens first st) as [Hopen Hinit].
    specialize (Hopen (Hinit Hnot Hrun)).
    count_split. cbn. lia.
  - intros Hnot again. subst again.
    rewrite (start_not_running D second _ Hnot). cbn [result final events].
    split; [reflexivity|]. split; [reflexivity|]. split; [reflexivity|].
    intros Hinit.
    destruct (start_body_opens second
                (final (start_resident_mode first st))) as [Hopen _].
    specialize (Hopen Hinit). count_split. cbn [is_open is_connection_lost]. lia.
Qed.

End Restart.

(** * Further concrete runs *)

Lemma stop_when_not_running_witness :
  _running (svc (fresh loading_page)) = false /\
  events (stop_resident_mode (fresh loading_page))
  = [EvCall M_stop_resident_mode].
Proof.
  split; [reflexivity|].
  apply (stop_when_not_running (static_driver loading_page)
           (fresh loading_page)). reflexivity.
Defined.

Lemma stop_resets_channel_witness :
  _running (svc (resident (good_page "tok") "p")) = true /\
  resident_state (svc (final (stop_resident_mode (resident (good_page "tok") "p"))))
  = (false, None, None, false).
Proof.
  split; [reflexivity|].
  apply (stop_resets_channel (static_driver (good_page "tok"))
           (resident (good_page "tok") "p")). reflexivity.
Defined.

(** Closing the tab raises: the stop still goes through. *)
Example stop_survives_a_failing_close :
  result (stop_resident_mode
            (faulty (good_page "tok") (Ret false) (Ret 1)
               (Raise (OtherException "gone")) (resident_service "p") 7))
  = Ret tt /\
  resident_state
    (svc (final (stop_resident_mode
                   (faulty (good_page "tok") (Ret false) (Ret 1)
                      (Raise (OtherException "gone")) (resident_service "p") 7))))
  = (false, None, None, false).
Proof. split; vm_compute; reflexivity. Qed.

Lemma initialize_alive_is_noop_witness :
  _initialized (svc (resident (good_page "tok") "p")) = true /\
  events (initialize (resident (good_page "tok") "p"))
  = [EvCall M_initialize; EvStopped 1].
Proof.
  split; [reflexivity|].
  apply (initialize_alive_is_noop (static_driver (good_page "tok"))
           (resident (good_page "tok") "p") 1); reflexivity.
Defined.

Lemma initialize_relaunches_witness :
  In (EvMakedirs "/srv/browser_data")
     (events (initialize
                (faulty (good_page "tok") (Ret true) (Ret 2) (Ret tt)
                   (resident_service "p") 7))).
Proof.
  apply (initialize_relaunches
           (faulty_driver (good_page "tok") (Ret true) (Ret 2) (Ret tt))
           (faulty (good_page "tok") (Ret true) (Ret 2) (Ret tt)
              (resident_service "p") 7) 1);
    [reflexivity | reflexivity | discriminate].
Defined.

(** A browser that is dead and cannot be launched again: [initialize]
    raises what the launch raised, and the service is no longer marked
    initialized. *)
Example dead_browser_stays_dead :
  result (initialize
            (faulty (good_page "tok") (Ret true)
               (Raise (OtherException "no display")) (Ret tt)
               (resident_service "p") 7))
  = Raise (OtherException "no display") /\
  _initialized
    (svc (final (initialize
                   (faulty (good_page "tok") (Ret true)
                      (Raise (OtherException "no display")) (Ret tt)
                      (resident_service "p") 7)))) = false.
Proof. split; vm_compute; reflexivity. Qed.

Lemma bare_page_silent (tab : Tab) : silent_page (static_driver bare_page) tab.
Proof. intros v w. reflexivity. Qed.

Lemma bare_page_executes (tab : Tab) : executes (static_driver bare_page) tab.
Proof. split; intros; reflexivity. Qed.

Lemma executor_times_out_witness :
  silent_page (static_driver bare_page) 3 /\
  executes (static_driver bare_page) 3 /\
  tab_sleep_total
    (events (_execute_recaptcha_on_tab (Some 3) (fresh bare_page))) = 15000%Z.
Proof.
  split; [apply bare_page_silent|]. split; [apply bare_page_executes|].
  apply (executor_times_out (static_driver bare_page) 3 (fresh bare_page)
           (bare_page_silent 3) (bare_page_executes 3)).
Defined.

Lemma loading_page_answers (tab : Tab) :
  ready_state_answers (static_driver loading_page) tab.
Proof. split; intros; reflexivity. Qed.

Lemma legacy_dom_wait_is_tolerant_witness :
  ready_state_answers (static_driver loading_page) 3 /\
  result (legacy_dom_loop 10 3 (fresh loading_page)) = Ret tt.
Proof.
  split; [apply loading_page_answers|].
  apply (legacy_dom_wait_is_tolerant (static_driver loading_page) 3
           (fresh loading_page)). apply loading_page_answers.
Defined.

Lemma start_success_binds_witness :
  _running (svc (fresh (good_page "tok"))) = false /\
  get_resident_project_id
    (svc (final (start_resident_mode "p" (fresh (good_page "tok")))))
  = Some "p".
Proof.
  split; [reflexivity|].
  apply (start_success_binds (static_driver (good_page "tok")) "p"
           (fresh (good_page "tok"))); reflexivity.
Defined.

Lemma channel_invariant_witness :
  channel_ok (svc (fresh (good_page "tok"))) /\
  channel_ok
    (svc (final (start_resident_mode "p" (fresh (good_page "tok"))))).
Proof.
  assert (H : channel_ok (svc (fresh (good_page "tok"))))
    by (intros Hr; discriminate Hr).
  split; [exact H|].
  destruct (proj2 (channel_invariant (static_driver (good_page "tok")))
              (fresh (good_page "tok")) H) as (_ & Hstart & _).
  exact (Hstart "p").
Defined.

Lemma legacy_on_started_service_witness :
  _initialized (svc (resident (good_page "tok") "p")) = true /\
  svc (final (_get_token_legacy "q" (resident (good_page "tok") "p")))
  = svc (resident (good_page "tok") "p").
Proof.
  split; [reflexivity|].
  apply (legacy_on_started_service (static_driver (good_page "tok")) "q"
           (resident (good_page "tok") "p")); reflexivity.
Defined.

Lemma not_ready_falls_back_witness :
  _recaptcha_ready (svc (resident_unready (good_page "tok") "p")) = false /\
  result (get_token "p" (resident_unready (good_page "tok") "p"))
  = result (_get_token_legacy "p" (resident_unready (good_page "tok") "p")) /\
  forall (t : Tab) (s : script),
    In (EvEvaluate t s)
       (events (get_token "p" (resident_unready (good_page "tok") "p"))) ->
    In (EvOpen (project_url "p") false (Some t))
       (events (get_token "p" (resident_unready (good_page "tok") "p"))).
Proof.
  split; [reflexivity|].
  destruct (not_ready_falls_back (static_driver (good_page "tok")) "p"
              (resident_unready (good_page "tok") "p")
              eq_refl eq_refl (or_introl eq_refl)) as (Hr & _ & _ & Ht).
  split; [exact Hr | exact Ht].
Defined.

Lemma resident_exception_escapes_witness :
  result (get_token "p" (resident (crashed_page "tok") "p"))
  = Raise (OtherException "target closed").
Proof.
  apply (resident_exception_escapes (static_driver (crashed_page "tok")) "p"
           (resident (crashed_page "tok") "p") 7
           (OtherException "target closed")); reflexivity.
Defined.

Lemma start_twice_is_noop_witness :
  (_running (svc (final (start_resident_mode "p" (fresh (good_page "tok")))))
   = true /\
   events (start_resident_mode "q"
             (final (start_resident_mode "p" (fresh (good_page "tok")))))
   = [EvCall M_start_resident_mode; EvLog Warning ResidentAlreadyRunning] /\
   count is_open
     (events (start_resident_mode "p" (fresh (good_page "tok")))
      ++ events (start_resident_mode "q"
                   (final (start_resident_mode "p" (fresh (good_page "tok"))))))
   = 1) /\
  (_running (svc (final (start_resident_mode "p" (fresh loading_page))))
   = false /\
   count is_open
     (events (start_resident_mode "q"
                (final (start_resident_mode "p" (fresh loading_page)))))
   = 1).
Proof.
  split.
  - destruct (start_twice_is_noop (static_driver (good_page "tok")) "p" "q"
                (fresh (good_page "tok"))) as [Hrun _].
    destruct (Hrun eq_refl) as (_ & _ & Hev & _ & Hcount).
    split; [reflexivity|]. split; [exact Hev|]. exact (Hcount eq_refl).
  - destruct (start_twice_is_noop (static_driver loading_page) "p" "q"
                (fresh loading_page)) as [_ Hnot].
    destruct (Hnot eq_refl) as (_ & _ & _ & Hcount).
    split; [reflexivity|]. exact (Hcount eq_refl).
Defined.

(** On a page where the deletion of the globals raises, the executor
    still returns the token that the polling read. *)
Lemma executor_returns_despite_cleanup :
  result (_execute_recaptcha_on_tab (Some 7) (resident (sticky_page "tok") "p"))
  = Ret (PStr "tok") /\
  fst (tab_evaluate (static_driver (sticky_page "tok")) 7
         (DeleteWindowVars (TokenVar 1700000000000) (ErrorVar 1700000000000))
         7)
  = Raise (OtherException "ProtocolException") /\
  count (is_evaluate is_delete)
    (events (_execute_recaptcha_on_tab (Some 7)
               (resident (sticky_page "tok") "p"))) = 1.
Proof.
  repeat split; vm_compute; reflexivity.
Qed.
